(** * Room game "21": a shallow embedding of the multiplayer block of main.py

    The development follows the source file section by section:
    - [Cards]   : calculate_hand_value, create_deck (with random.shuffle);
    - [Ledger]  : the users table, get_user_balance, update_user_balance;
    - [Rooms]   : the multiplayer_games and game_players tables and the
                  handlers join_room_callback, leave_room_callback,
                  create_room_start, create_room_bet, start_game_callback,
                  process_next_turn, room_action_callback, dealer_turn;
    - [Lobby]   : generate_game_id, close_room_callback;
    - [Dice]    : dice_bet_amount.

    Conventions of the embedding:
    - Python integers are unbounded and are modelled by [Z]; counters that
      only count down to zero ([aces]) and list indices are [nat].  The
      INTEGER columns of the tables are [Z] as well: their 32-bit range is
      not represented.
    - Hands and decks are stored by the program as comma separated text
      and split again on every read; they are the lists those texts
      denote.
    - Every source of randomness is an argument: the draws of
      [random.shuffle], the value of [random.randint], the codes produced
      by [generate_game_id].  The clock ([datetime.now()]) is an argument
      too and time stamps are integers.
    - A SELECT without ORDER BY returns the rows in the order in which
      they were inserted.
    - The handlers run statement by statement against the store, without
      a transaction, in a state-and-exception monad. *)

From stdpp Require Import gmap strings list fin_maps sorting.
From Stdlib Require Import ZArith Lia Ascii.

Open Scope string_scope.
Open Scope list_scope.
Open Scope Z_scope.

(* ===================================================================== *)
(** * Cards, hand value and deck                                          *)
(* ===================================================================== *)

Module Cards.

(** The four suit glyphs of [create_deck]: '♠', '♥', '♦', '♣'. *)
Inductive Suit : Type := Spades | Hearts | Diamonds | Clubs.

#[global] Instance Suit_eq_dec : EqDecision Suit.
Proof. solve_decision. Defined.

(** A card is the text f"{rank}{suit}": a rank token followed by one suit
    glyph.  [card[:-1]] drops that last glyph and is therefore the
    projection [card_rank]. *)
Record Card : Type := mk_card { card_rank : string; card_suit : Suit }.

#[global] Instance Card_eq_dec : EqDecision Card.
Proof. solve_decision. Defined.

Definition suits : list Suit := [Spades; Hearts; Diamonds; Clubs].

Definition ranks : list string :=
  ["2"; "3"; "4"; "5"; "6"; "7"; "8"; "9"; "10"; "J"; "Q"; "K"; "A"].

(** ** Python's [int] on a rank token

    [int(rank)] raises ValueError on text that is not a numeral; the
    exception is the [None] result.  Only plain decimal numerals are
    accepted here (the tokens "2" .. "10" of [ranks] are of that form);
    signs, blanks and underscores, which Python also accepts, are not. *)

Definition digit_of (c : ascii) : option Z :=
  let n := nat_of_ascii c in
  if ((48 <=? n) && (n <=? 57))%nat then Some (Z.of_nat (n - 48)) else None.

Fixpoint int_digits (acc : Z) (s : string) : option Z :=
  match s with
  | EmptyString => Some acc
  | String c s' =>
      match digit_of c with
      | Some d => int_digits (10 * acc + d) s'
      | None => None
      end
  end.

Definition int (s : string) : option Z :=
  match s with
  | EmptyString => None
  | _ => int_digits 0 s
  end.

(** ** calculate_hand_value *)

(** One iteration of [for card in cards]: the pair is (value, aces). *)
Definition count_card (acc : Z * nat) (card : Card) : option (Z * nat) :=
  let '(value, aces) := acc in
  let rank := card_rank card in
  if bool_decide (rank ∈ ["J"; "Q"; "K"]) then Some (value + 10, aces)
  else if bool_decide (rank = "A") then Some (value + 11, S aces)
  else match int rank with
       | Some n => Some (value + n, aces)
       | None => None
       end.

Fixpoint count_cards (acc : Z * nat) (cards : list Card) : option (Z * nat) :=
  match cards with
  | [] => Some acc
  | card :: rest =>
      match count_card acc card with
      | Some acc' => count_cards acc' rest
      | None => None
      end
  end.

(** [while value > 21 and aces: value -= 10; aces -= 1]. *)
Fixpoint soften (value : Z) (aces : nat) : Z :=
  match aces with
  | O => value
  | S aces' => if 21 <? value then soften (value - 10) aces' else value
  end.

Definition calculate_hand_value (cards : list Card) : option Z :=
  match count_cards (0, O) cards with
  | Some (value, aces) => Some (soften value aces)
  | None => None
  end.

(** ** random.shuffle and create_deck

    [random.shuffle(x)] is the in-place loop
    [for i in reversed(range(1, len(x))): j = randbelow(i + 1);
     x[i], x[j] = x[j], x[i]].
    The random source is a list of naturals, one per call of
    [randbelow]; [randbelow n] reduces the draw into [0, n). *)

Definition randbelow (n : nat) (draw : nat) : nat := (draw mod n)%nat.

Definition swap {A} (x : list A) (i j : nat) : list A :=
  match x !! i, x !! j with
  | Some xi, Some xj => <[j := xi]> (<[i := xj]> x)
  | _, _ => x
  end.

Fixpoint shuffle_loop {A} (i : nat) (draws : list nat) (x : list A) : list A :=
  match i with
  | O => x
  | S i' =>
      let j := randbelow (i + 1)%nat (hd O draws) in
      shuffle_loop i' (tl draws) (swap x i j)
  end.

Definition shuffle {A} (draws : list nat) (x : list A) : list A :=
  shuffle_loop (length x - 1)%nat draws x.

(** [[f"{rank}{suit}" for suit in suits for rank in ranks]]. *)
Definition fresh_deck : list Card :=
  flat_map (fun suit => map (fun rank => mk_card rank suit) ranks) suits.

Definition create_deck (draws : list nat) : list Card :=
  shuffle draws fresh_deck.

(** [deck.pop()]: the last element, and the list without it; [None] is
    IndexError on an empty list. *)
Definition pop {A} (l : list A) : option (A * list A) :=
  match reverse l with
  | [] => None
  | x :: r => Some (x, reverse r)
  end.

End Cards.

(* ===================================================================== *)
(** * The users table and the balance helpers                             *)
(* ===================================================================== *)

Module Ledger.

(** The columns of [users] that the game reads or writes. *)
Record user_row : Type := mk_user {
  balance : Z;
  negative_balance : Z;
  game_wins : Z
}.

(** SELECT balance FROM users WHERE user_id=$1, with 0 for a missing row. *)
Definition get_user_balance (users : gmap Z user_row) (user_id : Z) : Z :=
  match users !! user_id with
  | Some row => balance row
  | None => 0
  end.

Definition update_user_balance (users : gmap Z user_row) (user_id : Z) (delta : Z)
  : gmap Z user_row :=
  match users !! user_id with
  | None => users
  | Some row =>
      let new_balance := balance row + delta in
      let '(new_balance, negative) :=
        if new_balance <? 0
        then (0, negative_balance row + Z.abs new_balance)
        else (new_balance, negative_balance row) in
      <[user_id := {| balance := new_balance;
                      negative_balance := negative;
                      game_wins := game_wins row |}]> users
  end.

(** UPDATE users SET game_wins = game_wins + 1 WHERE user_id=$1. *)
Definition add_game_win (users : gmap Z user_row) (user_id : Z) : gmap Z user_row :=
  alter (fun row => {| balance := balance row;
                       negative_balance := negative_balance row;
                       game_wins := game_wins row + 1 |}) user_id users.

End Ledger.

(* ===================================================================== *)
(** * Rooms: tables, effects and handlers                                 *)
(* ===================================================================== *)

Module Rooms.
Import Cards Ledger.

Definition MAX_ROOMS : Z := 20.
Definition MIN_PLAYERS : Z := 2.
Definition MAX_PLAYERS : Z := 5.
Definition MIN_BET : Z := 3.
Definition DEALER_WIN_RATE : Z := 3.

(** The [status] column only ever receives 'waiting' and 'playing'. *)
Inductive Status : Type := waiting | playing.

#[global] Instance Status_eq_dec : EqDecision Status.
Proof. solve_decision. Defined.

(** A row of [multiplayer_games], keyed by [game_id] in the table.  A NULL
    or empty [deck] column reads as the empty list. *)
Record game_row : Type := mk_game {
  host_id : Z;
  max_players : Z;
  bet_amount : Z;
  status : Status;
  deck : list Card;
  created_at : Z
}.

(** A row of [game_players]; [user_id = 0] is the dealer. *)
Record player_row : Type := mk_player {
  game_id : string;
  user_id : Z;
  username : string;
  cards : list Card;
  value : Z;
  stopped : bool;
  joined_at : Z
}.

(** How one seat is settled, with the amount shown to the player. *)
Inductive result : Type :=
  | LossBust (bet : Z)
  | LossForced (bet : Z)
  | Win (win : Z)
  | Loss (bet : Z)
  | Push.

(** Private messages sent with [safe_send_message]. *)
Inductive notice : Type :=
  | PlayerJoined (who : string)
  | BecameHost
  | GameStarted
  | YourTurn (cards : list Card) (value : Z)
  | GameResult (dealer_cards : list Card) (dealer_value : Z) (res : result).

(** The whole store: the three tables, the per-user FSM data
    ([game_id], [player_index]) kept by the dispatcher, and the log of
    private messages. *)
Record db : Type := mk_db {
  users : gmap Z user_row;
  multiplayer_games : gmap string game_row;
  game_players : list player_row;
  fsm : gmap Z (string * nat);
  outbox : list (Z * notice)
}.

(** ** Exceptions and the handler monad

    Statements are executed one by one against the store without a
    transaction, so an exception leaves the writes made before it. *)

Inductive exn : Type :=
  | IndexError
  | ValueError
  | UniqueViolationError
  | OutOfDraws.

Inductive outcome (A : Type) : Type :=
  | Done (a : A)
  | Raised (e : exn).
Arguments Done {A} a.
Arguments Raised {A} e.

Definition io (A : Type) : Type := db -> outcome A * db.

Definition ret {A} (a : A) : io A := fun st => (Done a, st).
Definition raise {A} (e : exn) : io A := fun st => (Raised e, st).
Definition bind {A B} (m : io A) (k : A -> io B) : io B :=
  fun st =>
    match m st with
    | (Done a, st') => k a st'
    | (Raised e, st') => (Raised e, st')
    end.
Definition get : io db := fun st => (Done st, st).
Definition modify (f : db -> db) : io unit := fun st => (Done tt, f st).
Definition try_option {A} (e : exn) (o : option A) : io A :=
  match o with
  | Some a => ret a
  | None => raise e
  end.

Notation "x <- m ;; k" := (bind m (fun x => k))
  (at level 20, m at level 99, k at level 200, only parsing).
Notation "' pat <- m ;; k" := (bind m (fun x => match x with pat => k end))
  (at level 20, pat pattern, m at level 99, k at level 200, only parsing).
Notation "m ;;; k" := (bind m (fun _ => k))
  (at level 100, k at level 200, only parsing, right associativity).

(** ** Store access *)

Definition set_users (f : gmap Z user_row -> gmap Z user_row) (st : db) : db :=
  {| users := f (users st); multiplayer_games := multiplayer_games st;
     game_players := game_players st; fsm := fsm st; outbox := outbox st |}.

Definition set_games (f : gmap string game_row -> gmap string game_row) (st : db) : db :=
  {| users := users st; multiplayer_games := f (multiplayer_games st);
     game_players := game_players st; fsm := fsm st; outbox := outbox st |}.

Definition set_players (f : list player_row -> list player_row) (st : db) : db :=
  {| users := users st; multiplayer_games := multiplayer_games st;
     game_players := f (game_players st); fsm := fsm st; outbox := outbox st |}.

Definition set_fsm (f : gmap Z (string * nat) -> gmap Z (string * nat)) (st : db) : db :=
  {| users := users st; multiplayer_games := multiplayer_games st;
     game_players := game_players st; fsm := f (fsm st); outbox := outbox st |}.

(** safe_send_message: the message is appended to the log. *)
Definition safe_send_message (to : Z) (n : notice) : io unit :=
  modify (fun st =>
    {| users := users st; multiplayer_games := multiplayer_games st;
       game_players := game_players st; fsm := fsm st;
       outbox := outbox st ++ [(to, n)] |}).

Definition in_game (gid : string) (p : player_row) : bool :=
  bool_decide (game_id p = gid).

Definition is_seat (gid : string) (uid : Z) (p : player_row) : bool :=
  bool_decide (game_id p = gid) && bool_decide (user_id p = uid).

(** The condition [user_id != 0]: the row is not the dealer's. *)
Definition is_player (p : player_row) : bool :=
  negb (bool_decide (user_id p = 0)).

(** SELECT ... FROM game_players WHERE game_id=$1, in table order. *)
Definition players_of (gid : string) (st : db) : list player_row :=
  List.filter (in_game gid) (game_players st).

(** ORDER BY joined_at: a stable insertion sort on the time stamp. *)
Fixpoint insert_by_joined_at (p : player_row) (l : list player_row) : list player_row :=
  match l with
  | [] => [p]
  | q :: l' =>
      if joined_at p <=? joined_at q then p :: l
      else q :: insert_by_joined_at p l'
  end.

Definition order_by_joined_at (l : list player_row) : list player_row :=
  foldr insert_by_joined_at [] l.

(** SELECT * FROM game_players WHERE game_id=$1 AND user_id != 0
    ORDER BY joined_at. *)
Definition seats_in_turn_order (gid : string) (st : db) : list player_row :=
  order_by_joined_at (List.filter is_player (players_of gid st)).

(** INSERT INTO game_players; (game_id, user_id) is the primary key. *)
Definition insert_player (p : player_row) : io unit :=
  st <- get ;;
  if existsb (is_seat (game_id p) (user_id p)) (game_players st)
  then raise UniqueViolationError
  else modify (set_players (fun l => l ++ [p])).

(** DELETE FROM game_players WHERE game_id=$1 AND user_id=$2. *)
Definition delete_player (gid : string) (uid : Z) : io unit :=
  modify (set_players (List.filter (fun p => negb (is_seat gid uid p)))).

(** DELETE FROM game_players WHERE game_id=$1. *)
Definition delete_players (gid : string) : io unit :=
  modify (set_players (List.filter (fun p => negb (in_game gid p)))).

(** DELETE FROM multiplayer_games WHERE game_id=$1. *)
Definition delete_game (gid : string) : io unit :=
  modify (set_games (delete gid)).

Definition update_seat (f : player_row -> player_row) (gid : string) (uid : Z) : io unit :=
  modify (set_players (map (fun p => if is_seat gid uid p then f p else p))).

(** UPDATE game_players SET stopped=TRUE WHERE game_id=$1 AND user_id=$2. *)
Definition set_stopped (gid : string) (uid : Z) : io unit :=
  update_seat (fun p => {| game_id := game_id p; user_id := user_id p;
                           username := username p; cards := cards p;
                           value := value p; stopped := true;
                           joined_at := joined_at p |}) gid uid.

(** UPDATE game_players SET cards=$1, value=$2 WHERE game_id=$3 AND user_id=$4. *)
Definition set_hand (gid : string) (uid : Z) (cs : list Card) (v : Z) : io unit :=
  update_seat (fun p => {| game_id := game_id p; user_id := user_id p;
                           username := username p; cards := cs;
                           value := v; stopped := stopped p;
                           joined_at := joined_at p |}) gid uid.

Definition update_game (f : game_row -> game_row) (gid : string) : io unit :=
  modify (set_games (alter f gid)).

(** UPDATE multiplayer_games SET deck=$1 WHERE game_id=$2. *)
Definition set_deck (gid : string) (d : list Card) : io unit :=
  update_game (fun g => {| host_id := host_id g; max_players := max_players g;
                           bet_amount := bet_amount g; status := status g;
                           deck := d; created_at := created_at g |}) gid.

(** UPDATE multiplayer_games SET status='playing' WHERE game_id=$1. *)
Definition set_playing (gid : string) : io unit :=
  update_game (fun g => {| host_id := host_id g; max_players := max_players g;
                           bet_amount := bet_amount g; status := playing;
                           deck := deck g; created_at := created_at g |}) gid.

(** UPDATE multiplayer_games SET host_id=$1 WHERE game_id=$2. *)
Definition set_host (gid : string) (h : Z) : io unit :=
  update_game (fun g => {| host_id := h; max_players := max_players g;
                           bet_amount := bet_amount g; status := status g;
                           deck := deck g; created_at := created_at g |}) gid.

(** [await update_user_balance(uid, delta)], run against the store. *)
Definition credit (uid : Z) (delta : Z) : io unit :=
  modify (set_users (fun u => update_user_balance u uid delta)).

(** ** Answers given to the acting user

    One constructor per [callback.answer] alert or final [edit_text]. *)
Inductive reply : Type :=
  | RoomNotFound
  | RoomFull
  | AlreadyInRoom
  | NotEnoughCoins (bet : Z)
  | Joined
  | LeftRoomRefunded
  | LeftGameLost (bet : Z)
  | RoomLimitReached
  | AskMaxPlayers
  | BadBet
  | RoomCreated (gid : string)
  | OnlyHostCanStart
  | NotEnoughPlayers
  | Started
  | GameNotFound
  | GameAlreadyFinished
  | NotYourTurn
  | DeckEmptyTurnPassed
  | Busted (cards : list Card) (value : Z)
  | HandUpdated (cards : list Card) (value : Z)
  | Stood (value : Z)
  | Surrendered (bet : Z).

(** The three callback data values the action handler is registered for. *)
Inductive Action : Type := room_hit | room_stand | room_surrender.

(** SELECT * FROM multiplayer_games WHERE game_id=$1 AND status='waiting'. *)
Definition fetch_waiting (gid : string) (st : db) : option game_row :=
  match multiplayer_games st !! gid with
  | Some game => if bool_decide (status game = waiting) then Some game else None
  | None => None
  end.

(** ** join_room_callback *)

Definition join_room_callback (gid : string) (uid : Z) (from_username : option string)
    (now : Z) : io reply :=
  let username := default "NoName" from_username in
  st <- get ;;
  match fetch_waiting gid st with
  | None => ret RoomNotFound
  | Some game =>
      let players := players_of gid st in
      if max_players game <=? Z.of_nat (length players) then ret RoomFull
      else if existsb (is_seat gid uid) (game_players st) then ret AlreadyInRoom
      else
        let balance := get_user_balance (users st) uid in
        let bet := bet_amount game in
        if balance <? bet then ret (NotEnoughCoins bet)
        else
          insert_player (mk_player gid uid username [] 0 false now) ;;;
          (if bool_decide (host_id game <> uid)
           then safe_send_message (host_id game) (PlayerJoined username)
           else ret tt) ;;;
          ret Joined
  end.

(** ** leave_room_callback *)

Definition leave_room_callback (gid : string) (uid : Z) : io reply :=
  st <- get ;;
  match multiplayer_games st !! gid with
  | None => ret RoomNotFound
  | Some game =>
      let bet := bet_amount game in
      if bool_decide (status game = waiting) then
        credit uid bet ;;;
        delete_player gid uid ;;;
        (if bool_decide (host_id game = uid) then
           st' <- get ;;
           match order_by_joined_at (players_of gid st') with
           | next :: _ =>
               if bool_decide (user_id next <> 0) then
                 set_host gid (user_id next) ;;;
                 safe_send_message (user_id next) BecameHost
               else delete_game gid
           | [] => delete_game gid
           end
         else ret tt) ;;;
        ret LeftRoomRefunded
      else
        credit uid (- bet) ;;;
        set_stopped gid uid ;;;
        st' <- get ;;
        let players_left :=
          length (List.filter (fun p => is_player p && negb (stopped p))
                              (players_of gid st')) in
        (if bool_decide (players_left = 0%nat) then
           delete_players gid ;;;
           delete_game gid
         else ret tt) ;;;
        ret (LeftGameLost bet)
  end.

(** ** create_room_start and create_room_bet *)

(** SELECT COUNT( * ) FROM multiplayer_games WHERE status='waiting'. *)
Definition count_waiting (st : db) : Z :=
  Z.of_nat (length (List.filter (fun kg => bool_decide (status kg.2 = waiting))
                                (map_to_list (multiplayer_games st)))).

Definition create_room_start : io reply :=
  st <- get ;;
  let count := count_waiting st in
  if MAX_ROOMS <=? count then ret RoomLimitReached
  else ret AskMaxPlayers.

(** [ids] are the successive results of [generate_game_id]; the handler
    keeps the first one that is not a key of the table yet.  [max_players]
    is the number stored by the previous dialogue step, which accepts it
    only between MIN_PLAYERS and MAX_PLAYERS; [bet] is the parsed text. *)
Definition create_room_bet (uid : Z) (from_username : option string)
    (max_players : Z) (bet : Z) (ids : list string) (now : Z) : io reply :=
  if bet <? MIN_BET then ret BadBet
  else
    st <- get ;;
    let balance := get_user_balance (users st) uid in
    if balance <? bet then
      modify (set_fsm (delete uid)) ;;;
      ret (NotEnoughCoins bet)
    else
      gid <- try_option OutOfDraws
               (List.find (fun i => bool_decide (multiplayer_games st !! i = None)) ids) ;;
      modify (set_games (<[gid := mk_game uid max_players bet waiting [] now]>)) ;;;
      insert_player (mk_player gid uid (default "NoName" from_username) [] 0 false now) ;;;
      modify (set_fsm (delete uid)) ;;;
      ret (RoomCreated gid).

(** ** dealer_turn *)

(** [while dealer_value < 17 and deck]: [stack] is the deck with its last
    card first, so that [deck.pop()] takes the head. *)
Fixpoint dealer_draw (gid : string) (stack : list Card)
    (dealer_cards : list Card) (dealer_value : Z) : io (list Card * Z) :=
  match stack with
  | [] => ret (dealer_cards, dealer_value)
  | new_card :: stack' =>
      if dealer_value <? 17 then
        let dealer_cards := dealer_cards ++ [new_card] in
        dealer_value <- try_option ValueError (calculate_hand_value dealer_cards) ;;
        set_hand gid 0 dealer_cards dealer_value ;;;
        set_deck gid (reverse stack') ;;;
        dealer_draw gid stack' dealer_cards dealer_value
      else ret (dealer_cards, dealer_value)
  end.

(** The body of [for player in players] in the settlement. *)
Definition settle_seat (dealer_forced_win : bool) (dealer_value bet : Z)
    (player : player_row) : io (Z * result) :=
  let player_value := value player in
  if 21 <? player_value then
    credit (user_id player) (- bet) ;;;
    ret (user_id player, LossBust bet)
  else if dealer_forced_win then
    credit (user_id player) (- bet) ;;;
    ret (user_id player, LossForced bet)
  else if 21 <? dealer_value then
    let win := bet - 1 in
    credit (user_id player) win ;;;
    modify (set_users (fun u => add_game_win u (user_id player))) ;;;
    ret (user_id player, Win win)
  else if dealer_value <? player_value then
    let win := bet - 1 in
    credit (user_id player) win ;;;
    modify (set_users (fun u => add_game_win u (user_id player))) ;;;
    ret (user_id player, Win win)
  else if player_value <? dealer_value then
    credit (user_id player) (- bet) ;;;
    ret (user_id player, Loss bet)
  else
    ret (user_id player, Push).

Fixpoint settle_seats (dealer_forced_win : bool) (dealer_value bet : Z)
    (players : list player_row) : io (list (Z * result)) :=
  match players with
  | [] => ret []
  | player :: rest =>
      r <- settle_seat dealer_forced_win dealer_value bet player ;;
      rs <- settle_seats dealer_forced_win dealer_value bet rest ;;
      ret (r :: rs)
  end.

Fixpoint send_results (dealer_cards : list Card) (dealer_value : Z)
    (results : list (Z * result)) : io unit :=
  match results with
  | [] => ret tt
  | (uid, res) :: rest =>
      safe_send_message uid (GameResult dealer_cards dealer_value res) ;;;
      send_results dealer_cards dealer_value rest
  end.

(** [rnd] is the value of [random.randint(1, DEALER_WIN_RATE)]. *)
Definition dealer_turn (gid : string) (rnd : Z) : io unit :=
  st <- get ;;
  match multiplayer_games st !! gid with
  | None => ret tt
  | Some game =>
      if bool_decide (status game <> playing) then ret tt
      else
        let '(dealer_cards, dealer_value) :=
          match List.find (is_seat gid 0) (game_players st) with
          | Some dealer => (cards dealer, value dealer)
          | None => ([], 0)
          end in
        '(dealer_cards, dealer_value) <-
           dealer_draw gid (reverse (deck game)) dealer_cards dealer_value ;;
        let dealer_forced_win := bool_decide (rnd = 1) in
        st' <- get ;;
        let players := List.filter is_player (players_of gid st') in
        let bet := bet_amount game in
        results <- settle_seats dealer_forced_win dealer_value bet players ;;
        send_results dealer_cards dealer_value results ;;;
        delete_players gid ;;;
        delete_game gid
  end.

(** ** process_next_turn *)

Definition process_next_turn (gid : string) (player_index : nat) (rnd : Z) : io unit :=
  st <- get ;;
  match multiplayer_games st !! gid with
  | None => ret tt
  | Some game =>
      if bool_decide (status game <> playing) then ret tt
      else
        let players := seats_in_turn_order gid st in
        if (length players <=? player_index)%nat then dealer_turn gid rnd
        else
          current_player <- try_option IndexError (players !! player_index) ;;
          let cards := cards current_player in
          value <- try_option ValueError (calculate_hand_value cards) ;;
          modify (set_fsm (<[user_id current_player := (gid, player_index)]>)) ;;;
          safe_send_message (user_id current_player) (YourTurn cards value)
  end.

(** ** start_game_callback *)

(** [for player in players: cards = [deck.pop(), deck.pop()] ...]; the
    local [deck] is threaded through and returned. *)
Fixpoint deal_hands (gid : string) (players : list player_row) (deck : list Card)
  : io (list Card) :=
  match players with
  | [] => ret deck
  | player :: rest =>
      '(c1, deck) <- try_option IndexError (pop deck) ;;
      '(c2, deck) <- try_option IndexError (pop deck) ;;
      let cards := [c1; c2] in
      value <- try_option ValueError (calculate_hand_value cards) ;;
      set_hand gid (user_id player) cards value ;;;
      deal_hands gid rest deck
  end.

Fixpoint announce_start (players : list player_row) : io unit :=
  match players with
  | [] => ret tt
  | player :: rest =>
      safe_send_message (user_id player) GameStarted ;;;
      announce_start rest
  end.

(** [draws] feeds [random.shuffle]; [rnd] is only consulted if the turn
    sequence reaches the dealer. *)
Definition start_game_callback (gid : string) (uid : Z) (draws : list nat)
    (now : Z) (rnd : Z) : io reply :=
  st <- get ;;
  match fetch_waiting gid st with
  | None => ret RoomNotFound
  | Some game =>
      if bool_decide (host_id game <> uid) then ret OnlyHostCanStart
      else
        let players := players_of gid st in
        if Z.of_nat (length players) <? MIN_PLAYERS then ret NotEnoughPlayers
        else
          set_playing gid ;;;
          let deck := create_deck draws in
          deck <- deal_hands gid players deck ;;
          insert_player (mk_player gid 0 "Дилер" [] 0 false now) ;;;
          set_deck gid deck ;;;
          announce_start players ;;;
          process_next_turn gid 0 rnd ;;;
          ret Started
  end.

(** ** room_action_callback *)

Definition room_action_callback (uid : Z) (action : Action) (rnd : Z) : io reply :=
  st <- get ;;
  match fsm st !! uid with
  | None => ret GameNotFound
  | Some (gid, player_index) =>
      if bool_decide (gid = "") then ret GameNotFound
      else
        match multiplayer_games st !! gid with
        | None => ret GameAlreadyFinished
        | Some game =>
            if bool_decide (status game <> playing) then ret GameAlreadyFinished
            else
              let players := seats_in_turn_order gid st in
              if (length players <=? player_index)%nat
                 || negb (bool_decide (user_id <$> players !! player_index = Some uid))
              then ret NotYourTurn
              else
                let deck := deck game in
                current_player <- try_option IndexError (players !! player_index) ;;
                let cards := cards current_player in
                value <- try_option ValueError (calculate_hand_value cards) ;;
                match action with
                | room_hit =>
                    match pop deck with
                    | None =>
                        set_stopped gid uid ;;;
                        process_next_turn gid (player_index + 1) rnd ;;;
                        ret DeckEmptyTurnPassed
                    | Some (new_card, deck) =>
                        let cards := cards ++ [new_card] in
                        value <- try_option ValueError (calculate_hand_value cards) ;;
                        set_hand gid uid cards value ;;;
                        set_deck gid deck ;;;
                        if 21 <? value then
                          set_stopped gid uid ;;;
                          process_next_turn gid (player_index + 1) rnd ;;;
                          ret (Busted cards value)
                        else ret (HandUpdated cards value)
                    end
                | room_stand =>
                    set_stopped gid uid ;;;
                    process_next_turn gid (player_index + 1) rnd ;;;
                    ret (Stood value)
                | room_surrender =>
                    let bet := bet_amount game in
                    credit uid (- bet) ;;;
                    set_stopped gid uid ;;;
                    process_next_turn gid (player_index + 1) rnd ;;;
                    ret (Surrendered bet)
                end
        end
  end.

End Rooms.

(* ===================================================================== *)
(** * Room codes, closing a room, and the dice game                       *)
(* ===================================================================== *)

Module Lobby.
Import Cards Ledger Rooms.

(** ** generate_game_id

    [random.choices(population, k=6)] picks, six times,
    [population[floor(random() * n)]]; a draw stands for that index and is
    reduced into [0, n). *)

(** string.ascii_uppercase + string.digits *)
Definition alphabet : list ascii :=
  String.list_ascii_of_string "ABCDEFGHIJKLMNOPQRSTUVWXYZ0123456789".

Definition choice (population : list ascii) (draw : nat) : ascii :=
  nth (draw mod length population)%nat population "000"%char.

Fixpoint choices (population : list ascii) (k : nat) (draws : list nat) : list ascii :=
  match k with
  | O => []
  | S k' => choice population (hd O draws) :: choices population k' (tl draws)
  end.

Definition generate_game_id (draws : list nat) : string :=
  String.string_of_list_ascii (choices alphabet 6 draws).

(** ** close_room_callback *)

Inductive close_reply : Type :=
  | CloseRoomNotFound
  | OnlyHostCanClose
  | RoomClosed.

(** [for player in players: await update_user_balance(player['user_id'], bet)] *)
Fixpoint refund_all (players : list player_row) (bet : Z) : io unit :=
  match players with
  | [] => ret tt
  | player :: rest =>
      credit (user_id player) bet ;;;
      refund_all rest bet
  end.

Definition close_room_callback (gid : string) (uid : Z) : io close_reply :=
  st <- get ;;
  match fetch_waiting gid st with
  | None => ret CloseRoomNotFound
  | Some game =>
      if bool_decide (host_id game <> uid) then ret OnlyHostCanClose
      else
        let bet := bet_amount game in
        let players := players_of gid st in
        refund_all players bet ;;;
        delete_players gid ;;;
        delete_game gid ;;;
        ret RoomClosed
  end.

End Lobby.

Module Dice.
Import Ledger Rooms.

(** ** dice_bet_amount

    The handler of the bet text, for a message in a private chat whose
    text is not the back button (the two branches before the parsing only
    end the dialogue).  [amount] is the result of [int(message.text)]
    ([None] for ValueError), [dice1] and [dice2] are the two values of
    [random.randint(1, 6)], [multiplier] is the setting dice_multiplier
    as parsed by [int] before the dice are compared.  [state.finish()]
    clears the dialogue data of the user.  The phrase drawn by
    [random.choice] only words the answer and is not represented. *)

Inductive dice_reply : Type :=
  | NotANumber
  | BetNotPositive
  | DiceNotEnoughCoins
  | DiceWon (dice1 dice2 total profit new_balance : Z)
  | DiceLost (dice1 dice2 total loss new_balance : Z).

Definition dice_bet_amount (uid : Z) (amount : option Z) (dice1 dice2 : Z)
    (multiplier : Z) : io dice_reply :=
  match amount with
  | None => ret NotANumber
  | Some amount =>
      if amount <=? 0 then ret BetNotPositive
      else
        st <- get ;;
        let balance := get_user_balance (users st) uid in
        if balance <? amount then
          modify (set_fsm (delete uid)) ;;;
          ret DiceNotEnoughCoins
        else
          let total := dice1 + dice2 in
          if 7 <? total then
            let profit := amount * multiplier in
            credit uid profit ;;;
            st' <- get ;;
            let new_balance := get_user_balance (users st') uid in
            modify (set_fsm (delete uid)) ;;;
            ret (DiceWon dice1 dice2 total profit new_balance)
          else
            credit uid (- amount) ;;;
            st' <- get ;;
            let new_balance := get_user_balance (users st') uid in
            modify (set_fsm (delete uid)) ;;;
            ret (DiceLost dice1 dice2 total amount new_balance)
  end.

End Dice.

(* ===================================================================== *)
(** * Vocabulary of the statements                                        *)
(* ===================================================================== *)

Import Cards Ledger Rooms.

(** A card of the standard deck: its rank is one of the 13 tokens. *)
Definition valid_card (c : Card) : Prop := card_rank c ∈ ranks.

#[global] Instance valid_card_dec c : Decision (valid_card c).
Proof. unfold valid_card. apply _. Defined.

(** The point table in the words of the rules: court cards count 10,
    numerals their face value, an ace 11. *)
Definition point_table : list (string * Z) :=
  [("2", 2); ("3", 3); ("4", 4); ("5", 5); ("6", 6); ("7", 7); ("8", 8);
   ("9", 9); ("10", 10); ("J", 10); ("Q", 10); ("K", 10); ("A", 11)].

(** The points of a rank token, read off the table. *)
Definition points (rank : string) : Z :=
  match List.find (fun e => bool_decide (e.1 = rank)) point_table with
  | Some e => e.2
  | None => 0
  end.

(** The total of a hand with every ace counted as 11. *)
Definition raw_total (cards : list Card) : Z :=
  foldr (fun c acc => points (card_rank c) + acc) 0 cards.

(** The number of aces in a hand. *)
Definition ace_count (cards : list Card) : nat :=
  length (List.filter (fun c => bool_decide (card_rank c = "A")) cards).

(** Number of aces that end up counted as 1: the least [k] with
    [total - 10 * k <= 21], capped by the number of aces. *)
Definition softened (total : Z) (aces : nat) : Z :=
  Z.min (Z.of_nat aces) (Z.max 0 ((total - 12) / 10)).

(** How many times a card occurs in a deck. *)
Definition occurrences (c : Card) (deck : list Card) : nat :=
  length (filter (fun d => d = c) deck).

(** Two registered users with 100 coins each and no room. *)
Definition store0 : db :=
  mk_db {[ 1 := mk_user 100 0 0; 2 := mk_user 100 0 0 ]} ∅ [] ∅ [].

(** User 1 opens room ROOM01 for two players with stake 10. *)
Definition lobby : db :=
  snd (create_room_bet 1 (Some "alice") 2 10 ["ROOM01"] 1000 store0).

(** User 2 takes the second seat. *)
Definition seated : db :=
  snd (join_room_callback "ROOM01" 2 (Some "bob") 1001 lobby).

(** Draws under which [random.shuffle] swaps every position with itself,
    so that the deck keeps the order of [fresh_deck]. *)
Definition identity_draws : list nat := reverse (seq 1 51).

(** The host starts the game. *)
Definition dealt : db :=
  snd (start_game_callback "ROOM01" 1 identity_draws 1002 2 seated).

(** User 1 stands; the turn passes to user 2. *)
Definition after_stand : db :=
  snd (room_action_callback 1 room_stand 2 dealt).

(** The user the last "your turn" prompt was sent to. *)
Definition prompted (st : db) : option Z :=
  match List.filter (fun m => match m.2 with YourTurn _ _ => true | _ => false end)
                    (reverse (outbox st)) with
  | m :: _ => Some m.1
  | [] => None
  end.

(** The hand stored for a seat. *)
Definition hand_of (gid : string) (uid : Z) (st : db) : option (list Card) :=
  cards <$> List.find (is_seat gid uid) (game_players st).

(** Rooms whose status is waiting or playing. *)
Definition count_open (st : db) : Z :=
  Z.of_nat (length (List.filter
                      (fun kg => bool_decide (status kg.2 = waiting)
                                 || bool_decide (status kg.2 = playing))
                      (map_to_list (multiplayer_games st)))).

(** Twenty room codes. *)
Definition room_ids : list string :=
  ["R01"; "R02"; "R03"; "R04"; "R05"; "R06"; "R07"; "R08"; "R09"; "R10";
   "R11"; "R12"; "R13"; "R14"; "R15"; "R16"; "R17"; "R18"; "R19"; "R20"].

(** Twenty rooms, all of them in play, none waiting. *)
Definition busy_store : db :=
  mk_db ∅ (list_to_map ((fun i => (i, mk_game 1 2 10 playing [] 0)) <$> room_ids)) [] ∅ [].

(** The settlement rules in their order of priority: bust, forced dealer
    win, dealer bust, seat above the dealer, seat below the dealer, push. *)
Definition seat_result (dealer_forced_win : bool) (dealer_value bet player_value : Z)
  : result :=
  if 21 <? player_value then LossBust bet
  else if dealer_forced_win then LossForced bet
  else if 21 <? dealer_value then Win (bet - 1)
  else if dealer_value <? player_value then Win (bet - 1)
  else if player_value <? dealer_value then Loss bet
  else Push.

(** What a result does to the users table. *)
Definition apply_result (users : gmap Z user_row) (uid : Z) (res : result)
  : gmap Z user_row :=
  match res with
  | LossBust bet | LossForced bet | Loss bet => update_user_balance users uid (- bet)
  | Win win => add_game_win (update_user_balance users uid win) uid
  | Push => users
  end.

(** The users table after every seat of [players] has been settled. *)
Definition settle_all (dealer_forced_win : bool) (dealer_value bet : Z)
    (players : list player_row) (users : gmap Z user_row) : gmap Z user_row :=
  foldl (fun u p => apply_result u (user_id p)
                      (seat_result dealer_forced_win dealer_value bet (value p)))
        users players.

(** The private messages that announce the results. *)
Definition result_notices (dealer_cards : list Card) (dealer_value : Z)
    (results : list (Z * result)) : list (Z * notice) :=
  map (fun r => (r.1, GameResult dealer_cards dealer_value r.2)) results.

(** A seat that has been dealt its two cards, with the stored value that of
    the hand. *)
Definition dealt_two (p : player_row) : Prop :=
  length (cards p) = 2%nat /\ calculate_hand_value (cards p) = Some (value p).

(** [p] joined no later than [q]. *)
Definition earlier (p q : player_row) : Prop := joined_at p <= joined_at q.

(** ** Vocabulary of the further properties *)

Import Lobby Dice.

(** An upper case latin letter or a decimal digit. *)
Definition is_code_char (c : ascii) : bool :=
  let n := nat_of_ascii c in
  ((65 <=? n) && (n <=? 90) || (48 <=? n) && (n <=? 57))%nat.

(** The key of a seat row: the primary key (game_id, user_id). *)
Definition seat_key (p : player_row) : string * Z := (game_id p, user_id p).

(** The primary key of [game_players] holds. *)
Definition unique_seats (st : db) : Prop := NoDup (seat_key <$> game_players st).

(** The row of a seat once it is marked stopped. *)
Definition stop_row (p : player_row) : player_row :=
  mk_player (game_id p) (user_id p) (username p) (cards p) (value p) true (joined_at p).

(** The row of a seat once it holds the hand [cs] of value [v]. *)
Definition hand_row (cs : list Card) (v : Z) (p : player_row) : player_row :=
  mk_player (game_id p) (user_id p) (username p) cs v (stopped p) (joined_at p).

(** The table of seats without the seat of [uid] in room [gid]. *)
Definition without_seat (gid : string) (uid : Z) (l : list player_row) : list player_row :=
  List.filter (fun p => negb (is_seat gid uid p)) l.

(** The table of seats without the seats of room [gid]. *)
Definition without_room (gid : string) (l : list player_row) : list player_row :=
  List.filter (fun p => negb (in_game gid p)) l.

(** The seats of room [gid], other than the one of [uid], that can still
    act: not the dealer's and not stopped. *)
Definition still_active (gid : string) (uid : Z) (st : db) : list player_row :=
  List.filter (fun p => is_player p && negb (stopped p) && negb (is_seat gid uid p))
              (players_of gid st).

(** The row of a room with another host. *)
Definition with_host (h : Z) (g : game_row) : game_row :=
  mk_game h (max_players g) (bet_amount g) (status g) (deck g) (created_at g).

(** The row of a room with another deck. *)
Definition with_deck (d : list Card) (g : game_row) : game_row :=
  mk_game (host_id g) (max_players g) (bet_amount g) (status g) d (created_at g).

(** The users table after the stake has been credited to every seat of
    [players]. *)
Definition refunded (bet : Z) (players : list player_row) (table : gmap Z user_row)
  : gmap Z user_row :=
  foldl (fun u p => update_user_balance u (user_id p) bet) table players.

(** It is the turn of [uid] as far as the action handler checks it: the
    user's stored context names room [gid] and index [index], the room is
    in play, and the seat at that index in joining order is the user's
    seat [p]. *)
Definition at_turn (st : db) (uid : Z) (gid : string) (index : nat)
    (game : game_row) (p : player_row) : Prop :=
  fsm st !! uid = Some (gid, index)
  /\ gid <> ""
  /\ multiplayer_games st !! gid = Some game
  /\ status game = playing
  /\ seats_in_turn_order gid st !! index = Some p
  /\ user_id p = uid.

(** The answer [r] in place of the result of a procedure that returned. *)
Definition answer {A} (r : reply) (x : outcome A * db) : outcome reply * db :=
  match x with
  | (Done _, st) => (Done r, st)
  | (Raised e, st) => (Raised e, st)
  end.

(** All cards of a room: the hands of its seats followed by its deck. *)
Definition room_cards (gid : string) (st : db) : list Card :=
  concat (cards <$> players_of gid st)
  ++ default [] (deck <$> multiplayer_games st !! gid).

(** The table of seats after the seat of [uid] in room [gid] has been
    marked stopped, and after it has been given a hand. *)
Definition stop_seat (gid : string) (uid : Z) (l : list player_row) : list player_row :=
  map (fun q => if is_seat gid uid q then stop_row q else q) l.

Definition give_hand (gid : string) (uid : Z) (cs : list Card) (v : Z)
    (l : list player_row) : list player_row :=
  map (fun q => if is_seat gid uid q then hand_row cs v q else q) l.

(** The store of the running game with an empty deck. *)
Definition dry : db := set_games (alter (with_deck []) "ROOM01") dealt.

(* ===================================================================== *)
(** * Properties of the hand value                                        *)
(* ===================================================================== *)

(** Case analysis on membership in a list given by its elements: [tac]
    closes the goal for each element. *)
Ltac each_member H tac :=
  repeat (apply elem_of_cons in H as [-> | H]; [tac |]);
  by apply elem_of_nil in H.

Section HandValue.

Lemma count_card_valid (value : Z) (aces : nat) (c : Card) :
  valid_card c ->
  count_card (value, aces) c =
    Some (value + points (card_rank c),
          if bool_decide (card_rank c = "A") then S aces else aces).
Proof.
  destruct c as [rank suit]. unfold valid_card, ranks. simpl.
  intros Hin. each_member Hin ltac:(reflexivity).
Qed.

Lemma count_cards_valid (cards : list Card) :
  forall (value : Z) (aces : nat),
    Forall valid_card cards ->
    count_cards (value, aces) cards =
      Some (value + raw_total cards, (aces + ace_count cards)%nat).
Proof.
  induction cards as [| c cards IH]; intros value aces Hall.
  - simpl. f_equal. f_equal; [lia | unfold ace_count; simpl; lia].
  - apply Forall_cons in Hall as [Hc Hall].
    cbn [count_cards]. rewrite (count_card_valid _ _ _ Hc).
    rewrite IH by assumption. f_equal.
    unfold ace_count, raw_total. cbn [foldr List.filter].
    f_equal; [lia |].
    destruct (bool_decide (card_rank c = "A")); cbn [length]; lia.
Qed.

Lemma div10_shift (v : Z) : (v - 12) / 10 = (v - 22) / 10 + 1.
Proof.
  replace (v - 12) with ((v - 22) + 1 * 10) by lia.
  by rewrite Z.div_add.
Qed.

Lemma soften_closed_form (aces : nat) :
  forall value : Z, soften value aces = value - 10 * softened value aces.
Proof.
  unfold softened.
  induction aces as [| aces IH]; intros value.
  - simpl.
    assert (0 <= Z.max 0 ((value - 12) / 10)) by lia.
    rewrite Z.min_l by lia. lia.
  - cbn [soften]. destruct (21 <? value) eqn:Hgt.
    + apply Z.ltb_lt in Hgt. rewrite IH.
      rewrite (div10_shift value).
      replace (value - 10 - 12) with (value - 22) by lia.
      assert (0 <= (value - 22) / 10) by (apply Z.div_pos; lia).
      lia.
    + apply Z.ltb_ge in Hgt.
      assert ((value - 12) / 10 <= 0).
      { assert ((value - 12) / 10 < 1); [| lia].
        apply Z.div_lt_upper_bound; lia. }
      lia.
Qed.

Lemma softened_bounds (total : Z) (aces : nat) :
  0 <= softened total aces <= Z.of_nat aces.
Proof. unfold softened. lia. Qed.

(** The loop stops because the total fits or no ace is left. *)
Lemma softened_stops (total : Z) (aces : nat) :
  total - 10 * softened total aces <= 21 \/ softened total aces = Z.of_nat aces.
Proof.
  unfold softened.
  destruct (Z.le_gt_cases (Z.of_nat aces) (Z.max 0 ((total - 12) / 10))) as [Hle | Hlt].
  - right. lia.
  - left. rewrite Z.min_r by lia.
    pose proof (Z.div_mod (total - 12) 10 ltac:(lia)) as Hdm.
    pose proof (Z.mod_pos_bound (total - 12) 10 ltac:(lia)) as Hm.
    lia.
Qed.

(** Every softening was forced: before it the total exceeded 21. *)
Lemma softened_forced (total : Z) (aces : nat) (k : Z) :
  0 <= k < softened total aces -> 21 < total - 10 * k.
Proof.
  unfold softened. intros Hk.
  pose proof (Z.div_mod (total - 12) 10 ltac:(lia)) as Hdm.
  pose proof (Z.mod_pos_bound (total - 12) 10 ltac:(lia)) as Hm.
  lia.
Qed.

(** C7. On every hand of standard cards [calculate_hand_value] returns the
    sum of the card points (J, Q, K worth 10, numerals their face value,
    each ace 11) minus 10 for each softened ace, where aces are softened
    one at a time exactly while the total exceeds 21 and an ace is left;
    ace, ace, 9 gives 21, ace and king 21, and 10, 10, 5 gives 25. *)
Theorem calculate_hand_value_spec (cards : list Card) :
  Forall valid_card cards ->
  let total := raw_total cards in
  let k := softened total (ace_count cards) in
  calculate_hand_value cards = Some (total - 10 * k)
  /\ points "J" = 10 /\ points "Q" = 10 /\ points "K" = 10 /\ points "A" = 11
  /\ (forall s, s ∈ ["2"; "3"; "4"; "5"; "6"; "7"; "8"; "9"; "10"] ->
                int s = Some (points s))
  /\ 0 <= k <= Z.of_nat (ace_count cards)
  /\ (total - 10 * k <= 21 \/ k = Z.of_nat (ace_count cards))
  /\ (forall j, 0 <= j < k -> 21 < total - 10 * j)
  /\ (forall s1 s2 s3,
        calculate_hand_value [mk_card "A" s1; mk_card "A" s2; mk_card "9" s3] = Some 21)
  /\ (forall s1 s2,
        calculate_hand_value [mk_card "A" s1; mk_card "K" s2] = Some 21)
  /\ (forall s1 s2 s3,
        calculate_hand_value [mk_card "10" s1; mk_card "10" s2; mk_card "5" s3] = Some 25).
Proof.
  intros Hall total k. repeat split.
  - unfold calculate_hand_value.
    rewrite (count_cards_valid cards 0 O Hall). simpl.
    rewrite soften_closed_form. subst total k. reflexivity.
  - intros s Hs. each_member Hs ltac:(reflexivity).
  - apply softened_bounds.
  - apply softened_bounds.
  - apply softened_stops.
  - intros j Hj. by apply (softened_forced total (ace_count cards)).
Qed.

Lemma calculate_hand_value_spec_witness :
  Forall valid_card [mk_card "A" Spades; mk_card "7" Hearts; mk_card "A" Clubs; mk_card "5" Diamonds]
  /\ calculate_hand_value
       [mk_card "A" Spades; mk_card "7" Hearts; mk_card "A" Clubs; mk_card "5" Diamonds]
     = Some 14.
Proof.
  split.
  - repeat constructor; vm_compute; set_solver.
  - apply (calculate_hand_value_spec
             [mk_card "A" Spades; mk_card "7" Hearts; mk_card "A" Clubs; mk_card "5" Diamonds]).
    repeat constructor; vm_compute; set_solver.
Defined.

(** The value of a hand of standard cards is always defined. *)
Lemma calculate_hand_value_total (cards : list Card) :
  Forall valid_card cards -> is_Some (calculate_hand_value cards).
Proof.
  intros Hall. unfold calculate_hand_value.
  rewrite (count_cards_valid cards 0 O Hall). simpl. eauto.
Qed.

End HandValue.

(* ===================================================================== *)
(** * Properties of the deck                                              *)
(* ===================================================================== *)

Section Deck.

Lemma swap_Permutation {A} (x : list A) (i j : nat) : swap x i j ≡ₚ x.
Proof.
  unfold swap.
  destruct (x !! i) as [xi |] eqn:Hi; [| reflexivity].
  destruct (x !! j) as [xj |] eqn:Hj; [| reflexivity].
  by apply Permutation_insert_swap.
Qed.

Lemma shuffle_loop_Permutation {A} (i : nat) :
  forall (draws : list nat) (x : list A), shuffle_loop i draws x ≡ₚ x.
Proof.
  induction i as [| i IH]; intros draws x; simpl.
  - reflexivity.
  - rewrite IH. apply swap_Permutation.
Qed.

Lemma shuffle_Permutation {A} (draws : list nat) (x : list A) :
  shuffle draws x ≡ₚ x.
Proof. apply shuffle_loop_Permutation. Qed.

Lemma create_deck_Permutation (draws : list nat) :
  create_deck draws ≡ₚ fresh_deck.
Proof. apply shuffle_Permutation. Qed.

Lemma fresh_deck_NoDup : NoDup fresh_deck.
Proof. apply (bool_decide_unpack _). vm_compute. exact I. Qed.

Lemma fresh_deck_valid : Forall valid_card fresh_deck.
Proof. apply (bool_decide_unpack _). vm_compute. exact I. Qed.

Lemma fresh_deck_complete (rank : string) (suit : Suit) :
  rank ∈ ranks -> occurrences (mk_card rank suit) fresh_deck = 1%nat.
Proof.
  unfold ranks. intros Hin.
  each_member Hin ltac:(destruct suit; vm_compute; reflexivity).
Qed.

Lemma occurrences_Permutation (c : Card) (d1 d2 : list Card) :
  d1 ≡ₚ d2 -> occurrences c d1 = occurrences c d2.
Proof. unfold occurrences. intros Hp. by rewrite Hp. Qed.

Lemma create_deck_valid (draws : list nat) : Forall valid_card (create_deck draws).
Proof. rewrite create_deck_Permutation. apply fresh_deck_valid. Qed.

Lemma create_deck_length (draws : list nat) : length (create_deck draws) = 52%nat.
Proof. by rewrite create_deck_Permutation. Qed.

(** C8. Whatever the random draws, [create_deck] returns 52 cards, all of
    them pairs of one of the 13 ranks and one of the 4 suits, without
    repetition, and every (rank, suit) pair occurs in it exactly once. *)
Theorem create_deck_standard (draws : list nat) :
  length (create_deck draws) = 52%nat
  /\ length ranks = 13%nat /\ NoDup ranks
  /\ length suits = 4%nat /\ NoDup suits /\ (forall s : Suit, s ∈ suits)
  /\ NoDup (create_deck draws)
  /\ (forall c, c ∈ create_deck draws -> card_rank c ∈ ranks)
  /\ (forall rank suit,
         rank ∈ ranks -> occurrences (mk_card rank suit) (create_deck draws) = 1%nat).
Proof.
  split; [apply create_deck_length |].
  split; [reflexivity |].
  split; [apply (bool_decide_unpack _); vm_compute; exact I |].
  split; [reflexivity |].
  split; [apply (bool_decide_unpack _); vm_compute; exact I |].
  split; [intros []; unfold suits; set_solver |].
  split; [rewrite create_deck_Permutation; apply fresh_deck_NoDup |].
  split.
  - intros c Hc. pose proof (create_deck_valid draws) as Hall.
    rewrite Forall_forall in Hall. by apply Hall.
  - intros rank suit Hin.
    rewrite (occurrences_Permutation _ _ _ (create_deck_Permutation draws)).
    by apply fresh_deck_complete.
Qed.

Lemma create_deck_standard_witness :
  occurrences (mk_card "10" Hearts) (create_deck [3; 1; 4; 1; 5; 9; 2; 6]%nat) = 1%nat.
Proof.
  apply (create_deck_standard [3; 1; 4; 1; 5; 9; 2; 6]%nat).
  vm_compute. set_solver.
Defined.

End Deck.

(* ===================================================================== *)
(** * Properties of the balance helper                                    *)
(* ===================================================================== *)

Section Balance.

Lemma update_user_balance_lookup (users : gmap Z user_row) (uid : Z) (row : user_row)
    (delta : Z) :
  users !! uid = Some row ->
  update_user_balance users uid delta !! uid =
    Some (if balance row + delta <? 0
          then mk_user 0 (negative_balance row + Z.abs (balance row + delta)) (game_wins row)
          else mk_user (balance row + delta) (negative_balance row) (game_wins row)).
Proof.
  intros Hrow. unfold update_user_balance. rewrite Hrow.
  destruct (balance row + delta <? 0); simpl; by rewrite lookup_insert_eq.
Qed.

Lemma update_user_balance_other (users : gmap Z user_row) (uid uid' : Z) (delta : Z) :
  uid' <> uid ->
  update_user_balance users uid delta !! uid' = users !! uid'.
Proof.
  intros Hne. unfold update_user_balance.
  destruct (users !! uid) as [row |]; [| reflexivity].
  destruct (balance row + delta <? 0); simpl; by rewrite lookup_insert_ne.
Qed.

Lemma update_user_balance_absent (users : gmap Z user_row) (uid : Z) (delta : Z) :
  users !! uid = None -> update_user_balance users uid delta = users.
Proof. intros Hnone. unfold update_user_balance. by rewrite Hnone. Qed.

(** C10. For a user present in the table, [update_user_balance] never
    stores a negative balance: when balance + delta is below zero the
    stored balance is 0 and the shortfall is added to negative_balance,
    otherwise balance + delta is stored; so a debit of a stake, which the
    game always makes through this helper, lowers the visible balance by
    no more than the balance the player had. *)
Theorem update_user_balance_never_negative (table : gmap Z user_row) (uid : Z)
    (row : user_row) (delta : Z) :
  table !! uid = Some row ->
  exists row',
    update_user_balance table uid delta !! uid = Some row'
    /\ 0 <= balance row'
    /\ (balance row + delta < 0 ->
        balance row' = 0
        /\ negative_balance row' = negative_balance row + Z.abs (balance row + delta))
    /\ (0 <= balance row + delta ->
        balance row' = balance row + delta
        /\ negative_balance row' = negative_balance row)
    /\ (forall bet, delta = - bet ->
        get_user_balance table uid
          - get_user_balance (update_user_balance table uid delta) uid
        <= get_user_balance table uid)
    /\ (forall (st : db) (bet : Z),
          users st = table -> delta = - bet ->
          credit uid (- bet) st
          = (Done tt, set_users (fun _ => update_user_balance table uid delta) st)).
Proof.
  intros Hrow.
  pose proof (update_user_balance_lookup table uid row delta Hrow) as Hnew.
  eexists. split; [exact Hnew |].
  unfold get_user_balance. rewrite Hnew, Hrow.
  assert (forall (st : db) (bet : Z),
            users st = table -> delta = - bet ->
            credit uid (- bet) st
            = (Done tt, set_users (fun _ => update_user_balance table uid delta) st))
    as Hcredit.
  { intros st bet <- ->. reflexivity. }
  destruct (balance row + delta <? 0) eqn:Hneg; simpl.
  - apply Z.ltb_lt in Hneg. repeat split; try lia. exact Hcredit.
  - apply Z.ltb_ge in Hneg. repeat split; try lia. exact Hcredit.
Qed.

Lemma update_user_balance_never_negative_witness :
  exists row',
    update_user_balance {[ 7 := mk_user 5 2 0 ]} 7 (- 8) !! 7 = Some row'
    /\ balance row' = 0 /\ negative_balance row' = 5.
Proof.
  destruct (update_user_balance_never_negative
              {[ 7 := mk_user 5 2 0 ]} 7 (mk_user 5 2 0) (- 8))
    as (row' & Hrow' & _ & Hneg & _).
  - reflexivity.
  - exists row'. split; [exact Hrow' |]. apply Hneg. simpl. lia.
Defined.

End Balance.

(* ===================================================================== *)
(** * Concrete runs of a room with two players                             *)
(* ===================================================================== *)

Section Runs.

Lemma identity_shuffle : create_deck identity_draws = fresh_deck.
Proof. vm_compute. reflexivity. Qed.

Lemma lobby_run :
  create_room_bet 1 (Some "alice") 2 10 ["ROOM01"] 1000 store0
  = (Done (RoomCreated "ROOM01"), lobby)
  /\ multiplayer_games lobby !! "ROOM01" = Some (mk_game 1 2 10 waiting [] 1000)
  /\ game_players lobby = [mk_player "ROOM01" 1 "alice" [] 0 false 1000]
  /\ users lobby = users store0.
Proof. vm_compute. repeat split; reflexivity. Qed.

Lemma seated_run :
  join_room_callback "ROOM01" 2 (Some "bob") 1001 lobby = (Done Joined, seated)
  /\ game_players seated =
       [mk_player "ROOM01" 1 "alice" [] 0 false 1000;
        mk_player "ROOM01" 2 "bob" [] 0 false 1001].
Proof. vm_compute. split; reflexivity. Qed.

Lemma dealt_run :
  start_game_callback "ROOM01" 1 identity_draws 1002 2 seated = (Done Started, dealt)
  /\ hand_of "ROOM01" 1 dealt = Some [mk_card "A" Clubs; mk_card "K" Clubs]
  /\ hand_of "ROOM01" 2 dealt = Some [mk_card "Q" Clubs; mk_card "J" Clubs]
  /\ hand_of "ROOM01" 0 dealt = Some []
  /\ prompted dealt = Some 1
  /\ users dealt = users store0.
Proof. vm_compute. repeat split; reflexivity. Qed.

Lemma after_stand_run :
  room_action_callback 1 room_stand 2 dealt = (Done (Stood 21), after_stand)
  /\ prompted after_stand = Some 2
  /\ fsm after_stand !! 2 = Some ("ROOM01", 1%nat)
  /\ users after_stand = users store0.
Proof. vm_compute. repeat split; reflexivity. Qed.

End Runs.

(* ===================================================================== *)
(** * Opening a room: the global limit                                    *)
(* ===================================================================== *)

Section RoomLimit.

(** C9, as stated, fails: with twenty rooms in play and none waiting the
    count of waiting or playing rooms has reached MAX_ROOMS, yet the
    request is not rejected. *)
Lemma create_room_start_ignores_playing :
  MAX_ROOMS <= count_open busy_store
  /\ create_room_start busy_store = (Done AskMaxPlayers, busy_store).
Proof. vm_compute. split; [discriminate | reflexivity]. Qed.

Lemma filter_length_Permutation {A} (f : A -> bool) (l1 l2 : list A) :
  l1 ≡ₚ l2 -> length (List.filter f l1) = length (List.filter f l2).
Proof.
  induction 1 as [| x l1 l2 _ IH | x y l | l1 l2 l3 _ IH1 _ IH2]; simpl.
  - reflexivity.
  - destruct (f x); simpl; by rewrite IH.
  - destruct (f x), (f y); reflexivity.
  - by rewrite IH1.
Qed.

(** Opening one more room raises the count by one if the room is waiting
    and not at all if it is in play. *)
Lemma count_waiting_insert (st : db) (gid : string) (game : game_row) :
  multiplayer_games st !! gid = None ->
  count_waiting (set_games (insert gid game) st)
  = count_waiting st + (if bool_decide (status game = waiting) then 1 else 0).
Proof.
  intros Hfresh. unfold count_waiting. cbn [multiplayer_games set_games].
  rewrite (filter_length_Permutation _ _ _ (map_to_list_insert _ _ game Hfresh)).
  cbn [List.filter snd].
  destruct (bool_decide (status game = waiting)); cbn [length]; lia.
Qed.

(** C9, amended. A create-room request is rejected with the limit message
    exactly when the number of rooms whose status is waiting is at least
    MAX_ROOMS = 20; otherwise the dialogue proceeds.  The store is not
    changed either way, and a room in play does not count. *)
Theorem create_room_start_limit (st : db) :
  MAX_ROOMS = 20
  /\ (create_room_start st = (Done RoomLimitReached, st) <-> MAX_ROOMS <= count_waiting st)
  /\ (create_room_start st = (Done AskMaxPlayers, st) <-> count_waiting st < MAX_ROOMS)
  /\ (forall gid game,
        multiplayer_games st !! gid = None ->
        count_waiting (set_games (insert gid game) st)
        = count_waiting st + (if bool_decide (status game = waiting) then 1 else 0)).
Proof.
  split; [reflexivity |].
  assert (forall gid game,
            multiplayer_games st !! gid = None ->
            count_waiting (set_games (insert gid game) st)
            = count_waiting st + (if bool_decide (status game = waiting) then 1 else 0))
    as Hcount by (intros; by apply count_waiting_insert).
  unfold create_room_start, bind, get, ret.
  destruct (MAX_ROOMS <=? count_waiting st) eqn:Hcmp.
  - apply Z.leb_le in Hcmp.
    split; [| split]; [split; intros H; try done; lia .. | exact Hcount].
  - apply Z.leb_gt in Hcmp.
    split; [| split]; [split; intros H; try done; lia .. | exact Hcount].
Qed.

Lemma create_room_start_limit_witness :
  count_waiting busy_store < MAX_ROOMS
  /\ create_room_start busy_store = (Done AskMaxPlayers, busy_store).
Proof.
  assert (count_waiting busy_store < MAX_ROOMS) as Hfree by (vm_compute; reflexivity).
  split; [exact Hfree |].
  by apply (create_room_start_limit busy_store).
Defined.

End RoomLimit.

(* ===================================================================== *)
(** * Joining and leaving a room                                          *)
(* ===================================================================== *)

Section JoinLeave.

(** C1, as stated, fails: user 2 joins ROOM01 (stake 10) with 100 coins;
    the join succeeds and the balance is still 100, not 90. *)
Lemma join_room_does_not_debit :
  fetch_waiting "ROOM01" lobby = Some (mk_game 1 2 10 waiting [] 1000)
  /\ existsb (is_seat "ROOM01" 2) (game_players lobby) = false
  /\ get_user_balance (users lobby) 2 = 100
  /\ fst (join_room_callback "ROOM01" 2 (Some "bob") 1001 lobby) = Done Joined
  /\ get_user_balance (users (snd (join_room_callback "ROOM01" 2 (Some "bob") 1001 lobby))) 2
     <> get_user_balance (users lobby) 2 - 10.
Proof. vm_compute. repeat split; try reflexivity. discriminate. Qed.

Lemma insert_player_fresh (p : player_row) (st : db) :
  existsb (is_seat (game_id p) (user_id p)) (game_players st) = false ->
  insert_player p st = (Done tt, set_players (fun l => l ++ [p]) st).
Proof.
  intros Hfresh. unfold insert_player, bind, get. by rewrite Hfresh.
Qed.

(** A successful join, step by step. *)
Lemma join_room_callback_run (st : db) (gid : string) (uid : Z)
    (from_username : option string) (now : Z) (game : game_row) :
  fetch_waiting gid st = Some game ->
  Z.of_nat (length (players_of gid st)) < max_players game ->
  existsb (is_seat gid uid) (game_players st) = false ->
  bet_amount game <= get_user_balance (users st) uid ->
  exists st',
    join_room_callback gid uid from_username now st = (Done Joined, st')
    /\ game_players st' =
         game_players st ++ [mk_player gid uid (default "NoName" from_username) [] 0 false now]
    /\ users st' = users st
    /\ multiplayer_games st' = multiplayer_games st.
Proof.
  intros Hgame Hroom Hfresh Hbal.
  unfold join_room_callback, bind, get. rewrite Hgame.
  destruct (max_players game <=? Z.of_nat (length (players_of gid st))) eqn:Hfull;
    [apply Z.leb_le in Hfull; lia |].
  rewrite Hfresh.
  destruct (get_user_balance (users st) uid <? bet_amount game) eqn:Hlow;
    [apply Z.ltb_lt in Hlow; lia |].
  rewrite insert_player_fresh by exact Hfresh.
  destruct (bool_decide (host_id game <> uid)); simpl; eexists; split;
    try reflexivity; simpl; done.
Qed.

(** C1, amended. For a waiting room with a free seat and a player who is
    not seated in it and whose balance is at least the stake, the join
    succeeds and appends the player's seat, with an empty hand, to the
    room; no balance is changed: the stake is only compared with the
    balance. *)
Theorem join_room_inserts_seat (st : db) (gid : string) (uid : Z)
    (from_username : option string) (now : Z) (game : game_row) :
  fetch_waiting gid st = Some game ->
  Z.of_nat (length (players_of gid st)) < max_players game ->
  existsb (is_seat gid uid) (game_players st) = false ->
  bet_amount game <= get_user_balance (users st) uid ->
  exists st',
    join_room_callback gid uid from_username now st = (Done Joined, st')
    /\ game_players st' =
         game_players st ++ [mk_player gid uid (default "NoName" from_username) [] 0 false now]
    /\ users st' = users st
    /\ get_user_balance (users st') uid = get_user_balance (users st) uid
    /\ multiplayer_games st' = multiplayer_games st.
Proof.
  intros Hgame Hroom Hfresh Hbal.
  destruct (join_room_callback_run st gid uid from_username now game Hgame Hroom Hfresh Hbal)
    as (st' & Hrun & Hseats & Husers & Hgames).
  exists st'. repeat split; try assumption. by rewrite Husers.
Qed.

Lemma join_room_inserts_seat_witness :
  exists st',
    join_room_callback "ROOM01" 2 (Some "bob") 1001 lobby = (Done Joined, st')
    /\ get_user_balance (users st') 2 = 100.
Proof.
  destruct (join_room_inserts_seat lobby "ROOM01" 2 (Some "bob") 1001
              (mk_game 1 2 10 waiting [] 1000))
    as (st' & Hrun & _ & _ & Hbal & _).
  - reflexivity.
  - vm_compute. reflexivity.
  - reflexivity.
  - vm_compute. discriminate.
  - exists st'. split; [exact Hrun |]. rewrite Hbal. reflexivity.
Defined.

(** C2 on the code: user 2 joins ROOM01 with 100 coins and leaves before
    the start; the "refund" of the stake, which was never taken, leaves
    110 coins. *)
Lemma join_then_leave_gains_stake :
  get_user_balance (users lobby) 2 = 100
  /\ join_room_callback "ROOM01" 2 (Some "bob") 1001 lobby = (Done Joined, seated)
  /\ get_user_balance (users seated) 2 = 100
  /\ fst (leave_room_callback "ROOM01" 2 seated) = Done LeftRoomRefunded
  /\ get_user_balance (users (snd (leave_room_callback "ROOM01" 2 seated))) 2 = 110.
Proof. vm_compute. repeat split; reflexivity. Qed.

(** What leaving a waiting room does to the users table, in general: the
    stake is credited to the leaver. *)
Lemma leave_waiting_room_credits (st : db) (gid : string) (uid : Z) (game : game_row) :
  multiplayer_games st !! gid = Some game ->
  status game = waiting ->
  exists st',
    leave_room_callback gid uid st = (Done LeftRoomRefunded, st')
    /\ users st' = update_user_balance (users st) uid (bet_amount game).
Proof.
  intros Hgame Hwaiting.
  unfold leave_room_callback. unfold bind at 1. cbn [get]. rewrite Hgame.
  rewrite (bool_decide_eq_true_2 _ Hwaiting).
  unfold bind at 1. cbn [credit modify].
  unfold bind at 1. cbn [delete_player modify].
  unfold bind at 1.
  destruct (bool_decide (host_id game = uid)); [| by eexists].
  unfold bind at 1. cbn [get].
  match goal with
  | |- context [order_by_joined_at ?l] => destruct (order_by_joined_at l) as [| next rest]
  end; [by eexists |].
  destruct (bool_decide (user_id next <> 0)); by eexists.
Qed.

(** Hence, for a registered player, joining a waiting room and leaving it
    before the start adds the stake to the balance. *)
Lemma join_then_leave_adds_stake (st : db) (gid : string) (uid : Z)
    (from_username : option string) (now : Z) (game : game_row) (row : user_row) :
  fetch_waiting gid st = Some game ->
  Z.of_nat (length (players_of gid st)) < max_players game ->
  existsb (is_seat gid uid) (game_players st) = false ->
  users st !! uid = Some row ->
  0 <= bet_amount game <= balance row ->
  exists st1 st2,
    join_room_callback gid uid from_username now st = (Done Joined, st1)
    /\ leave_room_callback gid uid st1 = (Done LeftRoomRefunded, st2)
    /\ get_user_balance (users st2) uid
       = get_user_balance (users st) uid + bet_amount game.
Proof.
  intros Hfetch Hroom Hfresh Hrow Hbet.
  assert (multiplayer_games st !! gid = Some game /\ status game = waiting)
    as [Hgame Hwaiting].
  { unfold fetch_waiting in Hfetch.
    destruct (multiplayer_games st !! gid) as [g |]; [| discriminate].
    destruct (bool_decide (status g = waiting)) eqn:Hw; [| discriminate].
    apply bool_decide_eq_true in Hw. by injection Hfetch as ->. }
  destruct (join_room_callback_run st gid uid from_username now game)
    as (st1 & Hjoin & _ & Husers & Hgames); try assumption.
  { unfold get_user_balance. rewrite Hrow. lia. }
  destruct (leave_waiting_room_credits st1 gid uid game) as (st2 & Hleave & Husers2);
    [by rewrite Hgames | exact Hwaiting |].
  exists st1, st2. split; [exact Hjoin |]. split; [exact Hleave |].
  rewrite Husers2, Husers. unfold get_user_balance.
  rewrite (update_user_balance_lookup _ _ row) by exact Hrow. rewrite Hrow.
  destruct (balance row + bet_amount game <? 0) eqn:Hneg;
    [apply Z.ltb_lt in Hneg; lia | reflexivity].
Qed.

(** C3 on the code: user 1 has stood, then leaves the running game and is
    charged the stake (100 to 90); when user 2 stands the dealer settles
    the room and user 1's seat is settled with it: a win of 9 without the
    forced dealer win, a second loss of 10 with it. *)
Lemma leave_during_play_settled_again :
  let left := snd (leave_room_callback "ROOM01" 1 after_stand) in
  fst (leave_room_callback "ROOM01" 1 after_stand) = Done (LeftGameLost 10)
  /\ get_user_balance (users after_stand) 1 = 100
  /\ get_user_balance (users left) 1 = 90
  /\ fst (room_action_callback 2 room_stand 2 left) = Done (Stood 20)
  /\ get_user_balance (users (snd (room_action_callback 2 room_stand 2 left))) 1 = 99
  /\ fst (room_action_callback 2 room_stand 1 left) = Done (Stood 20)
  /\ get_user_balance (users (snd (room_action_callback 2 room_stand 1 left))) 1 = 80.
Proof. vm_compute. repeat split; reflexivity. Qed.

(** C5 on the code: after user 1 has stood the prompt is with user 2, yet
    a late surrender of user 1 is applied (10 coins are taken), and a late
    hit of user 1 draws a card from the deck. *)
Lemma late_action_is_applied :
  prompted after_stand = Some 2
  /\ fst (room_action_callback 1 room_surrender 2 after_stand) = Done (Surrendered 10)
  /\ get_user_balance (users after_stand) 1 = 100
  /\ get_user_balance (users (snd (room_action_callback 1 room_surrender 2 after_stand))) 1 = 90
  /\ fst (room_action_callback 1 room_hit 2 after_stand)
     = Done (HandUpdated [mk_card "A" Clubs; mk_card "K" Clubs; mk_card "10" Clubs] 21)
  /\ (deck <$> multiplayer_games after_stand !! "ROOM01")
     <> (deck <$> multiplayer_games (snd (room_action_callback 1 room_hit 2 after_stand))
                    !! "ROOM01").
Proof. vm_compute. repeat split; try reflexivity. discriminate. Qed.

End JoinLeave.

(* ===================================================================== *)
(** * Settlement by the dealer                                            *)
(* ===================================================================== *)

Section Settlement.

Lemma settle_seat_run (forced : bool) (dealer_value bet : Z) (p : player_row) (st : db) :
  settle_seat forced dealer_value bet p st =
    (Done (user_id p, seat_result forced dealer_value bet (value p)),
     set_users (fun u => apply_result u (user_id p)
                           (seat_result forced dealer_value bet (value p))) st).
Proof.
  unfold settle_seat, seat_result.
  destruct (21 <? value p); [reflexivity |].
  destruct forced; [reflexivity |].
  destruct (21 <? dealer_value); [reflexivity |].
  destruct (dealer_value <? value p); [reflexivity |].
  destruct (value p <? dealer_value); [reflexivity |].
  destruct st; reflexivity.
Qed.

Lemma settle_seats_run (forced : bool) (dealer_value bet : Z) (players : list player_row) :
  forall st : db,
    settle_seats forced dealer_value bet players st =
      (Done (map (fun p => (user_id p, seat_result forced dealer_value bet (value p)))
                 players),
       set_users (settle_all forced dealer_value bet players) st).
Proof.
  induction players as [| p players IH]; intros st.
  - destruct st; reflexivity.
  - cbn [settle_seats]. unfold bind at 1. rewrite settle_seat_run.
    unfold bind at 1. rewrite IH. reflexivity.
Qed.

Lemma send_results_run (dealer_cards : list Card) (dealer_value : Z)
    (results : list (Z * result)) :
  forall st : db,
    send_results dealer_cards dealer_value results st =
      (Done tt,
       mk_db (users st) (multiplayer_games st) (game_players st) (fsm st)
             (outbox st ++ result_notices dealer_cards dealer_value results)).
Proof.
  induction results as [| [uid res] results IH]; intros st.
  - simpl. unfold ret. rewrite app_nil_r. by destruct st.
  - cbn [send_results]. unfold bind at 1. unfold safe_send_message, modify.
    rewrite IH. simpl. by rewrite <- app_assoc.
Qed.

Lemma filter_seats_update_dealer (f : player_row -> player_row) (gid gid' : string)
    (l : list player_row) :
  (forall p, game_id (f p) = game_id p /\ user_id (f p) = user_id p) ->
  List.filter is_player
    (List.filter (in_game gid') (map (fun p => if is_seat gid 0 p then f p else p) l))
  = List.filter is_player (List.filter (in_game gid') l).
Proof.
  intros Hf. induction l as [| p l IH]; [reflexivity |].
  cbn [map List.filter].
  destruct (is_seat gid 0 p) eqn:Hseat.
  - apply andb_true_iff in Hseat as [_ Huid].
    apply bool_decide_eq_true in Huid.
    destruct (Hf p) as [Hg Hu].
    assert (in_game gid' (f p) = in_game gid' p) as -> by (unfold in_game; by rewrite Hg).
    assert (is_player (f p) = false) as Hfp
      by (unfold is_player; rewrite Hu, Huid; reflexivity).
    assert (is_player p = false) as Hp
      by (unfold is_player; rewrite Huid; reflexivity).
    destruct (in_game gid' p); [| exact IH].
    cbn [List.filter]. rewrite Hfp, Hp. exact IH.
  - destruct (in_game gid' p); [| exact IH].
    cbn [List.filter]. destruct (is_player p); [| exact IH].
    by rewrite IH.
Qed.

Lemma dealer_draw_run (gid : string) (stack : list Card) :
  forall (dealer_cards : list Card) (dealer_value : Z) (st : db),
    Forall valid_card stack ->
    Forall valid_card dealer_cards ->
    exists dealer_cards' dealer_value' st',
      dealer_draw gid stack dealer_cards dealer_value st
        = (Done (dealer_cards', dealer_value'), st')
      /\ users st' = users st
      /\ outbox st' = outbox st
      /\ List.filter is_player (players_of gid st')
         = List.filter is_player (players_of gid st).
Proof.
  induction stack as [| new_card stack IH]; intros dealer_cards dealer_value st Hstack Hhand.
  - simpl. by eexists _, _, _.
  - cbn [dealer_draw]. destruct (dealer_value <? 17); [| by eexists _, _, _].
    apply Forall_cons in Hstack as [Hnew Hstack].
    assert (Forall valid_card (dealer_cards ++ [new_card])) as Hhand'.
    { apply Forall_app. split; [assumption | by constructor]. }
    destruct (calculate_hand_value_total _ Hhand') as [v Hv].
    unfold bind at 1. rewrite Hv. cbn [try_option ret].
    unfold bind at 1. cbn [set_hand update_seat modify].
    unfold bind at 1. cbn [set_deck update_game modify].
    edestruct (IH (dealer_cards ++ [new_card]) v) as (dc' & dv' & st' & Hrun & Hu & Ho & Hs);
      [exact Hstack | exact Hhand' |].
    eexists dc', dv', st'. split; [exact Hrun |].
    split; [by rewrite Hu |]. split; [by rewrite Ho |].
    rewrite Hs. unfold players_of. cbn [game_players set_games set_players].
    apply filter_seats_update_dealer. by intros p.
Qed.

Lemma add_game_win_lookup (users : gmap Z user_row) (uid uid' : Z) :
  uid' <> uid -> add_game_win users uid !! uid' = users !! uid'.
Proof. intros Hne. unfold add_game_win. by rewrite lookup_alter_ne. Qed.

Lemma apply_result_other (users : gmap Z user_row) (uid uid' : Z) (res : result) :
  uid' <> uid -> apply_result users uid res !! uid' = users !! uid'.
Proof.
  intros Hne. destruct res; simpl;
    rewrite ?add_game_win_lookup by done;
    rewrite ?update_user_balance_other by done; reflexivity.
Qed.

Lemma update_user_balance_congr (u1 u2 : gmap Z user_row) (uid : Z) (delta : Z) :
  u1 !! uid = u2 !! uid ->
  update_user_balance u1 uid delta !! uid = update_user_balance u2 uid delta !! uid.
Proof.
  intros Heq. destruct (u2 !! uid) as [row |] eqn:Hrow.
  - by rewrite !(update_user_balance_lookup _ _ row).
  - by rewrite !update_user_balance_absent, Heq, Hrow.
Qed.

Lemma apply_result_congr (u1 u2 : gmap Z user_row) (uid : Z) (res : result) :
  u1 !! uid = u2 !! uid ->
  apply_result u1 uid res !! uid = apply_result u2 uid res !! uid.
Proof.
  intros Heq. destruct res; simpl; try by apply update_user_balance_congr.
  - unfold add_game_win. rewrite !lookup_alter_eq.
    by rewrite (update_user_balance_congr u1 u2).
  - exact Heq.
Qed.

Lemma settle_all_cons (forced : bool) (dealer_value bet : Z) (q : player_row)
    (players : list player_row) (users : gmap Z user_row) :
  settle_all forced dealer_value bet (q :: players) users
  = settle_all forced dealer_value bet players
      (apply_result users (user_id q) (seat_result forced dealer_value bet (value q))).
Proof. reflexivity. Qed.

Lemma settle_all_absent (forced : bool) (dealer_value bet : Z) (uid : Z)
    (players : list player_row) :
  forall users : gmap Z user_row,
    uid ∉ user_id <$> players ->
    settle_all forced dealer_value bet players users !! uid = users !! uid.
Proof.
  induction players as [| q players IH]; intros users Hnotin; [reflexivity |].
  rewrite fmap_cons in Hnotin. apply not_elem_of_cons in Hnotin as [Hne Hnotin].
  rewrite settle_all_cons.
  rewrite IH by exact Hnotin. by apply apply_result_other.
Qed.

Lemma settle_all_lookup (forced : bool) (dealer_value bet : Z) (p : player_row)
    (players : list player_row) :
  forall users : gmap Z user_row,
    NoDup (user_id <$> players) ->
    p ∈ players ->
    settle_all forced dealer_value bet players users !! user_id p
    = apply_result users (user_id p)
        (seat_result forced dealer_value bet (value p)) !! user_id p.
Proof.
  induction players as [| q players IH]; intros users Hnodup Hin.
  - by apply elem_of_nil in Hin.
  - rewrite fmap_cons in Hnodup. apply NoDup_cons in Hnodup as [Hq Hnodup].
    rewrite settle_all_cons.
    apply elem_of_cons in Hin as [-> | Hin].
    + by rewrite settle_all_absent.
    + rewrite IH by assumption.
      apply apply_result_congr. apply apply_result_other.
      intros Heq. apply Hq. rewrite <- Heq. by apply list_elem_of_fmap_2.
Qed.

Lemma filter_deleted_players (gid : string) (l : list player_row) :
  List.filter (in_game gid) (List.filter (fun p => negb (in_game gid p)) l) = [].
Proof.
  induction l as [| q l IH]; [reflexivity |].
  cbn [List.filter]. destruct (in_game gid q) eqn:Hq; cbn [negb List.filter].
  - exact IH.
  - rewrite Hq. exact IH.
Qed.

(** What [dealer_turn] does to a room in play whose cards are standard. *)
Lemma dealer_turn_run (st : db) (gid : string) (game : game_row) (rnd : Z) :
  multiplayer_games st !! gid = Some game ->
  status game = playing ->
  Forall valid_card (deck game) ->
  (forall d, List.find (is_seat gid 0) (game_players st) = Some d ->
             Forall valid_card (cards d)) ->
  exists st' dealer_cards dealer_value,
    dealer_turn gid rnd st = (Done tt, st')
    /\ users st' =
         settle_all (bool_decide (rnd = 1)) dealer_value (bet_amount game)
           (List.filter is_player (players_of gid st)) (users st)
    /\ outbox st' =
         outbox st ++
         result_notices dealer_cards dealer_value
           (map (fun p => (user_id p,
                           seat_result (bool_decide (rnd = 1)) dealer_value
                             (bet_amount game) (value p)))
                (List.filter is_player (players_of gid st)))
    /\ multiplayer_games st' !! gid = None
    /\ players_of gid st' = [].
Proof.
  intros Hgame Hplaying Hdeck Hdealer.
  unfold dealer_turn. unfold bind at 1. cbn [get]. rewrite Hgame.
  rewrite bool_decide_eq_false_2 by (rewrite Hplaying; intros H; by apply H).
  set (start := match List.find (is_seat gid 0) (game_players st) with
                | Some dealer => (cards dealer, value dealer)
                | None => ([], 0)
                end).
  assert (Forall valid_card start.1) as Hstart.
  { subst start. destruct (List.find (is_seat gid 0) (game_players st)) as [d |] eqn:Hd.
    - by apply Hdealer.
    - constructor. }
  destruct start as [dealer_cards0 dealer_value0]. cbn [fst] in Hstart.
  destruct (dealer_draw_run gid (reverse (deck game)) dealer_cards0 dealer_value0 st)
    as (dc & dv & st1 & Hrun & Hu & Ho & Hs); [| exact Hstart |].
  { rewrite Forall_forall in Hdeck |- *. intros c Hc. apply Hdeck.
    by apply elem_of_reverse. }
  unfold bind at 1. rewrite Hrun.
  unfold bind at 1. cbn [get].
  unfold bind at 1. rewrite settle_seats_run.
  unfold bind at 1. rewrite send_results_run.
  unfold bind at 1. cbn [delete_players delete_game modify].
  eexists _, dc, dv. split; [reflexivity |].
  cbn [users outbox multiplayer_games game_players set_users set_games set_players].
  rewrite Hs, Hu, Ho.
  split; [reflexivity |]. split; [reflexivity |].
  split; [apply lookup_delete_eq |].
  unfold players_of. cbn [game_players set_games set_players set_users].
  apply filter_deleted_players.
Qed.

(** C4. Settling a room in play: the dealer's turn returns, removes the
    room, and settles every seat other than the dealer's by the first
    rule that applies among bust, forced dealer win, dealer bust, seat
    above the dealer, seat below the dealer, push; a winning seat is
    credited the stake minus 1 and one more win.  When the draw in
    [1, DEALER_WIN_RATE] is 1, every such seat whose value is at most 21
    is notified of a forced loss of the stake and debited the stake,
    whatever the dealer's hand is. *)
Theorem forced_dealer_win_settlement (st : db) (gid : string) (game : game_row) (rnd : Z) :
  multiplayer_games st !! gid = Some game ->
  status game = playing ->
  Forall valid_card (deck game) ->
  (forall d, List.find (is_seat gid 0) (game_players st) = Some d ->
             Forall valid_card (cards d)) ->
  NoDup (user_id <$> List.filter is_player (players_of gid st)) ->
  1 <= rnd <= DEALER_WIN_RATE ->
  let seats := List.filter is_player (players_of gid st) in
  let bet := bet_amount game in
  let forced := bool_decide (rnd = 1) in
  (exists st' dealer_cards dealer_value,
      dealer_turn gid rnd st = (Done tt, st')
      /\ multiplayer_games st' !! gid = None
      /\ outbox st' =
           outbox st ++
           result_notices dealer_cards dealer_value
             (map (fun p => (user_id p, seat_result forced dealer_value bet (value p)))
                  seats)
      /\ (forall p, p ∈ seats ->
            users st' !! user_id p
            = apply_result (users st) (user_id p)
                (seat_result forced dealer_value bet (value p)) !! user_id p)
      /\ (rnd = 1 ->
          forall p, p ∈ players_of gid st -> user_id p <> 0 -> value p <= 21 ->
            (user_id p, GameResult dealer_cards dealer_value (LossForced bet))
              ∈ outbox st'
            /\ users st' !! user_id p
               = update_user_balance (users st) (user_id p) (- bet) !! user_id p))
  /\ (forall forced dealer_value bet p st0,
        settle_seat forced dealer_value bet p st0
        = (Done (user_id p, seat_result forced dealer_value bet (value p)),
           set_users (fun u => apply_result u (user_id p)
                                 (seat_result forced dealer_value bet (value p))) st0))
  /\ (forall forced dealer_value bet player_value,
        let res := seat_result forced dealer_value bet player_value in
        (21 < player_value -> res = LossBust bet)
        /\ (player_value <= 21 -> forced = true -> res = LossForced bet)
        /\ (player_value <= 21 -> forced = false -> 21 < dealer_value ->
            res = Win (bet - 1))
        /\ (player_value <= 21 -> forced = false -> dealer_value <= 21 ->
            dealer_value < player_value -> res = Win (bet - 1))
        /\ (player_value <= 21 -> forced = false -> dealer_value <= 21 ->
            player_value < dealer_value -> res = Loss bet)
        /\ (player_value <= 21 -> forced = false -> dealer_value <= 21 ->
            player_value = dealer_value -> res = Push))
  /\ (forall u uid bet,
        apply_result u uid (Win (bet - 1))
        = add_game_win (update_user_balance u uid (bet - 1)) uid
        /\ apply_result u uid (LossForced bet) = update_user_balance u uid (- bet)
        /\ apply_result u uid (LossBust bet) = update_user_balance u uid (- bet)
        /\ apply_result u uid (Loss bet) = update_user_balance u uid (- bet)
        /\ apply_result u uid Push = u).
Proof.
  intros Hgame Hplaying Hdeck Hdealer Hnodup Hrange seats bet forced.
  split; [| split; [| split]].
  - destruct (dealer_turn_run st gid game rnd Hgame Hplaying Hdeck Hdealer)
      as (st' & dc & dv & Hrun & Husers & Hout & Hgone & _).
    exists st', dc, dv. split; [exact Hrun |]. split; [exact Hgone |].
    split; [exact Hout |].
    assert (forall p, p ∈ seats ->
              users st' !! user_id p
              = apply_result (users st) (user_id p)
                  (seat_result forced dv bet (value p)) !! user_id p) as Hbalances.
    { intros p Hp. rewrite Husers. by apply settle_all_lookup. }
    split; [exact Hbalances |].
    intros Hone p Hp Hnot0 Hval.
    assert (p ∈ seats) as Hseat.
    { apply list_elem_of_In. apply filter_In. split; [by apply list_elem_of_In |].
      unfold is_player. by rewrite bool_decide_eq_false_2. }
    assert (seat_result forced dv bet (value p) = LossForced bet) as Hres.
    { unfold seat_result. subst forced. rewrite (bool_decide_eq_true_2 _ Hone).
      destruct (21 <? value p) eqn:Hbust; [apply Z.ltb_lt in Hbust; lia | reflexivity]. }
    split.
    + rewrite Hout. apply elem_of_app. right. unfold result_notices.
      rewrite <- Hres.
      apply (list_elem_of_fmap_2
               (fun r : Z * result => (r.1, GameResult dc dv r.2))
               _ (user_id p, seat_result forced dv bet (value p))).
      by apply (list_elem_of_fmap_2
                  (fun q => (user_id q, seat_result forced dv bet (value q)))).
    + rewrite (Hbalances p Hseat). by rewrite Hres.
  - intros. apply settle_seat_run.
  - intros forced' dealer_value bet' player_value res. subst res. unfold seat_result.
    repeat split; intros;
      repeat match goal with
             | |- context [?a <? ?b] =>
                 let H := fresh in destruct (a <? b) eqn:H;
                 [apply Z.ltb_lt in H | apply Z.ltb_ge in H]
             end; subst; try reflexivity; try lia; try discriminate.
  - intros. repeat split.
Qed.

End Settlement.

Section SettlementWitness.

Lemma forced_dealer_win_settlement_witness :
  exists st' dealer_cards dealer_value,
    dealer_turn "ROOM01" 1 after_stand = (Done tt, st')
    /\ (2, GameResult dealer_cards dealer_value (LossForced 10)) ∈ outbox st'
    /\ users st' !! 2 = Some (mk_user 90 0 0).
Proof.
  pose (game := mk_game 1 2 10 playing (take 48 fresh_deck) 1000).
  pose (bob := mk_player "ROOM01" 2 "bob" [mk_card "Q" Clubs; mk_card "J" Clubs] 20 false 1001).
  destruct (forced_dealer_win_settlement after_stand "ROOM01" game 1)
    as [(st' & dc & dv & Hrun & _ & _ & _ & Hseats) _].
  - vm_compute. reflexivity.
  - reflexivity.
  - apply (bool_decide_unpack _). vm_compute. exact I.
  - intros d Hd. vm_compute in Hd. injection Hd as <-. constructor.
  - apply (bool_decide_unpack _). vm_compute. exact I.
  - vm_compute. split; discriminate.
  - exists st', dc, dv. split; [exact Hrun |].
    destruct (Hseats eq_refl bob) as [Hnote Hbal].
    + apply list_elem_of_In. vm_compute. auto.
    + vm_compute. discriminate.
    + vm_compute. discriminate.
    + split; [exact Hnote |].
      etransitivity; [exact Hbal |]. vm_compute. reflexivity.
Defined.

End SettlementWitness.

(* ===================================================================== *)
(** * Starting a game: the initial deal                                   *)
(* ===================================================================== *)

Section Deal.

Lemma pop_snoc {A} (l : list A) (x : A) : pop (l ++ [x]) = Some (x, l).
Proof.
  unfold pop. rewrite reverse_app. simpl. by rewrite reverse_involutive.
Qed.

Lemma pop_two {A} (deck : list A) :
  (2 <= length deck)%nat ->
  exists c1 c2 rest,
    deck = rest ++ [c2; c1]
    /\ pop deck = Some (c1, rest ++ [c2])
    /\ pop (rest ++ [c2]) = Some (c2, rest).
Proof.
  intros Hlen.
  destruct deck as [| a deck] using rev_ind; [simpl in Hlen; lia |].
  clear IHdeck.
  destruct deck as [| b deck] using rev_ind;
    [rewrite length_app in Hlen; simpl in Hlen; lia |].
  clear IHdeck.
  exists a, b, deck. rewrite <- app_assoc. simpl.
  split; [reflexivity |].
  split; [| apply pop_snoc].
  change (deck ++ [b; a]) with (deck ++ [b] ++ [a]).
  rewrite app_assoc. apply pop_snoc.
Qed.

Lemma deal_hands_run (gid : string) (players : list player_row) :
  forall (deck : list Card) (st : db),
    (2 * length players <= length deck)%nat ->
    Forall valid_card deck ->
    exists deck' h,
      deal_hands gid players deck st
        = (Done deck',
           mk_db (users st) (multiplayer_games st) (map h (game_players st))
                 (fsm st) (outbox st))
      /\ length deck' = (length deck - 2 * length players)%nat
      /\ forall p,
           game_id (h p) = game_id p /\ user_id (h p) = user_id p
           /\ joined_at (h p) = joined_at p
           /\ (dealt_two p -> dealt_two (h p))
           /\ (game_id p = gid -> user_id p ∈ user_id <$> players -> dealt_two (h p)).
Proof.
  induction players as [| player players IH]; intros deck st Hlen Hvalid.
  - exists deck, (fun p => p). simpl. rewrite map_id.
    split; [by destruct st |]. split; [lia |].
    intros p. do 4 (split; [done |]). intros _ Hin. by apply elem_of_nil in Hin.
  - cbn [length] in Hlen.
    destruct (pop_two deck) as (c1 & c2 & rest & Hdeck & Hpop1 & Hpop2); [lia |].
    assert (valid_card c1 /\ valid_card c2 /\ Forall valid_card rest) as (Hc1 & Hc2 & Hrest).
    { rewrite Hdeck in Hvalid. apply Forall_app in Hvalid as [Hrest Hcs].
      apply Forall_cons in Hcs as [Hc2 Hcs]. apply Forall_cons in Hcs as [Hc1 _]. done. }
    destruct (calculate_hand_value_total [c1; c2]) as [v Hv].
    { apply Forall_cons; split; [exact Hc1 |].
      apply Forall_cons; split; [exact Hc2 | constructor]. }
    cbn [deal_hands].
    unfold bind at 1. rewrite Hpop1. cbn [try_option ret].
    unfold bind at 1. rewrite Hpop2. cbn [try_option ret].
    unfold bind at 1. rewrite Hv. cbn [try_option ret].
    unfold bind at 1. cbn [set_hand update_seat modify].
    set (h1 := fun p : player_row =>
                 if is_seat gid (user_id player) p
                 then mk_player (game_id p) (user_id p) (username p) [c1; c2] v
                                (stopped p) (joined_at p)
                 else p).
    edestruct (IH rest (set_players (map h1) st)) as (deck' & h2 & Hrun & Hlen' & Hh2);
      [| exact Hrest |].
    { rewrite Hdeck in Hlen. rewrite length_app in Hlen. simpl in Hlen. lia. }
    exists deck', (fun p => h2 (h1 p)).
    split.
    { rewrite Hrun. cbn [users multiplayer_games game_players fsm outbox set_players].
      by rewrite map_map. }
    split.
    { rewrite Hlen', Hdeck, length_app. simpl. lia. }
    intros p.
    assert (game_id (h1 p) = game_id p /\ user_id (h1 p) = user_id p
            /\ joined_at (h1 p) = joined_at p) as (Hg1 & Hu1 & Hj1).
    { subst h1. simpl. by destruct (is_seat gid (user_id player) p). }
    assert (dealt_two p -> dealt_two (h1 p)) as Hd1.
    { subst h1. simpl. destruct (is_seat gid (user_id player) p); [| done].
      intros _. split; [reflexivity | exact Hv]. }
    destruct (Hh2 (h1 p)) as (Hg2 & Hu2 & Hj2 & Hd2 & Hin2).
    split; [congruence |]. split; [congruence |]. split; [congruence |].
    split; [by intros; apply Hd2, Hd1 |].
    intros Hgid Hin. rewrite fmap_cons in Hin.
    destruct (decide (user_id p ∈ user_id <$> players)) as [Hrest' | Hnot].
    + apply Hin2; [congruence | by rewrite Hu1].
    + apply elem_of_cons in Hin as [Hhere | Hthere]; [| done].
      apply Hd2. subst h1. simpl.
      unfold is_seat. rewrite !bool_decide_eq_true_2 by done. simpl.
      split; [reflexivity | exact Hv].
Qed.

Lemma announce_start_run (players : list player_row) :
  forall st : db,
    announce_start players st
    = (Done tt,
       mk_db (users st) (multiplayer_games st) (game_players st) (fsm st)
             (outbox st ++ map (fun p => (user_id p, GameStarted)) players)).
Proof.
  induction players as [| p players IH]; intros st.
  - simpl. unfold ret. rewrite app_nil_r. by destruct st.
  - cbn [announce_start]. unfold bind at 1. unfold safe_send_message, modify.
    rewrite IH. simpl. by rewrite <- app_assoc.
Qed.

(** ** ORDER BY joined_at *)

Lemma insert_by_joined_at_Permutation (p : player_row) (l : list player_row) :
  insert_by_joined_at p l ≡ₚ p :: l.
Proof.
  induction l as [| q l IH]; [reflexivity |].
  simpl. destruct (joined_at p <=? joined_at q); [reflexivity |].
  rewrite IH. apply Permutation_swap.
Qed.

Lemma order_by_joined_at_Permutation (l : list player_row) :
  order_by_joined_at l ≡ₚ l.
Proof.
  induction l as [| p l IH]; [reflexivity |].
  unfold order_by_joined_at in *. cbn [foldr].
  rewrite insert_by_joined_at_Permutation. by rewrite IH.
Qed.

Lemma insert_by_joined_at_sorted (p : player_row) (l : list player_row) :
  StronglySorted earlier l -> StronglySorted earlier (insert_by_joined_at p l).
Proof.
  induction l as [| q l IH]; intros Hs.
  - repeat constructor.
  - simpl. apply StronglySorted_inv in Hs as [Hs Hq].
    destruct (joined_at p <=? joined_at q) eqn:Hle.
    + apply Z.leb_le in Hle. constructor; [by constructor |].
      constructor; [exact Hle |].
      eapply Forall_impl; [exact Hq |]. unfold earlier. intros; lia.
    + apply Z.leb_gt in Hle. constructor; [by apply IH |].
      rewrite insert_by_joined_at_Permutation.
      constructor; [unfold earlier; lia | exact Hq].
Qed.

Lemma order_by_joined_at_sorted (l : list player_row) :
  StronglySorted earlier (order_by_joined_at l).
Proof.
  induction l as [| p l IH]; [constructor |].
  unfold order_by_joined_at in *. cbn [foldr].
  by apply insert_by_joined_at_sorted.
Qed.

Lemma order_by_joined_at_head (l : list player_row) (first : player_row) :
  order_by_joined_at l !! 0%nat = Some first ->
  first ∈ l /\ forall q, q ∈ l -> joined_at first <= joined_at q.
Proof.
  intros Hhead.
  pose proof (order_by_joined_at_sorted l) as Hs.
  pose proof (order_by_joined_at_Permutation l) as Hp.
  destruct (order_by_joined_at l) as [| x rest]; [discriminate |].
  injection Hhead as ->.
  split; [rewrite <- Hp; by left |].
  intros q Hq. rewrite <- Hp in Hq.
  apply StronglySorted_inv in Hs as [_ Hall].
  apply elem_of_cons in Hq as [-> | Hq]; [lia |].
  rewrite Forall_forall in Hall. by apply Hall.
Qed.

(** ** List facts about the seats of a room *)

Lemma filter_in_game_map (h : player_row -> player_row) (gid : string)
    (l : list player_row) :
  (forall p, game_id (h p) = game_id p) ->
  List.filter (in_game gid) (map h l) = map h (List.filter (in_game gid) l).
Proof.
  intros Hh. induction l as [| p l IH]; [reflexivity |].
  cbn [map List.filter].
  assert (in_game gid (h p) = in_game gid p) as -> by (unfold in_game; by rewrite Hh).
  destruct (in_game gid p); cbn [map]; by rewrite IH.
Qed.

Lemma filter_is_player_map (h : player_row -> player_row) (l : list player_row) :
  (forall p, user_id (h p) = user_id p) ->
  List.filter is_player (map h l) = map h (List.filter is_player l).
Proof.
  intros Hh. induction l as [| p l IH]; [reflexivity |].
  cbn [map List.filter].
  assert (is_player (h p) = is_player p) as -> by (unfold is_player; by rewrite Hh).
  destruct (is_player p); cbn [map]; by rewrite IH.
Qed.

Lemma filter_is_player_all (l : list player_row) :
  Forall (fun p => user_id p <> 0) l -> List.filter is_player l = l.
Proof.
  induction 1 as [| p l Hp _ IH]; [reflexivity |].
  cbn [List.filter]. unfold is_player at 1.
  rewrite bool_decide_eq_false_2 by exact Hp. simpl. by rewrite IH.
Qed.

Lemma no_dealer_row (h : player_row -> player_row) (gid : string)
    (l : list player_row) :
  (forall p, game_id (h p) = game_id p /\ user_id (h p) = user_id p) ->
  Forall (fun p => user_id p <> 0) (List.filter (in_game gid) l) ->
  existsb (is_seat gid 0) (map h l) = false
  /\ List.find (is_seat gid 0) (map h l) = None.
Proof.
  intros Hh. induction l as [| p l IH]; intros Hall; [done |].
  cbn [List.filter] in Hall. cbn [map existsb List.find].
  destruct (Hh p) as [Hg Hu].
  assert (is_seat gid 0 (h p) = false) as ->.
  { unfold is_seat. rewrite Hg, Hu. unfold in_game in Hall.
    destruct (bool_decide (game_id p = gid)); [| reflexivity].
    apply Forall_cons in Hall as [Hp _].
    by rewrite (bool_decide_eq_false_2 _ Hp). }
  simpl. apply IH.
  destruct (in_game gid p); [by apply Forall_cons in Hall as [_ Hall] | exact Hall].
Qed.

Lemma find_app_r {A} (f : A -> bool) (l1 l2 : list A) :
  List.find f l1 = None -> List.find f (l1 ++ l2) = List.find f l2.
Proof.
  induction l1 as [| a l1 IH]; [done |].
  simpl. destruct (f a); [discriminate | exact IH].
Qed.

(** C6, amended. When the host starts a waiting room with at least two
    seats (and no more than the deck can serve), every seat of the room is
    dealt exactly two cards and stores the value of that hand, the dealer
    seat is created with an empty hand and value 0, the rest of the deck
    is saved, and the seat with the earliest joining time is prompted with
    turn index 0. *)
Theorem start_game_initial_deal (st : db) (gid : string) (uid : Z)
    (draws : list nat) (now rnd : Z) (game : game_row) :
  fetch_waiting gid st = Some game ->
  host_id game = uid ->
  (2 <= length (players_of gid st) <= 26)%nat ->
  Forall (fun p => user_id p <> 0) (players_of gid st) ->
  exists st',
    start_game_callback gid uid draws now rnd st = (Done Started, st')
    /\ status <$> multiplayer_games st' !! gid = Some playing
    /\ length <$> (deck <$> multiplayer_games st' !! gid)
       = Some (52 - 2 * length (players_of gid st))%nat
    /\ length (List.filter is_player (players_of gid st')) = length (players_of gid st)
    /\ (forall p, p ∈ players_of gid st' -> user_id p <> 0 -> dealt_two p)
    /\ (exists dealer,
          List.find (is_seat gid 0) (game_players st') = Some dealer
          /\ cards dealer = [] /\ value dealer = 0)
    /\ (exists first,
          seats_in_turn_order gid st' !! 0%nat = Some first
          /\ (forall q, q ∈ players_of gid st' -> user_id q <> 0 ->
                joined_at first <= joined_at q)
          /\ fsm st' !! user_id first = Some (gid, 0%nat)
          /\ last (outbox st')
             = Some (user_id first, YourTurn (cards first) (value first))).
Proof.
  intros Hfetch Hhost Hlen Hnodealer.
  assert (multiplayer_games st !! gid = Some game) as Hgame.
  { unfold fetch_waiting in Hfetch.
    destruct (multiplayer_games st !! gid) as [g |]; [| discriminate].
    destruct (bool_decide (status g = waiting)); [congruence | discriminate]. }
  set (seats := players_of gid st) in *.
  unfold start_game_callback. unfold bind at 1. cbn [get]. rewrite Hfetch.
  rewrite (bool_decide_eq_false_2 (host_id game <> uid)) by (intros H; by apply H).
  fold seats.
  destruct (Z.of_nat (length seats) <? MIN_PLAYERS) eqn:Hfew;
    [apply Z.ltb_lt in Hfew; unfold MIN_PLAYERS in Hfew; lia |].
  unfold bind at 1. cbn [set_playing update_game modify]. cbv zeta.
  match goal with
  | |- context [bind (deal_hands gid seats (create_deck draws)) _ ?s] =>
      destruct (deal_hands_run gid seats (create_deck draws) s)
        as (deck' & h & Hrun & Hdecklen & Hh)
  end.
  { rewrite create_deck_length. lia. }
  { apply create_deck_valid. }
  unfold bind at 1. rewrite Hrun.
  cbn [users multiplayer_games game_players fsm outbox set_games] in *.
  rewrite create_deck_length in Hdecklen.
  assert (forall p, game_id (h p) = game_id p /\ user_id (h p) = user_id p) as Hids
    by (intros p; destruct (Hh p) as (? & ? & _); done).
  destruct (no_dealer_row h gid (game_players st) Hids Hnodealer) as [Hfresh Hfind].
  unfold bind at 1. rewrite insert_player_fresh by exact Hfresh.
  unfold bind at 1. cbn [set_deck update_game modify].
  unfold bind at 1. rewrite announce_start_run.
  cbn [users multiplayer_games game_players fsm outbox set_games set_players].
  (* the seats of the room once the dealer row is in *)
  set (dealer := mk_player gid 0 "Дилер" [] 0 false now).
  assert (List.filter is_player
            (List.filter (in_game gid) (map h (game_players st) ++ [dealer]))
          = map h seats) as Hseats.
  { rewrite !List.filter_app.
    rewrite filter_in_game_map by (intros p; apply Hids).
    rewrite filter_is_player_map by (intros p; apply Hids).
    fold (players_of gid st). fold seats.
    rewrite (filter_is_player_all seats Hnodealer).
    subst dealer. cbn [List.filter]. unfold in_game. cbn [game_id].
    rewrite bool_decide_eq_true_2 by reflexivity. cbn [List.filter].
    unfold is_player. cbn [user_id]. simpl. by rewrite app_nil_r. }
  assert (forall q, q ∈ map h seats -> dealt_two q) as Hdealt.
  { intros q Hq. apply list_elem_of_fmap in Hq as (p & -> & Hp).
    destruct (Hh p) as (_ & _ & _ & _ & Hd). apply Hd.
    - apply list_elem_of_In, filter_In in Hp as [_ Hp].
      unfold in_game in Hp. by apply bool_decide_eq_true in Hp.
    - by apply list_elem_of_fmap_2. }
  pose proof (order_by_joined_at_Permutation (map h seats)) as Hperm.
  destruct (order_by_joined_at (map h seats)) as [| first rest] eqn:Horder.
  { apply Permutation_length in Hperm. rewrite length_map in Hperm.
    simpl in Hperm. lia. }
  assert (order_by_joined_at (map h seats) !! 0%nat = Some first) as Hhead
    by (by rewrite Horder).
  destruct (order_by_joined_at_head _ _ Hhead) as [Hfirst Hmin].
  destruct (Hdealt first Hfirst) as [Hfirst2 Hfirstv].
  (* process_next_turn gid 0 *)
  unfold bind at 1. unfold process_next_turn. unfold bind at 1. cbn [get].
  cbn [users multiplayer_games game_players fsm outbox].
  rewrite !lookup_alter_eq, Hgame. cbn [fmap option_fmap option_map status].
  rewrite (bool_decide_eq_false_2 (playing <> playing)) by (intros H; by apply H).
  unfold seats_in_turn_order, players_of.
  cbn [users multiplayer_games game_players fsm outbox].
  rewrite Hseats, Horder. cbn [length Nat.leb lookup list_lookup try_option].
  unfold bind at 1. cbn [ret].
  unfold bind at 1. rewrite Hfirstv. cbn [try_option ret].
  unfold bind at 1. cbn [modify set_fsm safe_send_message].
  eexists. split; [reflexivity |].
  cbn [users multiplayer_games game_players fsm outbox set_fsm].
  rewrite !lookup_alter_eq, Hgame. cbn [fmap option_fmap option_map status deck].
  split; [reflexivity |].
  split; [by rewrite Hdecklen |].
  unfold seats_in_turn_order, players_of. cbn [game_players].
  rewrite Hseats, Horder.
  split; [by rewrite length_map |].
  split.
  { intros p Hp Hp0. apply Hdealt. rewrite <- Hseats.
    apply list_elem_of_In, filter_In. split; [by apply list_elem_of_In |].
    unfold is_player. by rewrite bool_decide_eq_false_2. }
  split.
  { exists dealer. rewrite (find_app_r _ _ _ Hfind). split; [| done].
    subst dealer. cbn [List.find]. unfold is_seat. cbn [game_id user_id].
    by rewrite !bool_decide_eq_true_2. }
  exists first. split; [reflexivity |].
  split.
  { intros q Hq Hq0. apply Hmin. rewrite <- Hseats.
    apply list_elem_of_In, filter_In. split; [by apply list_elem_of_In |].
    unfold is_player. by rewrite bool_decide_eq_false_2. }
  split; [apply lookup_insert_eq |].
  apply last_snoc.
Qed.

End Deal.

Section DealRuns.

(** C6, as stated, fails: after the host has started ROOM01 both players
    hold two cards but the dealer seat holds none. *)
Lemma start_game_dealer_has_no_cards :
  start_game_callback "ROOM01" 1 identity_draws 1002 2 seated = (Done Started, dealt)
  /\ (length <$> hand_of "ROOM01" 1 dealt) = Some 2%nat
  /\ (length <$> hand_of "ROOM01" 2 dealt) = Some 2%nat
  /\ hand_of "ROOM01" 0 dealt = Some []
  /\ (length <$> hand_of "ROOM01" 0 dealt) <> Some 2%nat.
Proof. vm_compute. repeat split; try reflexivity. discriminate. Qed.

Lemma start_game_initial_deal_witness :
  exists st',
    start_game_callback "ROOM01" 1 identity_draws 1002 2 seated = (Done Started, st')
    /\ status <$> multiplayer_games st' !! "ROOM01" = Some playing
    /\ length <$> (deck <$> multiplayer_games st' !! "ROOM01") = Some 48%nat.
Proof.
  destruct (start_game_initial_deal seated "ROOM01" 1 identity_draws 1002 2
              (mk_game 1 2 10 waiting [] 1000))
    as (st' & Hrun & Hstatus & Hdeck & _).
  - reflexivity.
  - reflexivity.
  - vm_compute. lia.
  - apply (bool_decide_unpack _). vm_compute. exact I.
  - exists st'. split; [exact Hrun |]. split; [exact Hstatus |]. exact Hdeck.
Defined.

End DealRuns.

(* ===================================================================== *)
(** * More on the hand value                                              *)
(* ===================================================================== *)

Section HandValueMore.

(** X1. The value of a hand of standard cards is one of the totals that
    counting some of its aces as 1 gives; when some such total does not
    exceed 21 the value is the largest of those, and the value exceeds 21
    only when every such total does, in which case all aces count 1. *)
Theorem hand_value_is_best (cards : list Card) :
  Forall valid_card cards ->
  let total := raw_total cards in
  let aces := Z.of_nat (ace_count cards) in
  exists v,
    calculate_hand_value cards = Some v
    /\ (exists k, 0 <= k <= aces /\ v = total - 10 * k)
    /\ (forall k, 0 <= k <= aces -> total - 10 * k <= 21 ->
          total - 10 * k <= v /\ v <= 21)
    /\ (21 < v -> v = total - 10 * aces).
Proof.
  intros Hall total aces.
  pose proof (softened_bounds total (ace_count cards)) as Hbounds.
  pose proof (softened_stops total (ace_count cards)) as Hstops.
  pose proof (softened_forced total (ace_count cards)) as Hforced.
  exists (total - 10 * softened total (ace_count cards)).
  split.
  { unfold calculate_hand_value. rewrite (count_cards_valid cards 0 O Hall).
    simpl. by rewrite soften_closed_form. }
  split; [exists (softened total (ace_count cards)); split; [exact Hbounds | reflexivity] |].
  split.
  - intros k Hk Hfits.
    assert (softened total (ace_count cards) <= k) as Hleast.
    { destruct (Z.le_gt_cases (softened total (ace_count cards)) k) as [H | H]; [exact H |].
      specialize (Hforced k). lia. }
    subst aces. lia.
  - intros Hbust. subst aces. lia.
Qed.

Lemma hand_value_is_best_witness :
  exists v,
    calculate_hand_value [mk_card "A" Spades; mk_card "A" Hearts; mk_card "K" Clubs] = Some v
    /\ v = 12.
Proof.
  destruct (hand_value_is_best [mk_card "A" Spades; mk_card "A" Hearts; mk_card "K" Clubs])
    as (v & Hv & _).
  - repeat (apply Forall_cons; split; [vm_compute; set_solver |]). constructor.
  - exists v. split; [exact Hv |].
    vm_compute in Hv. by injection Hv as <-.
Defined.

Lemma count_card_shape (c : Card) :
  (forall value aces, count_card (value, aces) c = None)
  \/ (exists p e, forall value aces,
        count_card (value, aces) c = Some (value + p, (aces + e)%nat)).
Proof.
  unfold count_card.
  destruct (bool_decide (card_rank c ∈ ["J"; "Q"; "K"])).
  { right. exists 10, O. intros. f_equal. f_equal. lia. }
  destruct (bool_decide (card_rank c = "A")).
  { right. exists 11, 1%nat. intros. f_equal. f_equal. lia. }
  destruct (int (card_rank c)) as [n |].
  - right. exists n, O. intros. f_equal. f_equal. lia.
  - by left.
Qed.

Lemma count_cards_swap (x y : Card) (cards : list Card) (acc : Z * nat) :
  count_cards acc (x :: y :: cards) = count_cards acc (y :: x :: cards).
Proof.
  destruct acc as [v a]. cbn [count_cards].
  destruct (count_card_shape x) as [Hx | (p & e & Hx)],
           (count_card_shape y) as [Hy | (q & f & Hy)];
    repeat (rewrite Hx || rewrite Hy); try reflexivity.
  replace (v + q + p) with (v + p + q) by lia.
  replace (a + f + e)%nat with (a + e + f)%nat by lia. reflexivity.
Qed.

Lemma count_cards_Permutation (cards1 cards2 : list Card) :
  cards1 ≡ₚ cards2 -> forall acc, count_cards acc cards1 = count_cards acc cards2.
Proof.
  induction 1 as [| x l1 l2 _ IH | x y l | l1 l2 l3 _ IH1 _ IH2]; intros acc.
  - reflexivity.
  - cbn [count_cards]. destruct (count_card acc x); [apply IH | reflexivity].
  - apply count_cards_swap.
  - by rewrite IH1.
Qed.

(** X2. The value of a hand does not depend on the order of its cards;
    this includes the hands on which the evaluation fails. *)
Theorem hand_value_order_independent (cards1 cards2 : list Card) :
  cards1 ≡ₚ cards2 -> calculate_hand_value cards1 = calculate_hand_value cards2.
Proof.
  intros Hperm. unfold calculate_hand_value.
  by rewrite (count_cards_Permutation _ _ Hperm).
Qed.

Lemma hand_value_order_independent_witness :
  calculate_hand_value [mk_card "9" Spades; mk_card "A" Hearts; mk_card "A" Clubs]
  = calculate_hand_value [mk_card "A" Clubs; mk_card "9" Spades; mk_card "A" Hearts].
Proof.
  apply hand_value_order_independent.
  apply (Permutation_app_comm [mk_card "9" Spades; mk_card "A" Hearts] [mk_card "A" Clubs]).
Defined.

(** X3. Any two standard cards are worth between 4 and 21: no hand is
    bust right after the initial deal. *)
Theorem two_card_hand_range (c1 c2 : Card) :
  valid_card c1 -> valid_card c2 ->
  exists v, calculate_hand_value [c1; c2] = Some v /\ 4 <= v <= 21.
Proof.
  destruct c1 as [r1 s1], c2 as [r2 s2]. unfold valid_card, ranks. simpl.
  intros H1 H2.
  each_member H1 ltac:(each_member H2 ltac:(eexists; split; [vm_compute; reflexivity | lia])).
Qed.

Lemma two_card_hand_range_witness :
  exists v, calculate_hand_value [mk_card "A" Spades; mk_card "A" Hearts] = Some v
            /\ 4 <= v <= 21.
Proof.
  apply two_card_hand_range; vm_compute; set_solver.
Defined.

End HandValueMore.

(* ===================================================================== *)
(** * More on the balance helper                                          *)
(* ===================================================================== *)

Section BalanceMore.

(** X4. [update_user_balance] moves the difference between balance and
    negative_balance by exactly delta, whether or not the balance is
    floored; negative_balance never decreases and game_wins is kept. *)
Theorem update_user_balance_net_worth (table : gmap Z user_row) (uid : Z)
    (row : user_row) (delta : Z) :
  table !! uid = Some row ->
  exists row',
    update_user_balance table uid delta !! uid = Some row'
    /\ balance row' - negative_balance row'
       = balance row - negative_balance row + delta
    /\ negative_balance row <= negative_balance row'
    /\ game_wins row' = game_wins row.
Proof.
  intros Hrow. rewrite (update_user_balance_lookup _ _ row) by exact Hrow.
  eexists. split; [reflexivity |].
  destruct (balance row + delta <? 0) eqn:Hneg; simpl.
  - apply Z.ltb_lt in Hneg. lia.
  - apply Z.ltb_ge in Hneg. lia.
Qed.

Lemma update_user_balance_net_worth_witness :
  exists row',
    update_user_balance {[ 7 := mk_user 5 2 1 ]} 7 (- 8) !! 7 = Some row'
    /\ balance row' - negative_balance row' = 5 - 2 + - 8.
Proof.
  destruct (update_user_balance_net_worth {[ 7 := mk_user 5 2 1 ]} 7 (mk_user 5 2 1) (- 8))
    as (row' & Hrow' & Hnet & _); [reflexivity |].
  exists row'. split; [exact Hrow' | exact Hnet].
Defined.

(** X5. Crediting an amount and then debiting the same amount restores
    the whole table, provided neither step is floored at zero. *)
Theorem update_user_balance_round_trip (table : gmap Z user_row) (uid : Z)
    (row : user_row) (delta : Z) :
  table !! uid = Some row ->
  0 <= balance row ->
  0 <= balance row + delta ->
  update_user_balance (update_user_balance table uid delta) uid (- delta) = table.
Proof.
  intros Hrow Hpos Hsum.
  pose proof (update_user_balance_lookup table uid row delta Hrow) as Hmid.
  destruct (balance row + delta <? 0) eqn:Hneg; [apply Z.ltb_lt in Hneg; lia |].
  unfold update_user_balance at 1. rewrite Hmid. cbn [balance negative_balance game_wins].
  destruct (balance row + delta + - delta <? 0) eqn:Hneg'; [apply Z.ltb_lt in Hneg'; lia |].
  unfold update_user_balance. rewrite Hrow, Hneg. cbn.
  rewrite insert_insert_eq. apply insert_id. rewrite Hrow. f_equal.
  destruct row as [b n w]. cbn. f_equal. lia.
Qed.

Lemma update_user_balance_round_trip_witness :
  update_user_balance (update_user_balance {[ 7 := mk_user 5 2 1 ]} 7 10) 7 (- 10)
  = {[ 7 := mk_user 5 2 1 ]}.
Proof.
  apply (update_user_balance_round_trip {[ 7 := mk_user 5 2 1 ]} 7 (mk_user 5 2 1) 10).
  - reflexivity.
  - simpl. lia.
  - simpl. lia.
Defined.

(** X6. [update_user_balance] never adds or removes a user and never
    touches another user's row; for a user without a row it changes
    nothing, and [get_user_balance] keeps reporting 0 for that user. *)
Theorem update_user_balance_frame (table : gmap Z user_row) (uid : Z) (delta : Z) :
  dom (update_user_balance table uid delta) = dom table
  /\ (forall uid', uid' <> uid ->
        update_user_balance table uid delta !! uid' = table !! uid')
  /\ (table !! uid = None ->
        update_user_balance table uid delta = table
        /\ get_user_balance (update_user_balance table uid delta) uid = 0).
Proof.
  split; [| split].
  - unfold update_user_balance.
    destruct (table !! uid) as [row |] eqn:Hrow; [| reflexivity].
    apply elem_of_dom_2 in Hrow.
    destruct (balance row + delta <? 0); simpl;
      rewrite dom_insert_L;
      apply subseteq_union_1_L; by apply singleton_subseteq_l.
  - intros uid' Hne. by apply update_user_balance_other.
  - intros Hnone. rewrite (update_user_balance_absent _ _ _ Hnone).
    split; [reflexivity |]. unfold get_user_balance. by rewrite Hnone.
Qed.

Lemma update_user_balance_frame_witness :
  update_user_balance {[ 7 := mk_user 5 2 1 ]} 8 3 = {[ 7 := mk_user 5 2 1 ]}.
Proof.
  by apply (update_user_balance_frame {[ 7 := mk_user 5 2 1 ]} 8 3).
Defined.

End BalanceMore.

(* ===================================================================== *)
(** * Room codes                                                          *)
(* ===================================================================== *)

Section RoomCodes.

Lemma choice_in_alphabet (draw : nat) : is_code_char (choice alphabet draw) = true.
Proof.
  unfold choice.
  assert (draw mod length alphabet < 36)%nat as Hlt
    by (apply Nat.mod_upper_bound; discriminate).
  revert Hlt. generalize (draw mod length alphabet)%nat. intros i Hi.
  do 36 (destruct i as [| i]; [reflexivity |]). lia.
Qed.

Lemma choices_spec (k : nat) :
  forall draws : list nat,
    length (choices alphabet k draws) = k
    /\ Forall (fun c => is_code_char c = true) (choices alphabet k draws).
Proof.
  induction k as [| k IH]; intros draws; simpl.
  - split; [reflexivity | constructor].
  - destruct (IH (tl draws)) as [Hlen Hall].
    split; [by rewrite Hlen |].
    constructor; [apply choice_in_alphabet | exact Hall].
Qed.

(** X7. Whatever the random draws, a generated room code has exactly six
    characters, each an upper case latin letter or a digit; in particular
    it is never the empty text. *)
Theorem generate_game_id_format (draws : list nat) :
  String.length (generate_game_id draws) = 6%nat
  /\ Forall (fun c => is_code_char c = true)
            (String.list_ascii_of_string (generate_game_id draws))
  /\ generate_game_id draws <> "".
Proof.
  unfold generate_game_id.
  destruct (choices_spec 6 draws) as [Hlen Hall].
  assert (forall l, String.length (String.string_of_list_ascii l) = length l) as Hsl.
  { induction l as [| c l IH]; simpl; [reflexivity | by rewrite IH]. }
  split; [by rewrite Hsl |].
  split; [by rewrite String.list_ascii_of_string_of_list_ascii |].
  intros Hempty. apply (f_equal String.length) in Hempty.
  rewrite Hsl, Hlen in Hempty. discriminate.
Qed.

End RoomCodes.

(* ===================================================================== *)
(** * Joining: rejections and invariants                                  *)
(* ===================================================================== *)

Section JoinMore.

Lemma is_seat_key (gid : string) (uid : Z) (p : player_row) :
  is_seat gid uid p = true <-> seat_key p = (gid, uid).
Proof.
  unfold is_seat, seat_key. rewrite andb_true_iff, !bool_decide_eq_true.
  split; [intros [-> ->]; reflexivity | intros H; by injection H].
Qed.

Lemma existsb_is_seat_false (gid : string) (uid : Z) (l : list player_row) :
  existsb (is_seat gid uid) l = false <-> (gid, uid) ∉ seat_key <$> l.
Proof.
  induction l as [| p l IH]; simpl.
  - split; [intros _; apply not_elem_of_nil | reflexivity].
  - rewrite orb_false_iff, IH, not_elem_of_cons.
    split; intros [H1 H2]; split; try assumption.
    + intros Heq. symmetry in Heq. apply is_seat_key in Heq. congruence.
    + destruct (is_seat gid uid p) eqn:Hs; [| reflexivity].
      apply is_seat_key in Hs. congruence.
Qed.

(** The five ways a join can end. *)
Lemma join_room_cases (st : db) (gid : string) (uid : Z)
    (from_username : option string) (now : Z) :
  let run := join_room_callback gid uid from_username now st in
  (fetch_waiting gid st = None /\ run = (Done RoomNotFound, st))
  \/ exists game,
       fetch_waiting gid st = Some game
       /\ ((max_players game <= Z.of_nat (length (players_of gid st))
            /\ run = (Done RoomFull, st))
           \/ (Z.of_nat (length (players_of gid st)) < max_players game
               /\ existsb (is_seat gid uid) (game_players st) = true
               /\ run = (Done AlreadyInRoom, st))
           \/ (Z.of_nat (length (players_of gid st)) < max_players game
               /\ existsb (is_seat gid uid) (game_players st) = false
               /\ get_user_balance (users st) uid < bet_amount game
               /\ run = (Done (NotEnoughCoins (bet_amount game)), st))
           \/ (Z.of_nat (length (players_of gid st)) < max_players game
               /\ existsb (is_seat gid uid) (game_players st) = false
               /\ bet_amount game <= get_user_balance (users st) uid
               /\ exists st',
                    run = (Done Joined, st')
                    /\ game_players st' =
                         game_players st ++
                         [mk_player gid uid (default "NoName" from_username) [] 0 false now]
                    /\ users st' = users st
                    /\ multiplayer_games st' = multiplayer_games st)).
Proof.
  intros run.
  destruct (fetch_waiting gid st) as [game |] eqn:Hfetch.
  2: { left. split; [reflexivity |]. subst run.
       unfold join_room_callback, bind, get. by rewrite Hfetch. }
  right. exists game. split; [reflexivity |].
  destruct (Z.le_gt_cases (max_players game) (Z.of_nat (length (players_of gid st))))
    as [Hfull | Hroom].
  { left. split; [exact Hfull |]. subst run.
    unfold join_room_callback, bind, get. rewrite Hfetch.
    by rewrite (proj2 (Z.leb_le _ _) Hfull). }
  right.
  destruct (existsb (is_seat gid uid) (game_players st)) eqn:Hseat.
  { left. split; [lia |]. split; [reflexivity |]. subst run.
    unfold join_room_callback, bind, get. rewrite Hfetch.
    rewrite (proj2 (Z.leb_gt _ _)) by lia. by rewrite Hseat. }
  right.
  destruct (Z.lt_ge_cases (get_user_balance (users st) uid) (bet_amount game))
    as [Hlow | Hbal].
  { left. split; [lia |]. split; [reflexivity |]. split; [exact Hlow |]. subst run.
    unfold join_room_callback, bind, get. rewrite Hfetch.
    rewrite (proj2 (Z.leb_gt _ _)) by lia. rewrite Hseat.
    by rewrite (proj2 (Z.ltb_lt _ _) Hlow). }
  right. split; [lia |]. split; [reflexivity |]. split; [exact Hbal |].
  apply (join_room_callback_run st gid uid from_username now game);
    [exact Hfetch | lia | exact Hseat | exact Hbal].
Qed.

(** X8. A join never raises; unless it answers "joined" it leaves the
    whole store as it was, and the first check that fails decides the
    answer: no waiting room with that code, room full, already seated,
    not enough coins - in this order. *)
Theorem join_room_rejections (st : db) (gid : string) (uid : Z)
    (from_username : option string) (now : Z) :
  exists r st',
    join_room_callback gid uid from_username now st = (Done r, st')
    /\ (r = Joined \/ st' = st)
    /\ (fetch_waiting gid st = None -> r = RoomNotFound)
    /\ (forall game,
          fetch_waiting gid st = Some game ->
          let seats := Z.of_nat (length (players_of gid st)) in
          let seated := existsb (is_seat gid uid) (game_players st) in
          let balance := get_user_balance (users st) uid in
          (max_players game <= seats -> r = RoomFull)
          /\ (seats < max_players game -> seated = true -> r = AlreadyInRoom)
          /\ (seats < max_players game -> seated = false ->
              balance < bet_amount game -> r = NotEnoughCoins (bet_amount game))
          /\ (seats < max_players game -> seated = false ->
              bet_amount game <= balance -> r = Joined)).
Proof.
  destruct (join_room_cases st gid uid from_username now)
    as [[Hnone Hrun] | (game & Hfetch & Hcases)].
  - exists RoomNotFound, st. split; [exact Hrun |]. split; [by right |].
    split; [done |]. intros game Hgame. congruence.
  - destruct Hcases as [[Hfull Hrun] | [(Hroom & Hseat & Hrun) |
                        [(Hroom & Hseat & Hlow & Hrun) |
                         (Hroom & Hseat & Hbal & st' & Hrun & _)]]].
    + exists RoomFull, st. split; [exact Hrun |]. split; [by right |].
      split; [congruence |]. intros g Hg. assert (g = game) as -> by congruence.
      cbv zeta. repeat split; intros; try reflexivity; lia.
    + exists AlreadyInRoom, st. split; [exact Hrun |]. split; [by right |].
      split; [congruence |]. intros g Hg. assert (g = game) as -> by congruence.
      cbv zeta. repeat split; intros; try reflexivity; try lia; congruence.
    + exists (NotEnoughCoins (bet_amount game)), st.
      split; [exact Hrun |]. split; [by right |].
      split; [congruence |]. intros g Hg. assert (g = game) as -> by congruence.
      cbv zeta. repeat split; intros; try reflexivity; try lia; congruence.
    + exists Joined, st'. split; [exact Hrun |]. split; [by left |].
      split; [congruence |]. intros g Hg. assert (g = game) as -> by congruence.
      cbv zeta. repeat split; intros; try reflexivity; try lia; congruence.
Qed.

Lemma join_room_rejections_witness :
  join_room_callback "ROOM01" 1 (Some "alice") 1001 lobby = (Done AlreadyInRoom, lobby).
Proof.
  destruct (join_room_rejections lobby "ROOM01" 1 (Some "alice") 1001)
    as (r & st' & Hrun & Hsame & _ & Hcases).
  destruct (Hcases (mk_game 1 2 10 waiting [] 1000) eq_refl) as (_ & Hseated & _).
  assert (r = AlreadyInRoom) as ->
    by (apply Hseated; [vm_compute; reflexivity | reflexivity]).
  destruct Hsame as [Habs | ->]; [discriminate | exact Hrun].
Defined.

Lemma players_of_snoc (gid : string) (st st' : db) (p : player_row) :
  game_players st' = game_players st ++ [p] ->
  players_of gid st' =
    players_of gid st ++ (if bool_decide (game_id p = gid) then [p] else []).
Proof.
  intros H. unfold players_of. rewrite H, List.filter_app. reflexivity.
Qed.

(** X9. A join keeps the primary key of the seats (no player is seated
    twice in a room), never seats more players than the room allows, and
    does not touch the seats of any other room. *)
Theorem join_room_keeps_invariants (st st' : db) (gid : string) (uid : Z)
    (from_username : option string) (now : Z) (r : reply) :
  join_room_callback gid uid from_username now st = (Done r, st') ->
  unique_seats st ->
  unique_seats st'
  /\ (forall game, r = Joined -> fetch_waiting gid st = Some game ->
        Z.of_nat (length (players_of gid st')) <= max_players game
        /\ length (players_of gid st') = S (length (players_of gid st)))
  /\ (forall gid', gid' <> gid -> players_of gid' st' = players_of gid' st).
Proof.
  intros Hrun Huniq.
  destruct (join_room_cases st gid uid from_username now)
    as [[_ Hr] | (game & Hfetch & Hcases)].
  { rewrite Hrun in Hr. injection Hr as -> ->. repeat split; try done. }
  destruct Hcases as [[_ Hr] | [(_ & _ & Hr) | [(_ & _ & _ & Hr) |
                      (Hroom & Hseat & _ & st1 & Hr & Hplayers & _)]]];
    rewrite Hrun in Hr.
  1-3: injection Hr as -> ->; repeat split; done.
  injection Hr as -> ->.
  split; [| split].
  - unfold unique_seats. rewrite Hplayers, fmap_app. apply NoDup_app.
    split; [exact Huniq |]. split; [| apply NoDup_singleton].
    intros k Hk Hin. apply list_elem_of_singleton in Hin. subst k.
    by apply existsb_is_seat_false in Hseat.
  - intros g _ Hg. assert (g = game) as -> by congruence.
    rewrite (players_of_snoc gid st st1 _ Hplayers). cbn [game_id].
    rewrite bool_decide_eq_true_2 by reflexivity.
    rewrite !length_app. cbn [length]. lia.
  - intros gid' Hne.
    rewrite (players_of_snoc gid' st st1 _ Hplayers). cbn [game_id].
    rewrite bool_decide_eq_false_2 by congruence. by rewrite app_nil_r.
Qed.

Lemma join_room_keeps_invariants_witness :
  unique_seats seated /\ length (players_of "ROOM01" seated) = 2%nat.
Proof.
  destruct (join_room_keeps_invariants lobby seated "ROOM01" 2 (Some "bob") 1001 Joined)
    as (Huniq & Hcap & _).
  - vm_compute. reflexivity.
  - apply (bool_decide_unpack _). vm_compute. exact I.
  - split; [exact Huniq |].
    destruct (Hcap (mk_game 1 2 10 waiting [] 1000)) as [_ Hlen]; [reflexivity .. |].
    exact Hlen.
Defined.

End JoinMore.

(* ===================================================================== *)
(** * Leaving a room                                                      *)
(* ===================================================================== *)

Section LeaveMore.

Lemma without_seat_gone (gid : string) (uid : Z) (l : list player_row) :
  existsb (is_seat gid uid) (without_seat gid uid l) = false.
Proof.
  unfold without_seat. induction l as [| p l IH]; [reflexivity |].
  cbn [List.filter]. destruct (is_seat gid uid p) eqn:Hp; cbn [negb existsb].
  - exact IH.
  - by rewrite Hp, IH.
Qed.

(** The store after the first two statements of the waiting branch. *)
Lemma leave_waiting_run (st : db) (gid : string) (uid : Z) (game : game_row) :
  multiplayer_games st !! gid = Some game ->
  status game = waiting ->
  let st1 := mk_db (update_user_balance (users st) uid (bet_amount game))
                   (multiplayer_games st) (without_seat gid uid (game_players st))
                   (fsm st) (outbox st) in
  let others := players_of gid st1 in
  leave_room_callback gid uid st =
    if bool_decide (host_id game = uid) then
      match order_by_joined_at others with
      | next :: _ =>
          if bool_decide (user_id next <> 0) then
            (Done LeftRoomRefunded,
             mk_db (users st1) (alter (with_host (user_id next)) gid (multiplayer_games st))
                   (game_players st1) (fsm st)
                   (outbox st ++ [(user_id next, BecameHost)]))
          else (Done LeftRoomRefunded, set_games (delete gid) st1)
      | [] => (Done LeftRoomRefunded, set_games (delete gid) st1)
      end
    else (Done LeftRoomRefunded, st1).
Proof.
  intros Hgame Hwaiting st1 others.
  unfold leave_room_callback. unfold bind at 1. cbn [get]. rewrite Hgame.
  rewrite (bool_decide_eq_true_2 _ Hwaiting).
  unfold bind at 1. cbn [credit modify].
  unfold bind at 1. cbn [delete_player modify].
  unfold bind at 1.
  destruct (bool_decide (host_id game = uid)); [| reflexivity].
  unfold bind at 1. cbn [get].
  change (players_of gid _) with others.
  destruct (order_by_joined_at others) as [| next rest]; [reflexivity |].
  destruct (bool_decide (user_id next <> 0)); reflexivity.
Qed.

(** X10. When the host leaves a waiting room in which other players are
    seated, the room stays and its new host is the remaining seat that
    joined first, who is told so; when nobody else is seated the room is
    deleted.  Either way the leaver's seat is removed. *)
Theorem host_leaves_waiting_room (st : db) (gid : string) (uid : Z) (game : game_row) :
  multiplayer_games st !! gid = Some game ->
  status game = waiting ->
  host_id game = uid ->
  let remaining := without_seat gid uid (game_players st) in
  let others := List.filter (in_game gid) remaining in
  Forall (fun p => user_id p <> 0) others ->
  exists st',
    leave_room_callback gid uid st = (Done LeftRoomRefunded, st')
    /\ game_players st' = remaining
    /\ existsb (is_seat gid uid) (game_players st') = false
    /\ (others = [] ->
        multiplayer_games st' = delete gid (multiplayer_games st)
        /\ outbox st' = outbox st)
    /\ (others <> [] ->
        exists next,
          next ∈ others
          /\ (forall q, q ∈ others -> joined_at next <= joined_at q)
          /\ multiplayer_games st'
             = <[gid := with_host (user_id next) game]> (multiplayer_games st)
          /\ outbox st' = outbox st ++ [(user_id next, BecameHost)]).
Proof.
  intros Hgame Hwaiting Hhost remaining others Hreal.
  rewrite (leave_waiting_run st gid uid game Hgame Hwaiting).
  rewrite (bool_decide_eq_true_2 _ Hhost).
  pose proof (without_seat_gone gid uid (game_players st)) as Hgone.
  fold remaining in Hgone.
  unfold players_of. cbn [game_players]. fold remaining. fold others.
  pose proof (order_by_joined_at_Permutation others) as Hperm.
  destruct (order_by_joined_at others) as [| next rest] eqn:Horder.
  - apply Permutation_nil_l in Hperm. 
    eexists. split; [reflexivity |]. cbn.
    split; [reflexivity |]. split; [exact Hgone |].
    split; [done |]. intros Hne. by rewrite <- Hperm in Hne.
  - assert (order_by_joined_at others !! 0%nat = Some next) as Hhead by (by rewrite Horder).
    destruct (order_by_joined_at_head _ _ Hhead) as [Hin Hmin].
    assert (user_id next <> 0) as Hnext.
    { rewrite Forall_forall in Hreal. by apply Hreal. }
    rewrite (bool_decide_eq_true_2 _ Hnext).
    eexists. split; [reflexivity |]. cbn.
    split; [reflexivity |]. split; [exact Hgone |].
    split.
    + intros Hnil. rewrite Hnil in Hin. by apply elem_of_nil in Hin.
    + intros _. exists next. split; [exact Hin |]. split; [exact Hmin |].
      split; [| reflexivity].
      apply map_eq. intros k. destruct (decide (k = gid)) as [-> | Hk].
      * by rewrite lookup_alter_eq, lookup_insert_eq, Hgame.
      * by rewrite lookup_alter_ne, lookup_insert_ne.
Qed.

Lemma host_leaves_waiting_room_witness :
  exists st',
    leave_room_callback "ROOM01" 1 seated = (Done LeftRoomRefunded, st')
    /\ (host_id <$> multiplayer_games st' !! "ROOM01") = Some 2.
Proof.
  destruct (host_leaves_waiting_room seated "ROOM01" 1 (mk_game 1 2 10 waiting [] 1000))
    as (st' & Hrun & _ & _ & _ & Hsome).
  - vm_compute. reflexivity.
  - reflexivity.
  - reflexivity.
  - apply (bool_decide_unpack _). vm_compute. exact I.
  - exists st'. split; [exact Hrun |].
    destruct Hsome as (next & Hin & _ & Hgames & _); [vm_compute; discriminate |].
    rewrite Hgames, lookup_insert_eq. cbn.
    apply list_elem_of_In in Hin. vm_compute in Hin.
    destruct Hin as [<- | []]. reflexivity.
Defined.

(** X11. When a player who is not the host leaves a waiting room, the
    room row is untouched and exactly the rows of that player's seat in
    that room are removed; the primary key of the seats is kept. *)
Theorem guest_leaves_waiting_room (st : db) (gid : string) (uid : Z) (game : game_row) :
  multiplayer_games st !! gid = Some game ->
  status game = waiting ->
  host_id game <> uid ->
  exists st',
    leave_room_callback gid uid st = (Done LeftRoomRefunded, st')
    /\ multiplayer_games st' = multiplayer_games st
    /\ game_players st' = without_seat gid uid (game_players st)
    /\ (forall p, p ∈ game_players st' <->
                  p ∈ game_players st /\ ~ (game_id p = gid /\ user_id p = uid))
    /\ (unique_seats st -> unique_seats st')
    /\ outbox st' = outbox st.
Proof.
  intros Hgame Hwaiting Hhost.
  rewrite (leave_waiting_run st gid uid game Hgame Hwaiting).
  rewrite (bool_decide_eq_false_2 _ Hhost).
  eexists. split; [reflexivity |]. cbn.
  split; [reflexivity |]. split; [reflexivity |].
  split; [| split; [| reflexivity]].
  - intros p. unfold without_seat. rewrite !list_elem_of_In, filter_In.
    rewrite negb_true_iff. unfold is_seat.
    rewrite andb_false_iff, !bool_decide_eq_false.
    split; intros [Hin Hnot]; (split; [exact Hin |]).
    + tauto.
    + destruct (decide (game_id p = gid)) as [Hg | Hg]; [right | by left].
      intros Hu. by apply Hnot.
  - unfold unique_seats, without_seat. cbn.
    induction (game_players st) as [| p l IH]; [done |].
    rewrite fmap_cons, NoDup_cons. intros [Hp Hl]. cbn [List.filter].
    destruct (negb (is_seat gid uid p)); [| by apply IH].
    rewrite fmap_cons, NoDup_cons. split; [| by apply IH].
    intros Hin. apply Hp.
    apply list_elem_of_fmap in Hin as (q & Hq & Hin).
    apply list_elem_of_In, filter_In in Hin as [Hin _].
    rewrite Hq. apply list_elem_of_fmap_2. by apply list_elem_of_In.
Qed.

Lemma guest_leaves_waiting_room_witness :
  exists st',
    leave_room_callback "ROOM01" 2 seated = (Done LeftRoomRefunded, st')
    /\ game_players st' = [mk_player "ROOM01" 1 "alice" [] 0 false 1000].
Proof.
  destruct (guest_leaves_waiting_room seated "ROOM01" 2 (mk_game 1 2 10 waiting [] 1000))
    as (st' & Hrun & _ & Hseats & _).
  - vm_compute. reflexivity.
  - reflexivity.
  - discriminate.
  - exists st'. split; [exact Hrun |]. rewrite Hseats. vm_compute. reflexivity.
Defined.

End LeaveMore.

Section LeavePlaying.

Lemma stop_seat_active (gid : string) (uid : Z) (l : list player_row) :
  List.filter (fun p => is_player p && negb (stopped p))
    (List.filter (in_game gid)
       (map (fun p => if is_seat gid uid p then stop_row p else p) l))
  = List.filter (fun p => is_player p && negb (stopped p) && negb (is_seat gid uid p))
      (List.filter (in_game gid) l).
Proof.
  induction l as [| p l IH]; [reflexivity |].
  cbn [map List.filter].
  destruct (is_seat gid uid p) eqn:Hseat.
  - assert (in_game gid (stop_row p) = in_game gid p) as -> by reflexivity.
    destruct (in_game gid p); [| exact IH].
    cbn [List.filter]. rewrite Hseat.
    assert (is_player (stop_row p) && negb (stopped (stop_row p)) = false) as ->
      by (cbn; apply andb_false_r).
    rewrite andb_false_r. exact IH.
  - destruct (in_game gid p); [| exact IH].
    cbn [List.filter]. rewrite Hseat, andb_true_r.
    destruct (is_player p && negb (stopped p)); [by rewrite IH | exact IH].
Qed.

Lemma without_room_map (gid : string) (h : player_row -> player_row)
    (l : list player_row) :
  (forall p, game_id (h p) = game_id p) ->
  (forall p, in_game gid p = false -> h p = p) ->
  without_room gid (map h l) = without_room gid l.
Proof.
  intros Hid Hout. unfold without_room.
  induction l as [| p l IH]; [reflexivity |].
  cbn [map List.filter].
  assert (in_game gid (h p) = in_game gid p) as -> by (unfold in_game; by rewrite Hid).
  destruct (in_game gid p) eqn:Hp; cbn [negb]; [exact IH |].
  by rewrite (Hout p Hp), IH.
Qed.

(** X12. Leaving a room in play charges the leaver the stake through the
    balance helper and sends no message.  If no other seat of the room
    can still act, the room and all its seats are deleted without any
    settlement; otherwise the room stays and the leaver's seat is kept,
    marked stopped. *)
Theorem leave_during_play (st : db) (gid : string) (uid : Z) (game : game_row) :
  multiplayer_games st !! gid = Some game ->
  status game = playing ->
  exists st',
    leave_room_callback gid uid st = (Done (LeftGameLost (bet_amount game)), st')
    /\ users st' = update_user_balance (users st) uid (- bet_amount game)
    /\ outbox st' = outbox st
    /\ fsm st' = fsm st
    /\ (still_active gid uid st = [] ->
        multiplayer_games st' = delete gid (multiplayer_games st)
        /\ game_players st' = without_room gid (game_players st))
    /\ (still_active gid uid st <> [] ->
        multiplayer_games st' = multiplayer_games st
        /\ game_players st'
           = map (fun p => if is_seat gid uid p then stop_row p else p) (game_players st)).
Proof.
  intros Hgame Hplaying.
  unfold leave_room_callback. unfold bind at 1. cbn [get]. rewrite Hgame.
  rewrite bool_decide_eq_false_2 by (rewrite Hplaying; discriminate).
  unfold bind at 1. cbn [credit modify].
  unfold bind at 1. cbn [set_stopped update_seat modify].
  unfold bind at 1. cbn [get].
  unfold players_of. cbn [game_players set_players set_users].
  change (fun p : player_row =>
            if is_seat gid uid p
            then mk_player (game_id p) (user_id p) (username p) (cards p) (value p)
                           true (joined_at p)
            else p)
    with (fun p : player_row => if is_seat gid uid p then stop_row p else p).
  rewrite (stop_seat_active gid uid).
  fold (players_of gid st). fold (still_active gid uid st).
  destruct (still_active gid uid st) as [| q rest] eqn:Hactive.
  - cbn [length]. rewrite bool_decide_eq_true_2 by reflexivity.
    unfold bind at 1. unfold bind at 1. cbn [delete_players delete_game modify].
    eexists. split; [reflexivity |]. cbn.
    repeat split; try done.
    fold (without_room gid
            (map (fun p => if is_seat gid uid p then stop_row p else p) (game_players st))).
    apply without_room_map.
    + intros p. by destruct (is_seat gid uid p).
    + intros p Hp. destruct (is_seat gid uid p) eqn:Hseat; [| reflexivity].
      unfold is_seat in Hseat. unfold in_game in Hp. by rewrite Hp in Hseat.
  - cbn [length]. rewrite bool_decide_eq_false_2 by discriminate.
    unfold bind at 1. cbn [ret].
    eexists. split; [reflexivity |]. cbn. repeat split; done.
Qed.

Lemma leave_during_play_witness :
  exists st',
    leave_room_callback "ROOM01" 2 after_stand = (Done (LeftGameLost 10), st')
    /\ multiplayer_games st' !! "ROOM01" = None
    /\ game_players st' = []
    /\ outbox st' = outbox after_stand.
Proof.
  destruct (leave_during_play after_stand "ROOM01" 2
              (mk_game 1 2 10 playing (take 48 fresh_deck) 1000))
    as (st' & Hrun & _ & Hout & _ & Hlast & _).
  - vm_compute. reflexivity.
  - reflexivity.
  - exists st'. split; [exact Hrun |].
    destruct Hlast as [Hgames Hseats]; [vm_compute; reflexivity |].
    rewrite Hgames, Hseats. split; [apply lookup_delete_eq |].
    split; [vm_compute; reflexivity | exact Hout].
Defined.

End LeavePlaying.

(* ===================================================================== *)
(** * Closing, opening and starting a room                                *)
(* ===================================================================== *)

Section CloseCreateStart.

Lemma refund_all_run (bet : Z) (players : list player_row) :
  forall st : db,
    refund_all players bet st = (Done tt, set_users (refunded bet players) st).
Proof.
  induction players as [| p players IH]; intros st.
  - by destruct st.
  - cbn [refund_all]. unfold bind at 1. cbn [credit modify]. by rewrite IH.
Qed.

Lemma refunded_cons (bet : Z) (q : player_row) (players : list player_row)
    (table : gmap Z user_row) :
  refunded bet (q :: players) table
  = refunded bet players (update_user_balance table (user_id q) bet).
Proof. reflexivity. Qed.

Lemma refunded_absent (bet : Z) (uid : Z) (players : list player_row) :
  forall table : gmap Z user_row,
    uid ∉ user_id <$> players ->
    refunded bet players table !! uid = table !! uid.
Proof.
  induction players as [| q players IH]; intros table Hnotin; [reflexivity |].
  rewrite fmap_cons in Hnotin. apply not_elem_of_cons in Hnotin as [Hne Hnotin].
  rewrite refunded_cons.
  rewrite IH by exact Hnotin. by apply update_user_balance_other.
Qed.

Lemma refunded_lookup (bet : Z) (p : player_row) (players : list player_row) :
  forall table : gmap Z user_row,
    NoDup (user_id <$> players) ->
    p ∈ players ->
    refunded bet players table !! user_id p
    = update_user_balance table (user_id p) bet !! user_id p.
Proof.
  induction players as [| q players IH]; intros table Hnodup Hin.
  - by apply elem_of_nil in Hin.
  - rewrite fmap_cons in Hnodup. apply NoDup_cons in Hnodup as [Hq Hnodup].
    rewrite refunded_cons.
    apply elem_of_cons in Hin as [-> | Hin].
    + by rewrite refunded_absent.
    + rewrite IH by assumption.
      apply update_user_balance_congr. apply update_user_balance_other.
      intros Heq. apply Hq. rewrite <- Heq. by apply list_elem_of_fmap_2.
Qed.

(** X13. When the host closes a waiting room, the room and all its seats
    are deleted, every seated player is credited the stake once through
    the balance helper, nobody else's balance changes and no message is
    sent. *)
Theorem close_room_effects (st : db) (gid : string) (uid : Z) (game : game_row) :
  fetch_waiting gid st = Some game ->
  host_id game = uid ->
  NoDup (user_id <$> players_of gid st) ->
  exists st',
    close_room_callback gid uid st = (Done RoomClosed, st')
    /\ multiplayer_games st' = delete gid (multiplayer_games st)
    /\ game_players st' = without_room gid (game_players st)
    /\ players_of gid st' = []
    /\ (forall p, p ∈ players_of gid st ->
          users st' !! user_id p
          = update_user_balance (users st) (user_id p) (bet_amount game) !! user_id p)
    /\ (forall u, u ∉ user_id <$> players_of gid st -> users st' !! u = users st !! u)
    /\ outbox st' = outbox st.
Proof.
  intros Hfetch Hhost Hnodup.
  unfold close_room_callback. unfold bind at 1. cbn [get]. rewrite Hfetch.
  rewrite bool_decide_eq_false_2 by (intros H; by apply H).
  unfold bind at 1. rewrite refund_all_run.
  unfold bind at 1. unfold bind at 1. cbn [delete_players delete_game modify].
  eexists. split; [reflexivity |]. cbn.
  split; [reflexivity |]. split; [reflexivity |].
  split; [apply filter_deleted_players |].
  split; [intros p Hp; by apply refunded_lookup |].
  split; [intros u Hu; by apply refunded_absent | reflexivity].
Qed.

Lemma close_room_effects_witness :
  exists st',
    close_room_callback "ROOM01" 1 seated = (Done RoomClosed, st')
    /\ multiplayer_games st' !! "ROOM01" = None
    /\ game_players st' = [].
Proof.
  destruct (close_room_effects seated "ROOM01" 1 (mk_game 1 2 10 waiting [] 1000))
    as (st' & Hrun & Hgames & Hseats & _).
  - reflexivity.
  - reflexivity.
  - apply (bool_decide_unpack _). vm_compute. exact I.
  - exists st'. split; [exact Hrun |]. rewrite Hgames, Hseats.
    split; [apply lookup_delete_eq | vm_compute; reflexivity].
Defined.

(** X14. Only the host of a waiting room can close or start it: for a
    code without a waiting room and for any other user both handlers
    answer with a rejection and leave the store as it was, and so does a
    start with fewer than MIN_PLAYERS = 2 seats. *)
Theorem host_only_operations (st : db) (gid : string) (uid : Z)
    (draws : list nat) (now rnd : Z) :
  (fetch_waiting gid st = None ->
     close_room_callback gid uid st = (Done CloseRoomNotFound, st)
     /\ start_game_callback gid uid draws now rnd st = (Done RoomNotFound, st))
  /\ (forall game,
        fetch_waiting gid st = Some game -> host_id game <> uid ->
        close_room_callback gid uid st = (Done OnlyHostCanClose, st)
        /\ start_game_callback gid uid draws now rnd st = (Done OnlyHostCanStart, st))
  /\ (forall game,
        fetch_waiting gid st = Some game -> host_id game = uid ->
        (length (players_of gid st) < 2)%nat ->
        start_game_callback gid uid draws now rnd st = (Done NotEnoughPlayers, st)).
Proof.
  split; [| split].
  - intros Hnone. unfold close_room_callback, start_game_callback, bind, get.
    by rewrite Hnone.
  - intros game Hfetch Hhost.
    unfold close_room_callback, start_game_callback, bind, get. rewrite Hfetch.
    by rewrite (bool_decide_eq_true_2 _ Hhost).
  - intros game Hfetch Hhost Hfew.
    unfold start_game_callback, bind, get. rewrite Hfetch.
    rewrite bool_decide_eq_false_2 by (intros H; by apply H).
    destruct (Z.of_nat (length (players_of gid st)) <? MIN_PLAYERS) eqn:Hcmp;
      [reflexivity |].
    apply Z.ltb_ge in Hcmp. unfold MIN_PLAYERS in Hcmp. lia.
Qed.

Lemma host_only_operations_witness :
  start_game_callback "ROOM01" 1 [] 1002 2 lobby = (Done NotEnoughPlayers, lobby)
  /\ close_room_callback "ROOM01" 2 lobby = (Done OnlyHostCanClose, lobby).
Proof.
  destruct (host_only_operations lobby "ROOM01" 1 [] 1002 2) as (_ & _ & Hfew).
  destruct (host_only_operations lobby "ROOM01" 2 [] 1002 2) as (_ & Hother & _).
  split.
  - apply (Hfew (mk_game 1 2 10 waiting [] 1000)); [reflexivity | reflexivity |].
    vm_compute. lia.
  - apply (Hother (mk_game 1 2 10 waiting [] 1000)); [reflexivity | discriminate].
Defined.

Lemma find_first {A} (f : A -> bool) (l : list A) (x : A) :
  List.find f l = Some x ->
  exists pre post, l = pre ++ x :: post /\ f x = true /\ Forall (fun y => f y = false) pre.
Proof.
  induction l as [| a l IH]; [discriminate |].
  simpl. destruct (f a) eqn:Hfa.
  - intros [= ->]. exists [], l. repeat split; [exact Hfa | constructor].
  - intros Hfind. destruct (IH Hfind) as (pre & post & -> & Hx & Hpre).
    exists (a :: pre), post. repeat split; [exact Hx | by constructor].
Qed.

(** X15. Opening a room with a stake of at least MIN_BET that the
    creator's balance covers takes the first candidate code that is not a
    key of the rooms table, so no existing room is overwritten; the new
    room is waiting, hosted by the creator, whose seat is its only seat,
    and no balance changes. *)
Theorem create_room_effects (st : db) (uid : Z) (from_username : option string)
    (max_players bet : Z) (ids : list string) (now : Z) (gid : string) :
  MIN_BET <= bet ->
  bet <= get_user_balance (users st) uid ->
  List.find (fun i => bool_decide (multiplayer_games st !! i = None)) ids = Some gid ->
  existsb (is_seat gid uid) (game_players st) = false ->
  exists st',
    create_room_bet uid from_username max_players bet ids now st
      = (Done (RoomCreated gid), st')
    /\ multiplayer_games st !! gid = None
    /\ (exists pre post,
          ids = pre ++ gid :: post
          /\ Forall (fun i => is_Some (multiplayer_games st !! i)) pre)
    /\ multiplayer_games st'
       = <[gid := mk_game uid max_players bet waiting [] now]> (multiplayer_games st)
    /\ (forall gid', gid' <> gid ->
          multiplayer_games st' !! gid' = multiplayer_games st !! gid')
    /\ game_players st'
       = game_players st ++
         [mk_player gid uid (default "NoName" from_username) [] 0 false now]
    /\ users st' = users st
    /\ fsm st' = delete uid (fsm st).
Proof.
  intros Hmin Hbal Hfind Hfresh.
  destruct (find_first _ _ _ Hfind) as (pre & post & Hids & Hfree & Hpre).
  apply bool_decide_eq_true in Hfree.
  unfold create_room_bet.
  destruct (bet <? MIN_BET) eqn:Hlow; [apply Z.ltb_lt in Hlow; lia |].
  unfold bind at 1. cbn [get].
  destruct (get_user_balance (users st) uid <? bet) eqn:Hpoor;
    [apply Z.ltb_lt in Hpoor; lia |].
  unfold bind at 1. rewrite Hfind. cbn [try_option ret].
  unfold bind at 1. cbn [modify].
  unfold bind at 1. rewrite insert_player_fresh by exact Hfresh.
  unfold bind at 1. cbn [modify].
  eexists. split; [reflexivity |]. cbn.
  split; [exact Hfree |].
  split.
  { exists pre, post. split; [exact Hids |].
    eapply Forall_impl; [exact Hpre |]. intros i Hi. cbn in Hi.
    apply bool_decide_eq_false in Hi.
    destruct (multiplayer_games st !! i); [eauto | done]. }
  split; [reflexivity |].
  split; [intros gid' Hne; by rewrite lookup_insert_ne |].
  repeat split.
Qed.

Lemma create_room_effects_witness :
  exists st',
    create_room_bet 2 (Some "bob") 3 5 ["ROOM01"; "ROOM02"] 1005 lobby
      = (Done (RoomCreated "ROOM02"), st')
    /\ multiplayer_games st' !! "ROOM01" = multiplayer_games lobby !! "ROOM01".
Proof.
  destruct (create_room_effects lobby 2 (Some "bob") 3 5 ["ROOM01"; "ROOM02"] 1005 "ROOM02")
    as (st' & Hrun & _ & _ & _ & Hother & _).
  - vm_compute. discriminate.
  - vm_compute. discriminate.
  - vm_compute. reflexivity.
  - reflexivity.
  - exists st'. split; [exact Hrun |]. by apply Hother.
Defined.

(** X16. A stake below MIN_BET = 3 is refused without any change, and a
    stake above the creator's balance is refused with only the creator's
    dialogue data cleared: in neither case is a room or a seat created or
    a balance changed. *)
Theorem create_room_rejections (st : db) (uid : Z) (from_username : option string)
    (max_players bet : Z) (ids : list string) (now : Z) :
  MIN_BET = 3
  /\ (bet < MIN_BET ->
      create_room_bet uid from_username max_players bet ids now st = (Done BadBet, st))
  /\ (MIN_BET <= bet -> get_user_balance (users st) uid < bet ->
      create_room_bet uid from_username max_players bet ids now st
      = (Done (NotEnoughCoins bet), set_fsm (delete uid) st)).
Proof.
  split; [reflexivity |]. split.
  - intros Hlow. unfold create_room_bet.
    by rewrite (proj2 (Z.ltb_lt _ _) Hlow).
  - intros Hmin Hpoor. unfold create_room_bet.
    rewrite (proj2 (Z.ltb_ge _ _) Hmin).
    unfold bind at 1. cbn [get]. by rewrite (proj2 (Z.ltb_lt _ _) Hpoor).
Qed.

Lemma create_room_rejections_witness :
  create_room_bet 1 (Some "alice") 2 2 ["ROOM01"] 1000 store0 = (Done BadBet, store0).
Proof.
  apply (create_room_rejections store0 1 (Some "alice") 2 2 ["ROOM01"] 1000).
  vm_compute. reflexivity.
Defined.

(** X17. For a code that is not a key of the rooms table every handler
    leaves the store as it was: join, leave, close and start answer "not
    found", an action whose stored context names that code is answered
    "already finished", and the turn and dealer procedures do nothing. *)
Theorem missing_room_is_inert (st : db) (gid : string) :
  multiplayer_games st !! gid = None ->
  (forall uid from_username now,
      join_room_callback gid uid from_username now st = (Done RoomNotFound, st))
  /\ (forall uid, leave_room_callback gid uid st = (Done RoomNotFound, st))
  /\ (forall uid, close_room_callback gid uid st = (Done CloseRoomNotFound, st))
  /\ (forall uid draws now rnd,
        start_game_callback gid uid draws now rnd st = (Done RoomNotFound, st))
  /\ (forall uid index action rnd,
        fsm st !! uid = Some (gid, index) -> gid <> "" ->
        room_action_callback uid action rnd st = (Done GameAlreadyFinished, st))
  /\ (forall index rnd, process_next_turn gid index rnd st = (Done tt, st))
  /\ (forall rnd, dealer_turn gid rnd st = (Done tt, st)).
Proof.
  intros Hnone.
  assert (fetch_waiting gid st = None) as Hfetch
    by (unfold fetch_waiting; by rewrite Hnone).
  repeat split; intros.
  - unfold join_room_callback, bind, get. by rewrite Hfetch.
  - unfold leave_room_callback, bind, get. by rewrite Hnone.
  - unfold close_room_callback, bind, get. by rewrite Hfetch.
  - unfold start_game_callback, bind, get. by rewrite Hfetch.
  - unfold room_action_callback, bind, get.
    match goal with H : fsm st !! _ = Some _ |- _ => rewrite H end.
    rewrite bool_decide_eq_false_2 by assumption. by rewrite Hnone.
  - unfold process_next_turn, bind, get. by rewrite Hnone.
  - unfold dealer_turn, bind, get. by rewrite Hnone.
Qed.

Lemma missing_room_is_inert_witness :
  join_room_callback "NOROOM" 2 None 1001 lobby = (Done RoomNotFound, lobby).
Proof.
  by apply (missing_room_is_inert lobby "NOROOM").
Defined.

End CloseCreateStart.

(* ===================================================================== *)
(** * Player actions                                                      *)
(* ===================================================================== *)

Section Actions.

(** X18. An action is refused without any change of the store when the
    user has no stored game context, when the room of that context is not
    in play, and when the stored index is past the last seat or the seat
    at that index belongs to somebody else. *)
Theorem room_action_rejections (st : db) (uid : Z) (action : Action) (rnd : Z) :
  (fsm st !! uid = None ->
     room_action_callback uid action rnd st = (Done GameNotFound, st))
  /\ (forall gid index game,
        fsm st !! uid = Some (gid, index) -> gid <> "" ->
        multiplayer_games st !! gid = Some game ->
        (status game <> playing ->
           room_action_callback uid action rnd st = (Done GameAlreadyFinished, st))
        /\ (status game = playing ->
            seats_in_turn_order gid st !! index = None ->
            room_action_callback uid action rnd st = (Done NotYourTurn, st))
        /\ (forall p, status game = playing ->
            seats_in_turn_order gid st !! index = Some p -> user_id p <> uid ->
            room_action_callback uid action rnd st = (Done NotYourTurn, st))).
Proof.
  split.
  - intros Hnone. unfold room_action_callback, bind, get. by rewrite Hnone.
  - intros gid index game Hctx Hgid Hgame.
    split; [| split].
    + intros Hstatus. unfold room_action_callback, bind, get. rewrite Hctx.
      rewrite (bool_decide_eq_false_2 _ Hgid), Hgame.
      by rewrite (bool_decide_eq_true_2 _ Hstatus).
    + intros Hplaying Hout. unfold room_action_callback, bind, get. rewrite Hctx.
      rewrite (bool_decide_eq_false_2 _ Hgid), Hgame.
      rewrite bool_decide_eq_false_2 by (rewrite Hplaying; intros H; by apply H).
      apply lookup_ge_None in Hout.
      by rewrite (proj2 (Nat.leb_le _ _) Hout).
    + intros p Hplaying Hseat Hother.
      unfold room_action_callback, bind, get. rewrite Hctx.
      rewrite (bool_decide_eq_false_2 _ Hgid), Hgame.
      rewrite bool_decide_eq_false_2 by (rewrite Hplaying; intros H; by apply H).
      rewrite Hseat. cbn [fmap option_fmap option_map].
      rewrite (bool_decide_eq_false_2 (Some (user_id p) = Some uid)) by congruence.
      by rewrite orb_true_r.
Qed.

Lemma room_action_rejections_witness :
  room_action_callback 2 room_hit 2 dealt = (Done GameNotFound, dealt).
Proof.
  apply (room_action_rejections dealt 2 room_hit 2). vm_compute. reflexivity.
Defined.

(** The handler up to the dispatch on the action, when the checks pass. *)
Lemma at_turn_checks (st : db) (uid : Z) (gid : string) (index : nat)
    (game : game_row) (p : player_row) :
  at_turn st uid gid index game p ->
  fsm st !! uid = Some (gid, index)
  /\ bool_decide (gid = "") = false
  /\ multiplayer_games st !! gid = Some game
  /\ bool_decide (status game <> playing) = false
  /\ ((length (seats_in_turn_order gid st) <=? index)%nat
      || negb (bool_decide (user_id <$> seats_in_turn_order gid st !! index = Some uid)))
     = false
  /\ seats_in_turn_order gid st !! index = Some p.
Proof.
  intros (Hctx & Hgid & Hgame & Hplaying & Hseat & Huid).
  split; [exact Hctx |]. split; [by apply bool_decide_eq_false_2 |].
  split; [exact Hgame |].
  split; [apply bool_decide_eq_false_2; rewrite Hplaying; intros H; by apply H |].
  split; [| exact Hseat].
  apply orb_false_iff. split.
  - apply Nat.leb_gt. by apply lookup_lt_Some in Hseat.
  - rewrite Hseat. cbn. rewrite Huid. by rewrite bool_decide_eq_true_2.
Qed.

Ltac pass_checks H :=
  let Hctx := fresh "Hctx" in
  let Hgid := fresh "Hgid" in
  let Hgame := fresh "Hgame" in
  let Hplaying := fresh "Hplaying" in
  let Hturn := fresh "Hturn" in
  let Hseat := fresh "Hseat" in
  destruct (at_turn_checks _ _ _ _ _ _ H) as (Hctx & Hgid & Hgame & Hplaying & Hturn & Hseat);
  unfold room_action_callback; unfold bind at 1; cbn [get];
  rewrite Hctx, Hgid, Hgame, Hplaying, Hturn;
  unfold bind at 1; rewrite Hseat; cbn [try_option ret].

Ltac fold_stop_row gid uid :=
  change (fun p : player_row =>
            if is_seat gid uid p
            then mk_player (game_id p) (user_id p) (username p) (cards p) (value p)
                           true (joined_at p)
            else p)
    with (fun q : player_row => if is_seat gid uid q then stop_row q else q).

Lemma stand_run (st : db) (uid : Z) (gid : string) (index : nat)
    (game : game_row) (p : player_row) (rnd v : Z) :
  at_turn st uid gid index game p ->
  calculate_hand_value (cards p) = Some v ->
  room_action_callback uid room_stand rnd st
  = answer (Stood v)
      (process_next_turn gid (index + 1) rnd
         (set_players (map (fun q => if is_seat gid uid q then stop_row q else q)) st)).
Proof.
  intros Hturn Hv. pass_checks Hturn.
  unfold bind at 1. rewrite Hv. cbn [try_option ret].
  unfold bind at 1. cbn [set_stopped update_seat modify].
  fold_stop_row gid uid.
  unfold bind at 1. unfold answer.
  match goal with |- context [process_next_turn ?g ?i ?r ?s] =>
    destruct (process_next_turn g i r s) as [[[] | e] st'] end; reflexivity.
Qed.

Lemma surrender_run (st : db) (uid : Z) (gid : string) (index : nat)
    (game : game_row) (p : player_row) (rnd v : Z) :
  at_turn st uid gid index game p ->
  calculate_hand_value (cards p) = Some v ->
  room_action_callback uid room_surrender rnd st
  = answer (Surrendered (bet_amount game))
      (process_next_turn gid (index + 1) rnd
         (set_players (map (fun q => if is_seat gid uid q then stop_row q else q))
            (set_users (fun u => update_user_balance u uid (- bet_amount game)) st))).
Proof.
  intros Hturn Hv. pass_checks Hturn.
  unfold bind at 1. rewrite Hv. cbn [try_option ret].
  unfold bind at 1. cbn [credit modify].
  unfold bind at 1. cbn [set_stopped update_seat modify].
  fold_stop_row gid uid.
  unfold bind at 1. unfold answer.
  match goal with |- context [process_next_turn ?g ?i ?r ?s] =>
    destruct (process_next_turn g i r s) as [[[] | e] st'] end; reflexivity.
Qed.

(** X19. A hit while the deck is empty is a stand: the seat is marked
    stopped, no card is drawn, and the turn moves on exactly as after a
    stand; only the answer to the player differs. *)
Theorem hit_on_empty_deck_is_stand (st : db) (uid : Z) (gid : string) (index : nat)
    (game : game_row) (p : player_row) (rnd v : Z) :
  at_turn st uid gid index game p ->
  calculate_hand_value (cards p) = Some v ->
  deck game = [] ->
  room_action_callback uid room_hit rnd st
  = answer DeckEmptyTurnPassed
      (process_next_turn gid (index + 1) rnd
         (set_players (map (fun q => if is_seat gid uid q then stop_row q else q)) st))
  /\ snd (room_action_callback uid room_hit rnd st)
     = snd (room_action_callback uid room_stand rnd st).
Proof.
  intros Hturn Hv Hdeck.
  assert (room_action_callback uid room_hit rnd st
          = answer DeckEmptyTurnPassed
              (process_next_turn gid (index + 1) rnd
                 (set_players
                    (map (fun q => if is_seat gid uid q then stop_row q else q)) st)))
    as Hhit.
  { pass_checks Hturn.
    unfold bind at 1. rewrite Hv. cbn [try_option ret].
    rewrite Hdeck. cbn [pop reverse rev_append].
    unfold bind at 1. cbn [set_stopped update_seat modify].
    fold_stop_row gid uid.
    unfold bind at 1. unfold answer.
    match goal with |- context [process_next_turn ?g ?i ?r ?s] =>
      destruct (process_next_turn g i r s) as [[[] | e] st'] end; reflexivity. }
  split; [exact Hhit |].
  rewrite Hhit, (stand_run st uid gid index game p rnd v Hturn Hv).
  unfold answer.
  match goal with |- context [process_next_turn ?g ?i ?r ?s] =>
    destruct (process_next_turn g i r s) as [[[] | e] st'] end; reflexivity.
Qed.

Lemma hit_on_empty_deck_is_stand_witness :
  snd (room_action_callback 1 room_hit 2 dry) = snd (room_action_callback 1 room_stand 2 dry).
Proof.
  apply (hit_on_empty_deck_is_stand dry 1 "ROOM01" 0
           (mk_game 1 2 10 playing [] 1000)
           (mk_player "ROOM01" 1 "alice" [mk_card "A" Clubs; mk_card "K" Clubs] 21 false 1000)
           2 21).
  - repeat split; try (vm_compute; reflexivity). discriminate.
  - vm_compute. reflexivity.
  - reflexivity.
Defined.

(** ** Seats in turn order under an update of the rows *)

Lemma insert_by_joined_at_map (h : player_row -> player_row) (p : player_row)
    (l : list player_row) :
  (forall q, joined_at (h q) = joined_at q) ->
  insert_by_joined_at (h p) (map h l) = map h (insert_by_joined_at p l).
Proof.
  intros Hh. induction l as [| q l IH]; [reflexivity |].
  cbn [map insert_by_joined_at]. rewrite !Hh.
  destruct (joined_at p <=? joined_at q); cbn [map]; [reflexivity | by rewrite IH].
Qed.

Lemma order_by_joined_at_map (h : player_row -> player_row) (l : list player_row) :
  (forall q, joined_at (h q) = joined_at q) ->
  order_by_joined_at (map h l) = map h (order_by_joined_at l).
Proof.
  intros Hh. induction l as [| p l IH]; [reflexivity |].
  unfold order_by_joined_at in *. cbn [map foldr].
  by rewrite IH, insert_by_joined_at_map.
Qed.

Lemma seats_in_turn_order_map (h : player_row -> player_row) (gid : string) (st : db) :
  (forall q, game_id (h q) = game_id q /\ user_id (h q) = user_id q
             /\ joined_at (h q) = joined_at q) ->
  seats_in_turn_order gid (set_players (map h) st) = map h (seats_in_turn_order gid st).
Proof.
  intros Hh. unfold seats_in_turn_order, players_of. cbn [game_players set_players].
  rewrite filter_in_game_map by (intros q; apply Hh).
  rewrite filter_is_player_map by (intros q; apply Hh).
  apply order_by_joined_at_map. intros q. apply Hh.
Qed.

Lemma stop_row_ids (gid : string) (uid : Z) (q : player_row) :
  game_id (if is_seat gid uid q then stop_row q else q) = game_id q
  /\ user_id (if is_seat gid uid q then stop_row q else q) = user_id q
  /\ joined_at (if is_seat gid uid q then stop_row q else q) = joined_at q.
Proof. by destruct (is_seat gid uid q). Qed.

Lemma stop_row_hand (gid : string) (uid : Z) (q : player_row) :
  cards (if is_seat gid uid q then stop_row q else q) = cards q
  /\ value (if is_seat gid uid q then stop_row q else q) = value q.
Proof. by destruct (is_seat gid uid q). Qed.

(** X20. A stand by a seat that is not the last one changes neither a
    balance, the deck nor a hand: the seat is marked stopped, and the
    seat that follows it in joining order - whether or not it is already
    stopped - gets the stored context with the next index and is
    prompted with its hand. *)
Theorem stand_passes_turn (st : db) (uid : Z) (gid : string) (index : nat)
    (game : game_row) (p next : player_row) (rnd v vnext : Z) :
  at_turn st uid gid index game p ->
  calculate_hand_value (cards p) = Some v ->
  seats_in_turn_order gid st !! (index + 1)%nat = Some next ->
  calculate_hand_value (cards next) = Some vnext ->
  room_action_callback uid room_stand rnd st
  = (Done (Stood v),
     mk_db (users st) (multiplayer_games st) (stop_seat gid uid (game_players st))
           (<[user_id next := (gid, (index + 1)%nat)]> (fsm st))
           (outbox st ++ [(user_id next, YourTurn (cards next) vnext)])).
Proof.
  intros Hturn Hv Hnext Hvnext.
  rewrite (stand_run st uid gid index game p rnd v Hturn Hv).
  destruct Hturn as (_ & _ & Hgame & Hplaying & _ & _).
  unfold process_next_turn. unfold bind at 1. cbn [get].
  cbn [multiplayer_games set_players]. rewrite Hgame.
  rewrite bool_decide_eq_false_2 by (rewrite Hplaying; intros H; by apply H).
  rewrite seats_in_turn_order_map by (intros q; apply (stop_row_ids gid uid q)).
  rewrite length_map.
  rewrite (proj2 (Nat.leb_gt _ _)) by (by apply lookup_lt_Some in Hnext).
  rewrite list_lookup_fmap, Hnext. cbn [fmap option_fmap option_map].
  destruct (stop_row_ids gid uid next) as (_ & Hu & _).
  destruct (stop_row_hand gid uid next) as (Hc & _).
  unfold bind at 1. cbn [try_option ret].
  unfold bind at 1. rewrite Hc, Hvnext. cbn [try_option ret].
  unfold bind at 1. cbn [modify set_fsm safe_send_message answer].
  rewrite Hu. reflexivity.
Qed.

Lemma stand_passes_turn_witness :
  exists st',
    room_action_callback 1 room_stand 2 dealt = (Done (Stood 21), st')
    /\ fsm st' !! 2 = Some ("ROOM01", 1%nat).
Proof.
  eexists. split.
  - apply (stand_passes_turn dealt 1 "ROOM01" 0
             (mk_game 1 2 10 playing (take 48 fresh_deck) 1000)
             (mk_player "ROOM01" 1 "alice" [mk_card "A" Clubs; mk_card "K" Clubs] 21 false 1000)
             (mk_player "ROOM01" 2 "bob" [mk_card "Q" Clubs; mk_card "J" Clubs] 20 false 1001)
             2 21 20).
    + repeat split; try (vm_compute; reflexivity). discriminate.
    + vm_compute. reflexivity.
    + vm_compute. reflexivity.
    + vm_compute. reflexivity.
  - cbn. apply lookup_insert_eq.
Defined.

(** A hit that does not bust, step by step. *)
Lemma hit_run (st : db) (uid : Z) (gid : string) (index : nat)
    (game : game_row) (p : player_row) (rnd v0 v : Z) (rest : list Card) (c : Card) :
  at_turn st uid gid index game p ->
  calculate_hand_value (cards p) = Some v0 ->
  deck game = rest ++ [c] ->
  calculate_hand_value (cards p ++ [c]) = Some v ->
  v <= 21 ->
  room_action_callback uid room_hit rnd st
  = (Done (HandUpdated (cards p ++ [c]) v),
     mk_db (users st) (alter (with_deck rest) gid (multiplayer_games st))
           (give_hand gid uid (cards p ++ [c]) v (game_players st))
           (fsm st) (outbox st)).
Proof.
  intros Hturn Hv0 Hdeck Hv Hfits. pass_checks Hturn.
  unfold bind at 1. rewrite Hv0. cbn [try_option ret].
  rewrite Hdeck, pop_snoc.
  unfold bind at 1. rewrite Hv. cbn [try_option ret].
  unfold bind at 1. cbn [set_hand update_seat modify].
  unfold bind at 1. cbn [set_deck update_game modify].
  rewrite (proj2 (Z.ltb_ge _ _) Hfits). reflexivity.
Qed.

(** X21. A hit that does not bust moves exactly one card, the last one
    of the deck, to the end of the player's hand and stores the new value;
    nothing else changes: no balance, no message, no stored context, and
    the seat is not stopped, so the player may act again. *)
Theorem hit_draws_one_card (st : db) (uid : Z) (gid : string) (index : nat)
    (game : game_row) (p : player_row) (rnd v0 v : Z) (rest : list Card) (c : Card) :
  at_turn st uid gid index game p ->
  calculate_hand_value (cards p) = Some v0 ->
  deck game = rest ++ [c] ->
  calculate_hand_value (cards p ++ [c]) = Some v ->
  v <= 21 ->
  room_action_callback uid room_hit rnd st
  = (Done (HandUpdated (cards p ++ [c]) v),
     mk_db (users st) (alter (with_deck rest) gid (multiplayer_games st))
           (give_hand gid uid (cards p ++ [c]) v (game_players st))
           (fsm st) (outbox st)).
Proof. apply hit_run. Qed.

Lemma hit_draws_one_card_witness :
  fst (room_action_callback 1 room_hit 2 dealt)
  = Done (HandUpdated [mk_card "A" Clubs; mk_card "K" Clubs; mk_card "10" Clubs] 21).
Proof.
  rewrite (hit_draws_one_card dealt 1 "ROOM01" 0
             (mk_game 1 2 10 playing (take 48 fresh_deck) 1000)
             (mk_player "ROOM01" 1 "alice" [mk_card "A" Clubs; mk_card "K" Clubs] 21 false 1000)
             2 21 21 (take 47 fresh_deck) (mk_card "10" Clubs)).
  - reflexivity.
  - repeat split; try (vm_compute; reflexivity). discriminate.
  - vm_compute. reflexivity.
  - vm_compute. reflexivity.
  - vm_compute. reflexivity.
  - lia.
Defined.

Lemma NoDup_keys_filter (f : player_row -> bool) (l : list player_row) :
  NoDup (seat_key <$> l) -> NoDup (seat_key <$> List.filter f l).
Proof.
  induction l as [| p l IH]; [done |].
  rewrite fmap_cons, NoDup_cons. intros [Hp Hl]. cbn [List.filter].
  destruct (f p); [| by apply IH].
  rewrite fmap_cons, NoDup_cons. split; [| by apply IH].
  intros Hin. apply Hp.
  apply list_elem_of_fmap in Hin as (q & Hq & Hin).
  apply list_elem_of_In, filter_In in Hin as [Hin _].
  rewrite Hq. apply list_elem_of_fmap_2. by apply list_elem_of_In.
Qed.

Lemma unique_seat_split (l : list player_row) (p : player_row) :
  NoDup (seat_key <$> l) -> p ∈ l ->
  exists l1 l2,
    l = l1 ++ p :: l2
    /\ Forall (fun q => seat_key q <> seat_key p) l1
    /\ Forall (fun q => seat_key q <> seat_key p) l2.
Proof.
  intros Hnodup Hin.
  apply list_elem_of_split in Hin as (l1 & l2 & ->).
  exists l1, l2. split; [reflexivity |].
  rewrite fmap_app, fmap_cons in Hnodup.
  apply NoDup_app in Hnodup as (_ & Hdisj & Hright).
  apply NoDup_cons in Hright as [Hp _].
  split; apply Forall_forall; intros q Hq Heq.
  - apply (Hdisj (seat_key q)); [by apply list_elem_of_fmap_2 |].
    rewrite Heq. by left.
  - apply Hp. rewrite <- Heq. by apply list_elem_of_fmap_2.
Qed.

Lemma map_only_seat (gid : string) (uid : Z) (f : player_row -> player_row)
    (l : list player_row) :
  Forall (fun q => seat_key q <> (gid, uid)) l ->
  map (fun q => if is_seat gid uid q then f q else q) l = l.
Proof.
  induction 1 as [| q l Hq _ IH]; [reflexivity |].
  cbn [map]. rewrite IH.
  destruct (is_seat gid uid q) eqn:Hs; [| reflexivity].
  apply is_seat_key in Hs. congruence.
Qed.

Lemma seat_in_turn_order_is_seated (gid : string) (st : db) (index : nat)
    (p : player_row) :
  seats_in_turn_order gid st !! index = Some p -> p ∈ players_of gid st.
Proof.
  intros Hp. apply list_elem_of_lookup_2 in Hp.
  unfold seats_in_turn_order in Hp. rewrite order_by_joined_at_Permutation in Hp.
  apply list_elem_of_In, filter_In in Hp as [Hp _]. by apply list_elem_of_In.
Qed.

Lemma in_game_key (gid : string) (p : player_row) (st : db) :
  p ∈ players_of gid st -> game_id p = gid.
Proof.
  intros Hp. apply list_elem_of_In, filter_In in Hp as [_ Hp].
  unfold in_game in Hp. by apply bool_decide_eq_true in Hp.
Qed.

(** X22. With the primary key of the seats in place, a hit that does not
    bust neither creates nor loses a card: the hands of the room together
    with its deck hold the same cards as before. *)
Theorem hit_conserves_cards (st : db) (uid : Z) (gid : string) (index : nat)
    (game : game_row) (p : player_row) (rnd v0 v : Z) (rest : list Card) (c : Card) :
  at_turn st uid gid index game p ->
  calculate_hand_value (cards p) = Some v0 ->
  deck game = rest ++ [c] ->
  calculate_hand_value (cards p ++ [c]) = Some v ->
  v <= 21 ->
  unique_seats st ->
  room_cards gid (snd (room_action_callback uid room_hit rnd st)) ≡ₚ room_cards gid st.
Proof.
  intros Hturn Hv0 Hdeck Hv Hfits Huniq.
  rewrite (hit_run st uid gid index game p rnd v0 v rest c) by assumption.
  destruct Hturn as (_ & _ & Hgame & _ & Hseat & Huid).
  pose proof (seat_in_turn_order_is_seated _ _ _ _ Hseat) as Hin.
  pose proof (in_game_key _ _ _ Hin) as Hgid.
  assert (seat_key p = (gid, uid)) as Hkey by (unfold seat_key; congruence).
  destruct (unique_seat_split (players_of gid st) p) as (l1 & l2 & Hsplit & Hl1 & Hl2);
    [by apply NoDup_keys_filter | exact Hin |].
  rewrite Hkey in Hl1, Hl2.
  unfold room_cards. cbn [snd multiplayer_games].
  rewrite lookup_alter_eq, Hgame. cbn [fmap option_fmap option_map default deck with_deck].
  rewrite Hdeck.
  unfold players_of at 1. cbn [game_players]. unfold give_hand.
  rewrite filter_in_game_map by (intros q; by destruct (is_seat gid uid q)).
  fold (players_of gid st). rewrite Hsplit.
  rewrite map_app. cbn [map].
  rewrite (map_only_seat gid uid _ l1 Hl1), (map_only_seat gid uid _ l2 Hl2).
  rewrite (proj2 (is_seat_key gid uid p) Hkey).
  rewrite !fmap_app, !fmap_cons, !concat_app, !concat_cons. cbn [cards hand_row].
  rewrite <- !app_assoc.
  apply Permutation_app_head, Permutation_app_head.
  unfold id. rewrite (Permutation_app_comm [c]). by rewrite <- !app_assoc.
Qed.

Lemma hit_conserves_cards_witness :
  room_cards "ROOM01" (snd (room_action_callback 1 room_hit 2 dealt))
  ≡ₚ room_cards "ROOM01" dealt.
Proof.
  apply (hit_conserves_cards dealt 1 "ROOM01" 0
           (mk_game 1 2 10 playing (take 48 fresh_deck) 1000)
           (mk_player "ROOM01" 1 "alice" [mk_card "A" Clubs; mk_card "K" Clubs] 21 false 1000)
           2 21 21 (take 47 fresh_deck) (mk_card "10" Clubs)).
  - repeat split; try (vm_compute; reflexivity). discriminate.
  - vm_compute. reflexivity.
  - vm_compute. reflexivity.
  - vm_compute. reflexivity.
  - lia.
  - apply (bool_decide_unpack _). vm_compute. exact I.
Defined.

End Actions.

(* ===================================================================== *)
(** * The dealer's draw                                                   *)
(* ===================================================================== *)

Section DealerPolicy.

Lemma hand_value_closed (h : list Card) :
  Forall valid_card h ->
  calculate_hand_value h
  = Some (raw_total h - 10 * softened (raw_total h) (ace_count h)).
Proof.
  intros Hall. unfold calculate_hand_value.
  rewrite (count_cards_valid h 0 O Hall). cbn [Nat.add Z.add].
  by rewrite soften_closed_form.
Qed.

Lemma raw_total_snoc (h : list Card) (c : Card) :
  raw_total (h ++ [c]) = raw_total h + points (card_rank c).
Proof.
  unfold raw_total. induction h as [| d h IH]; simpl; [lia |].
  rewrite IH. lia.
Qed.

Lemma ace_count_snoc (h : list Card) (c : Card) :
  ace_count (h ++ [c])
  = (ace_count h + if bool_decide (card_rank c = "A") then 1 else 0)%nat.
Proof.
  unfold ace_count. rewrite List.filter_app, length_app. cbn [List.filter].
  by destruct (bool_decide (card_rank c = "A")).
Qed.

Lemma points_valid (c : Card) :
  valid_card c ->
  2 <= points (card_rank c) <= 11
  /\ (if bool_decide (card_rank c = "A") then points (card_rank c) = 11
      else points (card_rank c) <= 10).
Proof.
  destruct c as [rank suit]. unfold valid_card, ranks. simpl.
  intros Hin. each_member Hin ltac:(vm_compute; intuition discriminate).
Qed.

(** One more card on a hand worth less than 17 gives at most 26. *)
Lemma one_more_card_bound (h : list Card) (c : Card) (v v' : Z) :
  Forall valid_card h -> valid_card c ->
  calculate_hand_value h = Some v -> v < 17 ->
  calculate_hand_value (h ++ [c]) = Some v' ->
  v' <= 26.
Proof.
  intros Hh Hc Hv Hlow Hv'.
  rewrite hand_value_closed in Hv by assumption.
  rewrite hand_value_closed in Hv'
    by (apply Forall_app; split; [assumption | by constructor]).
  injection Hv as <-. injection Hv' as <-.
  rewrite raw_total_snoc, ace_count_snoc in *.
  pose proof (points_valid c Hc) as [Hp Hace].
  pose proof (softened_bounds (raw_total h) (ace_count h)) as Hk.
  set (aces' := (ace_count h + if bool_decide (card_rank c = "A") then 1 else 0)%nat) in *.
  destruct (softened_stops (raw_total h + points (card_rank c)) aces') as [Hfit | Hall];
    [lia |].
  rewrite Hall. subst aces'.
  destruct (bool_decide (card_rank c = "A")); lia.
Qed.

Lemma dealer_draw_policy_run (gid : string) (stack : list Card) :
  forall (dealer_cards : list Card) (dealer_value : Z) (st : db),
    Forall valid_card stack ->
    Forall valid_card dealer_cards ->
    calculate_hand_value dealer_cards = Some dealer_value ->
    exists (k : nat) (dv : Z) (st' : db),
      dealer_draw gid stack dealer_cards dealer_value st
        = (Done (dealer_cards ++ take k stack, dv), st')
      /\ (k <= length stack)%nat
      /\ calculate_hand_value (dealer_cards ++ take k stack) = Some dv
      /\ (17 <= dv \/ k = length stack)
      /\ (forall j, (j < k)%nat ->
            exists v, calculate_hand_value (dealer_cards ++ take j stack) = Some v
                      /\ v < 17)
      /\ ((0 < k)%nat -> dv <= 26).
Proof.
  induction stack as [| new_card stack IH];
    intros dealer_cards dealer_value st Hstack Hhand Hvalue.
  - exists O, dealer_value, st. cbn [dealer_draw ret take length].
    rewrite app_nil_r. repeat split; [lia | done | by right | intros; lia | lia].
  - cbn [dealer_draw]. destruct (dealer_value <? 17) eqn:Hlow.
    + apply Z.ltb_lt in Hlow.
      apply Forall_cons in Hstack as [Hnew Hstack].
      assert (Forall valid_card (dealer_cards ++ [new_card])) as Hhand'.
      { apply Forall_app. split; [assumption | by constructor]. }
      destruct (calculate_hand_value_total _ Hhand') as [v Hv].
      unfold bind at 1. rewrite Hv. cbn [try_option ret].
      unfold bind at 1. cbn [set_hand update_seat modify].
      unfold bind at 1. cbn [set_deck update_game modify].
      edestruct (IH (dealer_cards ++ [new_card]) v)
        as (k & dv & st' & Hrun & Hk & Hdv & Hstop & Hbelow & Hbound);
        [exact Hstack | exact Hhand' | exact Hv |].
      exists (S k), dv, st'. cbn [take length].
      replace (dealer_cards ++ new_card :: take k stack)
        with ((dealer_cards ++ [new_card]) ++ take k stack)
        by (by rewrite <- app_assoc).
      split; [exact Hrun |]. split; [lia |]. split; [exact Hdv |].
      split; [destruct Hstop as [? | ->]; [by left | by right] |].
      split.
      * intros [| j] Hj.
        -- exists dealer_value. cbn [take]. rewrite app_nil_r. by split.
        -- cbn [take].
           replace (dealer_cards ++ new_card :: take j stack)
             with ((dealer_cards ++ [new_card]) ++ take j stack)
             by (by rewrite <- app_assoc).
           apply Hbelow. lia.
      * intros _. destruct k as [| k].
        -- cbn [take] in Hdv. rewrite app_nil_r in Hdv.
           assert (dv = v) as -> by congruence.
           by apply (one_more_card_bound dealer_cards new_card dealer_value v).
        -- apply Hbound. lia.
    + apply Z.ltb_ge in Hlow.
      exists O, dealer_value, st. cbn [ret take]. rewrite app_nil_r.
      repeat split; [lia | done | by left | intros; lia | lia].
Qed.

(** X23. The dealer's draw.  [stack] is the deck with its last card
    first.  From a hand of standard cards with its stored value, the
    dealer takes cards off the stack one by one while the hand is worth
    less than 17, and stops at the first hand worth 17 or more or when
    the stack is used up; a hand the dealer has drawn to is worth at most
    26.  No balance is changed and no message is sent by the draw. *)
Theorem dealer_draw_policy (gid : string) (stack dealer_cards : list Card)
    (dealer_value : Z) (st : db) :
  Forall valid_card stack ->
  Forall valid_card dealer_cards ->
  calculate_hand_value dealer_cards = Some dealer_value ->
  exists (k : nat) (dv : Z) (st' : db),
    dealer_draw gid stack dealer_cards dealer_value st
      = (Done (dealer_cards ++ take k stack, dv), st')
    /\ (k <= length stack)%nat
    /\ calculate_hand_value (dealer_cards ++ take k stack) = Some dv
    /\ (17 <= dv \/ k = length stack)
    /\ (forall j, (j < k)%nat ->
          exists v, calculate_hand_value (dealer_cards ++ take j stack) = Some v
                    /\ v < 17)
    /\ ((0 < k)%nat -> dv <= 26)
    /\ users st' = users st
    /\ outbox st' = outbox st.
Proof.
  intros Hstack Hhand Hvalue.
  destruct (dealer_draw_policy_run gid stack dealer_cards dealer_value st Hstack Hhand Hvalue)
    as (k & dv & st' & Hrun & Hk & Hdv & Hstop & Hbelow & Hbound).
  destruct (dealer_draw_run gid stack dealer_cards dealer_value st Hstack Hhand)
    as (dc2 & dv2 & st2 & Hrun2 & Hu & Ho & _).
  rewrite Hrun in Hrun2. injection Hrun2 as _ _ <-.
  exists k, dv, st'. by repeat (split; [assumption |]).
Qed.

Lemma dealer_draw_policy_witness :
  exists (k : nat) (dv : Z) (st' : db),
    dealer_draw "ROOM01" (reverse (take 48 fresh_deck)) [] 0 dealt
    = (Done (take k (reverse (take 48 fresh_deck)), dv), st')
    /\ (17 <= dv \/ k = 48%nat)
    /\ users st' = users dealt.
Proof.
  destruct (dealer_draw_policy "ROOM01" (reverse (take 48 fresh_deck)) [] 0 dealt)
    as (k & dv & st' & Hrun & _ & _ & Hstop & _ & _ & Hu & _).
  - apply (bool_decide_unpack _). vm_compute. exact I.
  - constructor.
  - reflexivity.
  - exists k, dv, st'. split; [exact Hrun |]. split; [exact Hstop | exact Hu].
Defined.

End DealerPolicy.

(* ===================================================================== *)
(** * The stand of the last seat                                          *)
(* ===================================================================== *)

Section LastStand.

Lemma find_map (f : player_row -> bool) (h : player_row -> player_row)
    (l : list player_row) :
  (forall q, f (h q) = f q) ->
  List.find f (map h l) = h <$> List.find f l.
Proof.
  intros Hf. induction l as [| q l IH]; [reflexivity |].
  cbn [map List.find]. rewrite Hf. by destruct (f q).
Qed.

Lemma settle_all_map (forced : bool) (dealer_value bet : Z)
    (h : player_row -> player_row) (players : list player_row) :
  (forall q, user_id (h q) = user_id q /\ value (h q) = value q) ->
  forall table : gmap Z user_row,
    settle_all forced dealer_value bet (map h players) table
    = settle_all forced dealer_value bet players table.
Proof.
  intros Hh. induction players as [| q players IH]; intros table; [reflexivity |].
  cbn [map]. rewrite !settle_all_cons.
  destruct (Hh q) as [-> ->]. apply IH.
Qed.

(** What the end of the last turn does: the room is settled. *)
Lemma last_turn_settles (s : db) (uid : Z) (gid : string) (next : nat)
    (game : game_row) (rnd : Z) :
  multiplayer_games s !! gid = Some game ->
  status game = playing ->
  (length (seats_in_turn_order gid s) <= next)%nat ->
  Forall valid_card (deck game) ->
  (forall d, List.find (is_seat gid 0) (game_players s) = Some d ->
             Forall valid_card (cards d)) ->
  let seats := List.filter is_player (players_of gid s) in
  let forced := bool_decide (rnd = 1) in
  exists st' dealer_cards dealer_value,
    process_next_turn gid next rnd
      (set_players (map (fun q => if is_seat gid uid q then stop_row q else q)) s)
    = (Done tt, st')
    /\ multiplayer_games st' !! gid = None
    /\ players_of gid st' = []
    /\ users st' = settle_all forced dealer_value (bet_amount game) seats (users s)
    /\ outbox st' =
         outbox s ++
         result_notices dealer_cards dealer_value
           (map (fun q => (user_id q,
                           seat_result forced dealer_value (bet_amount game) (value q)))
                seats).
Proof.
  intros Hgame Hplaying Hlast Hdeck Hdealer seats forced.
  set (h := fun q : player_row => if is_seat gid uid q then stop_row q else q).
  assert (forall q, game_id (h q) = game_id q /\ user_id (h q) = user_id q
                    /\ joined_at (h q) = joined_at q) as Hids
    by (intros q; apply (stop_row_ids gid uid q)).
  assert (forall q, cards (h q) = cards q /\ value (h q) = value q) as Hhand
    by (intros q; apply (stop_row_hand gid uid q)).
  unfold process_next_turn. unfold bind at 1. cbn [get].
  cbn [multiplayer_games set_players]. rewrite Hgame.
  rewrite bool_decide_eq_false_2 by (rewrite Hplaying; intros H; by apply H).
  rewrite seats_in_turn_order_map by exact Hids.
  rewrite length_map.
  rewrite (proj2 (Nat.leb_le _ _)) by exact Hlast.
  destruct (dealer_turn_run (set_players (map h) s) gid game rnd)
    as (st' & dc & dv & Hrun & Hu & Ho & Hgone & Hempty);
    [exact Hgame | exact Hplaying | exact Hdeck | |].
  { intros d. cbn [game_players set_players].
    rewrite find_map.
    - destruct (List.find (is_seat gid 0) (game_players s)) as [d0 |] eqn:Hd0;
        [| discriminate].
      intros [= <-]. destruct (Hhand d0) as [-> _]. by apply Hdealer.
    - intros q. unfold is_seat. destruct (Hids q) as (-> & -> & _). reflexivity. }
  rewrite Hrun.
  exists st', dc, dv. split; [reflexivity |].
  split; [exact Hgone |]. split; [exact Hempty |].
  assert (List.filter is_player (players_of gid (set_players (map h) s))
          = map h seats) as Hseats.
  { unfold players_of. cbn [game_players set_players].
    rewrite filter_in_game_map by (intros q; apply Hids).
    rewrite filter_is_player_map by (intros q; apply Hids). reflexivity. }
  rewrite Hseats in Hu, Ho. cbn [users outbox set_players] in Hu, Ho.
  split.
  - rewrite Hu. apply settle_all_map. intros q.
    destruct (Hids q) as (_ & ? & _). destruct (Hhand q) as [_ ?]. by split.
  - rewrite Ho. f_equal. f_equal. rewrite map_map. apply map_ext. intros q.
    destruct (Hids q) as (_ & -> & _). destruct (Hhand q) as [_ ->]. reflexivity.
Qed.



(** X25. A surrender by the last seat in joining order charges the stake
    at once and then settles the room in the same call; the settlement
    does not skip the seat that surrendered: it is settled again on its
    stored value like every other seat. *)
Theorem last_surrender_settles (st : db) (uid : Z) (gid : string) (index : nat)
    (game : game_row) (p : player_row) (rnd v : Z) :
  at_turn st uid gid index game p ->
  calculate_hand_value (cards p) = Some v ->
  length (seats_in_turn_order gid st) = S index ->
  Forall valid_card (deck game) ->
  (forall d, List.find (is_seat gid 0) (game_players st) = Some d ->
             Forall valid_card (cards d)) ->
  let seats := List.filter is_player (players_of gid st) in
  let forced := bool_decide (rnd = 1) in
  let bet := bet_amount game in
  p ∈ seats
  /\ exists st' dealer_cards dealer_value,
       room_action_callback uid room_surrender rnd st = (Done (Surrendered bet), st')
       /\ multiplayer_games st' !! gid = None
       /\ players_of gid st' = []
       /\ users st' = settle_all forced dealer_value bet seats
                        (update_user_balance (users st) uid (- bet))
       /\ outbox st' =
            outbox st ++
            result_notices dealer_cards dealer_value
              (map (fun q => (user_id q, seat_result forced dealer_value bet (value q)))
                   seats).
Proof.
  intros Hturn Hv Hlast Hdeck Hdealer seats forced bet.
  split.
  { destruct Hturn as (_ & _ & _ & _ & Hseat & _).
    apply list_elem_of_lookup_2 in Hseat.
    unfold seats_in_turn_order in Hseat.
    by rewrite order_by_joined_at_Permutation in Hseat. }
  rewrite (surrender_run st uid gid index game p rnd v Hturn Hv).
  destruct Hturn as (_ & _ & Hgame & Hplaying & _ & _).
  destruct (last_turn_settles
              (set_users (fun u => update_user_balance u uid (- bet_amount game)) st)
              uid gid (index + 1) game rnd Hgame Hplaying)
    as (st' & dc & dv & Hrun & Hrest); [| exact Hdeck | exact Hdealer |].
  { change (seats_in_turn_order gid (set_users _ st)) with (seats_in_turn_order gid st).
    lia. }
  rewrite Hrun. cbn [answer]. by exists st', dc, dv.
Qed.

Lemma last_surrender_settles_witness :
  exists st',
    room_action_callback 2 room_surrender 2 after_stand = (Done (Surrendered 10), st')
    /\ multiplayer_games st' !! "ROOM01" = None.
Proof.
  assert (at_turn after_stand 2 "ROOM01" 1
            (mk_game 1 2 10 playing (take 48 fresh_deck) 1000)
            (mk_player "ROOM01" 2 "bob" [mk_card "Q" Clubs; mk_card "J" Clubs] 20 false 1001))
    as Hturn.
  { repeat split; try (vm_compute; reflexivity). discriminate. }
  destruct (last_surrender_settles after_stand 2 "ROOM01" 1 _ _ 2 20 Hturn)
    as (_ & st' & dc & dv & Hrun & Hgone & _).
  - vm_compute. reflexivity.
  - vm_compute. reflexivity.
  - apply (bool_decide_unpack _). vm_compute. exact I.
  - intros d Hd. vm_compute in Hd. injection Hd as <-. constructor.
  - exists st'. split; [exact Hrun | exact Hgone].
Defined.

End LastStand.

(* ===================================================================== *)
(** * The cards of a room at the start                                    *)
(* ===================================================================== *)

Section StartCards.

(** Dealing to seats with distinct users: what is dealt and what is left
    make up the deck. *)
Lemma deal_hands_cards (gid : string) (players : list player_row) :
  forall (deck : list Card) (st : db),
    (2 * length players <= length deck)%nat ->
    Forall valid_card deck ->
    NoDup (user_id <$> players) ->
    exists deck' h,
      deal_hands gid players deck st
        = (Done deck',
           mk_db (users st) (multiplayer_games st) (map h (game_players st))
                 (fsm st) (outbox st))
      /\ (forall q, game_id (h q) = game_id q /\ user_id (h q) = user_id q)
      /\ (forall q, user_id q ∉ user_id <$> players -> h q = q)
      /\ (forall rows,
            Forall (fun q => game_id q = gid) rows ->
            user_id <$> rows = user_id <$> players ->
            concat (cards <$> map h rows) ++ deck' ≡ₚ deck).
Proof.
  induction players as [| player players IH]; intros deck st Hlen Hvalid Hnodup.
  - exists deck, (fun q => q). simpl. rewrite map_id.
    split; [by destruct st |]. split; [done |]. split; [done |].
    intros rows _ Hrows. apply fmap_nil_inv in Hrows as ->. reflexivity.
  - cbn [length] in Hlen.
    rewrite fmap_cons in Hnodup. apply NoDup_cons in Hnodup as [Hfresh Hnodup].
    destruct (pop_two deck) as (c1 & c2 & rest & Hdeck & Hpop1 & Hpop2); [lia |].
    assert (valid_card c1 /\ valid_card c2 /\ Forall valid_card rest) as (Hc1 & Hc2 & Hrest).
    { rewrite Hdeck in Hvalid. apply Forall_app in Hvalid as [Hrest Hcs].
      apply Forall_cons in Hcs as [Hc2 Hcs]. apply Forall_cons in Hcs as [Hc1 _]. done. }
    destruct (calculate_hand_value_total [c1; c2]) as [v Hv].
    { apply Forall_cons; split; [exact Hc1 |].
      apply Forall_cons; split; [exact Hc2 | constructor]. }
    cbn [deal_hands].
    unfold bind at 1. rewrite Hpop1. cbn [try_option ret].
    unfold bind at 1. rewrite Hpop2. cbn [try_option ret].
    unfold bind at 1. rewrite Hv. cbn [try_option ret].
    unfold bind at 1. cbn [set_hand update_seat modify].
    set (h1 := fun p : player_row =>
                 if is_seat gid (user_id player) p
                 then mk_player (game_id p) (user_id p) (username p) [c1; c2] v
                                (stopped p) (joined_at p)
                 else p).
    edestruct (IH rest (set_players (map h1) st))
      as (deck' & h2 & Hrun & Hids2 & Hout2 & Hcards2);
      [| exact Hrest | exact Hnodup |].
    { rewrite Hdeck in Hlen. rewrite length_app in Hlen. simpl in Hlen. lia. }
    assert (forall q, game_id (h1 q) = game_id q /\ user_id (h1 q) = user_id q) as Hids1.
    { intros q. subst h1. simpl. by destruct (is_seat gid (user_id player) q). }
    assert (forall q, user_id q <> user_id player -> h1 q = q) as Hout1.
    { intros q Hq. subst h1. simpl.
      destruct (is_seat gid (user_id player) q) eqn:Hs; [| reflexivity].
      apply is_seat_key in Hs. unfold seat_key in Hs. congruence. }
    exists deck', (fun q => h2 (h1 q)).
    split.
    { rewrite Hrun. cbn [users multiplayer_games game_players fsm outbox set_players].
      by rewrite map_map. }
    split.
    { intros q. destruct (Hids1 q) as [? ?]. destruct (Hids2 (h1 q)) as [? ?].
      split; congruence. }
    split.
    { intros q Hq. rewrite fmap_cons in Hq. apply not_elem_of_cons in Hq as [Hne Hq].
      rewrite (Hout1 q Hne). by apply Hout2. }
    intros rows Hgid Hrows.
    destruct rows as [| r rows]; [discriminate |].
    rewrite !fmap_cons in Hrows. injection Hrows as Hr Hrows.
    apply Forall_cons in Hgid as [Hrgid Hgid].
    cbn [map fmap list_fmap concat].
    assert (h1 r = mk_player (game_id r) (user_id r) (username r) [c1; c2] v
                             (stopped r) (joined_at r)) as Hh1r.
    { subst h1. simpl.
      rewrite (proj2 (is_seat_key gid (user_id player) r)); [reflexivity |].
      unfold seat_key. congruence. }
    rewrite (Hout2 (h1 r)) by (destruct (Hids1 r) as [_ ->]; by rewrite Hr).
    rewrite Hh1r. cbn [cards].
    assert (map (fun q => h2 (h1 q)) rows = map h2 rows) as ->.
    { apply map_ext_in. intros q Hq. rewrite Hout1; [reflexivity |].
      intros Heq. apply Hfresh. rewrite <- Heq, <- Hrows.
      apply list_elem_of_fmap_2. by apply list_elem_of_In. }
    change (list_fmap player_row (list Card) cards (map h2 rows))
      with (cards <$> map h2 rows).
    rewrite <- app_assoc. rewrite (Hcards2 rows Hgid Hrows).
    rewrite Hdeck. rewrite (Permutation_app_comm rest).
    cbn [app]. apply perm_swap.
Qed.

Lemma unique_users_of_room (gid : string) (st : db) :
  unique_seats st -> NoDup (user_id <$> players_of gid st).
Proof.
  intros Huniq.
  apply (NoDup_fmap_1 (fun uid : Z => (gid, uid))).
  rewrite <- list_fmap_compose.
  replace ((fun uid : Z => (gid, uid)) ∘ user_id <$> players_of gid st)
    with (seat_key <$> players_of gid st).
  - by apply NoDup_keys_filter.
  - apply list_eq_Forall2, Forall2_fmap, Forall_Forall2_diag, Forall_forall.
    intros q Hq. unfold seat_key, compose. by rewrite (in_game_key gid q st Hq).
Qed.

(** The run of a start up to its final tables. *)
Lemma start_game_run (st : db) (gid : string) (uid : Z)
    (draws : list nat) (now rnd : Z) (game : game_row) :
  fetch_waiting gid st = Some game ->
  host_id game = uid ->
  (2 <= length (players_of gid st) <= 26)%nat ->
  Forall (fun p => user_id p <> 0) (players_of gid st) ->
  exists st0 deck' h st',
    deal_hands gid (players_of gid st) (create_deck draws) st0
      = (Done deck',
         mk_db (users st0) (multiplayer_games st0) (map h (game_players st0))
               (fsm st0) (outbox st0))
    /\ game_players st0 = game_players st
    /\ (forall q, game_id (h q) = game_id q /\ user_id (h q) = user_id q)
    /\ start_game_callback gid uid draws now rnd st = (Done Started, st')
    /\ game_players st'
       = map h (game_players st) ++ [mk_player gid 0 "Дилер" [] 0 false now]
    /\ deck <$> multiplayer_games st' !! gid = Some deck'.
Proof.
  intros Hfetch Hhost Hlen Hnodealer.
  assert (multiplayer_games st !! gid = Some game) as Hgame.
  { unfold fetch_waiting in Hfetch.
    destruct (multiplayer_games st !! gid) as [g |]; [| discriminate].
    destruct (bool_decide (status g = waiting)); [congruence | discriminate]. }
  set (seats := players_of gid st) in *.
  unfold start_game_callback. unfold bind at 1. cbn [get]. rewrite Hfetch.
  rewrite (bool_decide_eq_false_2 (host_id game <> uid)) by (intros H; by apply H).
  fold seats.
  destruct (Z.of_nat (length seats) <? MIN_PLAYERS) eqn:Hfew;
    [apply Z.ltb_lt in Hfew; unfold MIN_PLAYERS in Hfew; lia |].
  unfold bind at 1. cbn [set_playing update_game modify]. cbv zeta.
  match goal with
  | |- context [bind (deal_hands gid seats (create_deck draws)) _ ?s] =>
      exists s;
      destruct (deal_hands_run gid seats (create_deck draws) s)
        as (deck' & h & Hrun & Hdecklen & Hh)
  end.
  { rewrite create_deck_length. lia. }
  { apply create_deck_valid. }
  exists deck', h.
  unfold bind at 1. rewrite Hrun.
  cbn [users multiplayer_games game_players fsm outbox set_games] in *.
  assert (forall p, game_id (h p) = game_id p /\ user_id (h p) = user_id p) as Hids
    by (intros p; destruct (Hh p) as (? & ? & _); done).
  destruct (no_dealer_row h gid (game_players st) Hids Hnodealer) as [Hfresh Hfind].
  unfold bind at 1. rewrite insert_player_fresh by exact Hfresh.
  unfold bind at 1. cbn [set_deck update_game modify].
  unfold bind at 1. rewrite announce_start_run.
  cbn [users multiplayer_games game_players fsm outbox set_games set_players].
  set (dealer := mk_player gid 0 "Дилер" [] 0 false now).
  assert (List.filter is_player
            (List.filter (in_game gid) (map h (game_players st) ++ [dealer]))
          = map h seats) as Hseats.
  { rewrite !List.filter_app.
    rewrite filter_in_game_map by (intros p; apply Hids).
    rewrite filter_is_player_map by (intros p; apply Hids).
    fold (players_of gid st). fold seats.
    rewrite (filter_is_player_all seats Hnodealer).
    subst dealer. cbn [List.filter]. unfold in_game. cbn [game_id].
    rewrite bool_decide_eq_true_2 by reflexivity. cbn [List.filter].
    unfold is_player. cbn [user_id]. simpl. by rewrite app_nil_r. }
  assert (forall q, q ∈ map h seats -> dealt_two q) as Hdealt.
  { intros q Hq. apply list_elem_of_fmap in Hq as (p & -> & Hp).
    destruct (Hh p) as (_ & _ & _ & _ & Hd). apply Hd.
    - apply list_elem_of_In, filter_In in Hp as [_ Hp].
      unfold in_game in Hp. by apply bool_decide_eq_true in Hp.
    - by apply list_elem_of_fmap_2. }
  pose proof (order_by_joined_at_Permutation (map h seats)) as Hperm.
  destruct (order_by_joined_at (map h seats)) as [| first rest] eqn:Horder.
  { apply Permutation_length in Hperm. rewrite length_map in Hperm.
    simpl in Hperm. lia. }
  assert (order_by_joined_at (map h seats) !! 0%nat = Some first) as Hhead
    by (by rewrite Horder).
  destruct (order_by_joined_at_head _ _ Hhead) as [Hfirst Hmin].
  destruct (Hdealt first Hfirst) as [Hfirst2 Hfirstv].
  unfold bind at 1. unfold process_next_turn. unfold bind at 1. cbn [get].
  cbn [users multiplayer_games game_players fsm outbox].
  rewrite !lookup_alter_eq, Hgame. cbn [fmap option_fmap option_map status].
  rewrite (bool_decide_eq_false_2 (playing <> playing)) by (intros H; by apply H).
  unfold seats_in_turn_order, players_of.
  cbn [users multiplayer_games game_players fsm outbox].
  rewrite Hseats, Horder. cbn [length Nat.leb lookup list_lookup try_option].
  unfold bind at 1. cbn [ret].
  unfold bind at 1. rewrite Hfirstv. cbn [try_option ret].
  unfold bind at 1. cbn [modify set_fsm safe_send_message].
  eexists. split; [reflexivity |]. split; [reflexivity |]. split; [exact Hids |].
  split; [reflexivity |].
  cbn [users multiplayer_games game_players fsm outbox set_fsm].
  split; [reflexivity |].
  rewrite !lookup_alter_eq, Hgame. reflexivity.
Qed.

(** X26. With the primary key of the seats in place, a start deals a
    whole deck and nothing else: the hands of the room together with its
    saved deck are the 52 cards of the standard deck, each once, and the
    primary key still holds with the dealer's seat added. *)
Theorem start_deals_whole_deck (st : db) (gid : string) (uid : Z)
    (draws : list nat) (now rnd : Z) (game : game_row) :
  fetch_waiting gid st = Some game ->
  host_id game = uid ->
  (2 <= length (players_of gid st) <= 26)%nat ->
  Forall (fun p => user_id p <> 0) (players_of gid st) ->
  unique_seats st ->
  let st' := snd (start_game_callback gid uid draws now rnd st) in
  room_cards gid st' ≡ₚ fresh_deck
  /\ NoDup (room_cards gid st')
  /\ unique_seats st'.
Proof.
  intros Hfetch Hhost Hlen Hnodealer Huniq st'.
  destruct (start_game_run st gid uid draws now rnd game Hfetch Hhost Hlen Hnodealer)
    as (st0 & deck' & h & st1 & Hrun & Hplayers & Hids & Hstart & Htable & Hdeck).
  destruct (deal_hands_cards gid (players_of gid st) (create_deck draws) st0)
    as (deck2 & h2 & Hrun2 & Hids2 & _ & Hcards).
  { rewrite create_deck_length. lia. }
  { apply create_deck_valid. }
  { by apply unique_users_of_room. }
  rewrite Hrun in Hrun2. injection Hrun2 as <- Hmaps.
  rewrite Hplayers in Hmaps.
  subst st'. rewrite Hstart. cbn [snd].
  assert (room_cards gid st1 ≡ₚ fresh_deck) as Hperm.
  { unfold room_cards, players_of. rewrite Htable.
    destruct (multiplayer_games st1 !! gid) as [g |]; [| discriminate].
    cbn [fmap option_fmap option_map default] in Hdeck |- *.
    injection Hdeck as ->.
    rewrite List.filter_app, Hmaps.
    rewrite filter_in_game_map by (intros q; apply Hids2).
    fold (players_of gid st).
    cbn [List.filter]. unfold in_game. cbn [game_id].
    rewrite bool_decide_eq_true_2 by reflexivity.
    rewrite fmap_app, concat_app. cbn [fmap list_fmap concat cards app].
    rewrite app_nil_r.
    rewrite (Hcards (players_of gid st)); [apply create_deck_Permutation | | reflexivity].
    apply Forall_forall. intros q Hq. by apply (in_game_key gid q st). }
  split; [exact Hperm |].
  split; [rewrite Hperm; apply fresh_deck_NoDup |].
  unfold unique_seats. rewrite Htable, fmap_app.
  apply NoDup_app. split; [| split].
  - replace (seat_key <$> map h (game_players st)) with (seat_key <$> game_players st);
      [exact Huniq |].
    change (map h (game_players st)) with (h <$> game_players st).
    rewrite <- list_fmap_compose.
    apply list_fmap_ext. intros i q _. unfold compose, seat_key.
    by destruct (Hids q) as [-> ->].
  - intros key Hkey Hdealer.
    apply list_elem_of_fmap in Hkey as (q & -> & Hq).
    apply list_elem_of_fmap in Hq as (q0 & -> & Hq0).
    cbn [fmap list_fmap] in Hdealer. apply list_elem_of_singleton in Hdealer.
    unfold seat_key in Hdealer. cbn [game_id user_id] in Hdealer.
    destruct (Hids q0) as [Hg Hu]. rewrite Hg, Hu in Hdealer.
    injection Hdealer as Hgid Hzero.
    rewrite Forall_forall in Hnodealer. apply (Hnodealer q0); [| exact Hzero].
    apply list_elem_of_In, filter_In. split; [by apply list_elem_of_In |].
    unfold in_game. by apply bool_decide_eq_true.
  - cbn [fmap list_fmap]. apply NoDup_singleton.
Qed.

Lemma start_deals_whole_deck_witness :
  room_cards "ROOM01" (snd (start_game_callback "ROOM01" 1 identity_draws 1002 2 seated))
  ≡ₚ fresh_deck.
Proof.
  apply (start_deals_whole_deck seated "ROOM01" 1 identity_draws 1002 2
           (mk_game 1 2 10 waiting [] 1000)).
  - vm_compute. reflexivity.
  - reflexivity.
  - vm_compute. lia.
  - apply (bool_decide_unpack _). vm_compute. exact I.
  - apply (bool_decide_unpack _). vm_compute. exact I.
Defined.

End StartCards.

(* ===================================================================== *)
(** * The dice game                                                       *)
(* ===================================================================== *)

Section DiceGame.

(** X27. A dice bet that passes the checks (a positive amount that the
    balance covers, with a multiplier that is not negative) ends the
    dialogue, touches no other user, and moves the player's balance by
    exactly the profit amount * multiplier when the two dice total more
    than 7, and by exactly minus the amount otherwise; the balance never
    ends below zero and nothing is booked on the negative balance. *)
Theorem dice_bet_settles (st : db) (uid : Z) (amount dice1 dice2 multiplier : Z) :
  0 < amount ->
  amount <= get_user_balance (users st) uid ->
  0 <= multiplier ->
  let before := get_user_balance (users st) uid in
  let total := dice1 + dice2 in
  let after := if 7 <? total then before + amount * multiplier else before - amount in
  exists st',
    dice_bet_amount uid (Some amount) dice1 dice2 multiplier st
    = (Done (if 7 <? total
             then DiceWon dice1 dice2 total (amount * multiplier) after
             else DiceLost dice1 dice2 total amount after),
       st')
    /\ get_user_balance (users st') uid = after
    /\ 0 <= after
    /\ (negative_balance <$> users st' !! uid) = (negative_balance <$> users st !! uid)
    /\ (forall other, other <> uid -> users st' !! other = users st !! other)
    /\ fsm st' = delete uid (fsm st)
    /\ multiplayer_games st' = multiplayer_games st
    /\ game_players st' = game_players st.
Proof.
  intros Hpos Hcover Hmult before total after.
  unfold dice_bet_amount.
  rewrite (proj2 (Z.leb_gt amount 0)) by lia.
  unfold bind at 1. cbn [get]. fold before.
  rewrite (proj2 (Z.ltb_ge before amount)) by (subst before; lia).
  fold total.
  assert (exists row, users st !! uid = Some row /\ balance row = before) as (row & Hrow & Hbal).
  { subst before. unfold get_user_balance in *.
    destruct (users st !! uid) as [row |]; [by exists row | lia]. }
  assert (forall delta, 0 <= before + delta ->
            update_user_balance (users st) uid delta !! uid
            = Some (mk_user (before + delta) (negative_balance row) (game_wins row)))
    as Hupdate.
  { intros delta Hdelta. rewrite (update_user_balance_lookup _ _ row) by exact Hrow.
    rewrite Hbal. by rewrite (proj2 (Z.ltb_ge _ 0)) by lia. }
  destruct (7 <? total) eqn:Hwin.
  - assert (0 <= before + amount * multiplier) as Hafter by (subst before; nia).
    unfold bind at 1. cbn [credit modify].
    unfold bind at 1. cbn [get]. cbn [users set_users].
    unfold bind at 1. cbn [modify set_fsm ret].
    unfold get_user_balance at 1 2. rewrite (Hupdate _ Hafter). cbn [balance].
    eexists. split; [reflexivity |].
    unfold get_user_balance.
    cbn [users multiplayer_games game_players fsm set_fsm set_users].
    rewrite (Hupdate _ Hafter), Hrow. cbn [balance]. cbn [fmap option_fmap option_map negative_balance].
    repeat split; try done.
    intros other Hother. by apply update_user_balance_other.
  - assert (0 <= before + - amount) as Hafter by (subst before; lia).
    unfold bind at 1. cbn [credit modify].
    unfold bind at 1. cbn [get]. cbn [users set_users].
    unfold bind at 1. cbn [modify set_fsm ret].
    unfold get_user_balance at 1 2. rewrite (Hupdate _ Hafter). cbn [balance].
    subst after. replace (before + - amount) with (before - amount) by lia.
    eexists. split; [reflexivity |].
    unfold get_user_balance.
    cbn [users multiplayer_games game_players fsm set_fsm set_users].
    rewrite (Hupdate _ Hafter), Hrow. cbn [balance]. cbn [fmap option_fmap option_map negative_balance].
    repeat split; try done; try lia.
    intros other Hother. by apply update_user_balance_other.
Qed.

Lemma dice_bet_settles_witness :
  exists st',
    dice_bet_amount 1 (Some 30) 3 4 2 store0 = (Done (DiceLost 3 4 7 30 70), st')
    /\ get_user_balance (users st') 1 = 70.
Proof.
  destruct (dice_bet_settles store0 1 30 3 4 2) as (st' & Hrun & Hbal & _).
  - lia.
  - vm_compute. discriminate.
  - lia.
  - exists st'. split; [exact Hrun | exact Hbal].
Defined.

(** X28. A dice bet that fails a check moves no coin: a text that is not
    a number and an amount that is not positive are answered and leave
    the whole store as it is, so the player can type another amount; an
    amount above the balance - in particular any amount of a user without
    a row - only ends the dialogue. *)
Theorem dice_bet_rejections (st : db) (uid : Z) (amount : option Z)
    (dice1 dice2 multiplier : Z) :
  match amount with
  | None =>
      dice_bet_amount uid amount dice1 dice2 multiplier st = (Done NotANumber, st)
  | Some a =>
      (a <= 0 ->
       dice_bet_amount uid amount dice1 dice2 multiplier st = (Done BetNotPositive, st))
      /\ (0 < a -> get_user_balance (users st) uid < a ->
          dice_bet_amount uid amount dice1 dice2 multiplier st
          = (Done DiceNotEnoughCoins, set_fsm (delete uid) st))
      /\ (0 < a -> users st !! uid = None ->
          dice_bet_amount uid amount dice1 dice2 multiplier st
          = (Done DiceNotEnoughCoins, set_fsm (delete uid) st))
  end.
Proof.
  destruct amount as [a |]; [| reflexivity].
  assert (0 < a -> get_user_balance (users st) uid < a ->
          dice_bet_amount uid (Some a) dice1 dice2 multiplier st
          = (Done DiceNotEnoughCoins, set_fsm (delete uid) st)) as Hshort.
  { intros Hpos Hshort. unfold dice_bet_amount.
    rewrite (proj2 (Z.leb_gt a 0)) by lia.
    unfold bind at 1. cbn [get].
    rewrite (proj2 (Z.ltb_lt _ a)) by lia. reflexivity. }
  split; [| split].
  - intros Hle. unfold dice_bet_amount. by rewrite (proj2 (Z.leb_le a 0)) by lia.
  - exact Hshort.
  - intros Hpos Hnone. apply Hshort; [exact Hpos |].
    unfold get_user_balance. rewrite Hnone. lia.
Qed.

Lemma dice_bet_rejections_witness :
  dice_bet_amount 1 (Some 500) 6 6 2 store0
  = (Done DiceNotEnoughCoins, set_fsm (delete 1) store0).
Proof.
  destruct (dice_bet_rejections store0 1 (Some 500) 6 6 2) as (_ & Hshort & _).
  apply Hshort.
  - lia.
  - vm_compute. reflexivity.
Defined.

End DiceGame.
